(** * EduTrack (academo-track): the relational store and its page controllers

    A shallow embedding of the schema migration (tables, CHECK / UNIQUE /
    FOREIGN KEY constraints, the generated [average] column, the row-level
    security policies, [has_role], the triggers) and of the page controllers
    (Students, Subjects, Attendance, Grades, Reports) that talk to it.

    Conventions.
    - A nullable column is an [option]; [None] is SQL NULL.
    - A [DECIMAL(5,2)] column holds an integer count of hundredths
      (80.00 is [8000]); a numeric literal handed to the store is a
      [numeric]: decimal digits and a scale.
    - A text is the byte string of its UTF-8 encoding, the only byte strings
      the store takes in; a character is a byte that is not a continuation
      byte, with the continuation bytes that follow it.
    - A statement is atomic: it yields either a new database and a row count,
      or an error and the database it started from.
    - A JS number that a page computes with is a rational ([Q]): the values
      the pages compare are finite doubles, and comparisons of doubles are
      exact. *)

From Stdlib Require Import ZArith QArith Lqa Lia Ascii.
From stdpp Require Import base option list gmap strings sorting.

Local Open Scope Z_scope.

(** ** Scalars *)

Definition uuid := string.
Definition timestamptz := Z.
(** [DATE]: a day number. *)
Definition sql_date := Z.

(** [CREATE TYPE public.app_role AS ENUM ('admin', 'teacher', 'student')] *)
Inductive app_role := admin | teacher | student.

#[global] Instance app_role_eq_dec : EqDecision app_role.
Proof. solve_decision. Defined.

(** JSON scalars of [raw_user_meta_data] as [->>] sees them: JSON null reads
    as SQL NULL, anything else as its text. *)
Inductive json := JNull | JString (s : string).

(** ** Numerics *)

(** A numeric literal: [digits / 10 ^ scale]. *)
Record numeric := { digits : Z; scale : nat }.

(** Quotient [a / b] ([b > 0]) rounded to the nearest integer, ties away from
    zero: the rounding of [numeric] when a value is stored at a smaller
    scale. *)
Definition round_div (a b : Z) : Z :=
  Z.sgn a * ((2 * Z.abs a + b) / (2 * b)).

(** A literal rescaled to two fractional digits (hundredths). *)
Definition to_scale_2 (x : numeric) : Z :=
  if (scale x <=? 2)%nat
  then digits x * 10 ^ Z.of_nat (2 - scale x)
  else round_div (digits x) (10 ^ Z.of_nat (scale x - 2)).

(** Assignment to a [DECIMAL(5,2)] column: round to scale 2, then at most
    three digits may remain left of the decimal point. *)
Definition to_decimal_5_2 (x : numeric) : option Z :=
  let v := to_scale_2 x in
  if Z.abs v <? 100000 then Some v else None.

(** The literal lies in the real interval [0, 100]. *)
Definition numeric_in_0_100 (x : numeric) : bool :=
  (0 <=? digits x) && (digits x <=? 100 * 10 ^ Z.of_nat (scale x)).

(** ** Three-valued logic *)

(** [None] is UNKNOWN. *)
Definition sql_bool := option bool.

Definition sql_ge (a b : option Z) : sql_bool :=
  match a, b with Some x, Some y => Some (y <=? x) | _, _ => None end.

Definition sql_le (a b : option Z) : sql_bool :=
  match a, b with Some x, Some y => Some (x <=? y) | _, _ => None end.

Definition sql_and (a b : sql_bool) : sql_bool :=
  match a, b with
  | Some false, _ | _, Some false => Some false
  | Some true, Some true => Some true
  | _, _ => None
  end.

(** A CHECK constraint is violated only when its expression is FALSE. *)
Definition check_holds (b : sql_bool) : bool :=
  match b with Some false => false | _ => true end.

Definition sql_add (a b : option Z) : option Z :=
  match a, b with Some x, Some y => Some (x + y) | _, _ => None end.

(** [(e) / 2] stored back into a [DECIMAL(5,2)] column. *)
Definition sql_half_5_2 (a : option Z) : option Z :=
  match a with Some x => Some (round_div x 2) | None => None end.

(** ** Tables *)

Module auth.
Module users.
Record row := {
  id : uuid;
  email : option string;
  raw_user_meta_data : gmap string json;
}.
End users.
End auth.

Module profiles.
Record row := {
  id : uuid;                      (* PRIMARY KEY REFERENCES auth.users(id) ON DELETE CASCADE *)
  username : string;              (* VARCHAR(50) UNIQUE NOT NULL *)
  first_name : option string;     (* VARCHAR(100) *)
  last_name : option string;      (* VARCHAR(100) *)
  email : option string;          (* VARCHAR(100) *)
  created_at : timestamptz;
}.
(** The values of an INSERT; [username] is an expression that may be NULL. *)
Record input := {
  i_id : uuid;
  i_username : option string;
  i_first_name : option string;
  i_last_name : option string;
  i_email : option string;
}.
(** The SET list of an UPDATE: [None] leaves the column alone. *)
Record patch := {
  p_username : option string;
  p_first_name : option (option string);
  p_last_name : option (option string);
  p_email : option (option string);
}.
End profiles.

Module user_roles.
Record row := {
  id : uuid;
  user_id : uuid;                 (* NOT NULL REFERENCES auth.users(id) ON DELETE CASCADE *)
  role : app_role;
  created_at : timestamptz;
}.
Record input := { i_user_id : uuid; i_role : app_role }.
End user_roles.

Module students.
Record row := {
  id : uuid;
  first_name : string;            (* VARCHAR(100) NOT NULL *)
  last_name : string;             (* VARCHAR(100) NOT NULL *)
  id_number : string;             (* VARCHAR(20) UNIQUE NOT NULL *)
  email : string;                 (* VARCHAR(100) NOT NULL *)
  course : string;                (* VARCHAR(100) NOT NULL *)
  created_at : timestamptz;
  updated_at : timestamptz;
}.
(** [formData] of the Students page. *)
Record input := {
  i_first_name : string;
  i_last_name : string;
  i_id_number : string;
  i_email : string;
  i_course : string;
}.
End students.

Module subjects.
Record row := {
  id : uuid;
  name : string;                  (* VARCHAR(100) NOT NULL *)
  instructor : string;            (* VARCHAR(100) NOT NULL *)
  created_at : timestamptz;
  updated_at : timestamptz;
}.
(** [formData] of the Subjects page. *)
Record input := { i_name : string; i_instructor : string }.
End subjects.

Module attendance.
Record row := {
  id : uuid;
  date : sql_date;                (* NOT NULL *)
  present : bool;                 (* NOT NULL DEFAULT false *)
  student_id : uuid;              (* NOT NULL REFERENCES students(id) ON DELETE CASCADE *)
  subject_id : uuid;              (* NOT NULL REFERENCES subjects(id) ON DELETE CASCADE *)
  created_at : timestamptz;
}.
(** One record of an insert or upsert; [i_present = None] takes the DEFAULT. *)
Record input := {
  i_date : sql_date;
  i_student_id : uuid;
  i_subject_id : uuid;
  i_present : option bool;
}.
End attendance.

Module grades.
Record row := {
  id : uuid;
  partial_score : option Z;       (* DECIMAL(5,2) CHECK (>= 0 AND <= 100) *)
  exam_score : option Z;          (* DECIMAL(5,2) CHECK (>= 0 AND <= 100) *)
  average : option Z;             (* DECIMAL(5,2) GENERATED ALWAYS AS (...) STORED *)
  student_id : uuid;
  subject_id : uuid;
  created_at : timestamptz;
  updated_at : timestamptz;
}.
(** One record of an insert or upsert.  A score is a literal or NULL;
    [i_average = Some v] means the writer names the [average] column. *)
Record input := {
  i_student_id : uuid;
  i_subject_id : uuid;
  i_partial_score : option numeric;
  i_exam_score : option numeric;
  i_average : option (option numeric);
}.
(** The SET list of an UPDATE: [None] leaves the column alone. *)
Record patch := {
  p_partial_score : option (option numeric);
  p_exam_score : option (option numeric);
  p_average : option (option numeric);
}.

(** [CHECK (partial_score >= 0 AND partial_score <= 100)], likewise
    [exam_score]; 100 is 10000 hundredths. *)
Definition score_check (s : option Z) : sql_bool :=
  sql_and (sql_ge s (Some 0)) (sql_le s (Some 10000)).

(** [GENERATED ALWAYS AS ((partial_score + exam_score) / 2) STORED] *)
Definition generated_average (partial exam : option Z) : option Z :=
  sql_half_5_2 (sql_add partial exam).
End grades.

(** ** The database *)

Record database := {
  auth_users : list auth.users.row;
  tbl_profiles : list profiles.row;
  tbl_user_roles : list user_roles.row;
  tbl_students : list students.row;
  tbl_subjects : list subjects.row;
  tbl_attendance : list attendance.row;
  tbl_grades : list grades.row;
}.

Definition empty_db : database :=
  {| auth_users := []; tbl_profiles := []; tbl_user_roles := [];
     tbl_students := []; tbl_subjects := []; tbl_attendance := [];
     tbl_grades := [] |}.

Definition set_auth_users (db : database) (v : list auth.users.row) : database :=
  {| auth_users := v; tbl_profiles := tbl_profiles db;
     tbl_user_roles := tbl_user_roles db; tbl_students := tbl_students db;
     tbl_subjects := tbl_subjects db; tbl_attendance := tbl_attendance db;
     tbl_grades := tbl_grades db |}.

Definition set_profiles (db : database) (v : list profiles.row) : database :=
  {| auth_users := auth_users db; tbl_profiles := v;
     tbl_user_roles := tbl_user_roles db; tbl_students := tbl_students db;
     tbl_subjects := tbl_subjects db; tbl_attendance := tbl_attendance db;
     tbl_grades := tbl_grades db |}.

Definition set_user_roles (db : database) (v : list user_roles.row) : database :=
  {| auth_users := auth_users db; tbl_profiles := tbl_profiles db;
     tbl_user_roles := v; tbl_students := tbl_students db;
     tbl_subjects := tbl_subjects db; tbl_attendance := tbl_attendance db;
     tbl_grades := tbl_grades db |}.

Definition set_students (db : database) (v : list students.row) : database :=
  {| auth_users := auth_users db; tbl_profiles := tbl_profiles db;
     tbl_user_roles := tbl_user_roles db; tbl_students := v;
     tbl_subjects := tbl_subjects db; tbl_attendance := tbl_attendance db;
     tbl_grades := tbl_grades db |}.

Definition set_subjects (db : database) (v : list subjects.row) : database :=
  {| auth_users := auth_users db; tbl_profiles := tbl_profiles db;
     tbl_user_roles := tbl_user_roles db; tbl_students := tbl_students db;
     tbl_subjects := v; tbl_attendance := tbl_attendance db;
     tbl_grades := tbl_grades db |}.

Definition set_attendance (db : database) (v : list attendance.row) : database :=
  {| auth_users := auth_users db; tbl_profiles := tbl_profiles db;
     tbl_user_roles := tbl_user_roles db; tbl_students := tbl_students db;
     tbl_subjects := tbl_subjects db; tbl_attendance := v;
     tbl_grades := tbl_grades db |}.

Definition set_grades (db : database) (v : list grades.row) : database :=
  {| auth_users := auth_users db; tbl_profiles := tbl_profiles db;
     tbl_user_roles := tbl_user_roles db; tbl_students := tbl_students db;
     tbl_subjects := tbl_subjects db; tbl_attendance := tbl_attendance db;
     tbl_grades := v |}.

(** ** Row-level security *)

Inductive table :=
  T_profiles | T_user_roles | T_students | T_subjects | T_attendance | T_grades.

#[global] Instance table_eq_dec : EqDecision table.
Proof. solve_decision. Defined.

Inductive command := SELECT | INSERT | UPDATE | DELETE.

#[global] Instance command_eq_dec : EqDecision command.
Proof. solve_decision. Defined.

(** Who runs a statement: a request without a session, a signed-in account
    ([auth.uid()] is its id), or the owner of the tables, whom row-level
    security does not bind (the SECURITY DEFINER functions run as the owner). *)
Inductive caller := anon | authenticated (uid : uuid) | table_owner.

(** [public.has_role(_user_id, _role)]:
    [SELECT EXISTS (SELECT 1 FROM user_roles WHERE user_id = _user_id AND role = _role)] *)
Definition has_role (db : database) (_user_id : uuid) (_role : app_role) : bool :=
  existsb (λ r, bool_decide (user_roles.user_id r = _user_id)
                && bool_decide (user_roles.role r = _role))
          (tbl_user_roles db).

(** The USING expressions that occur in the migration. *)
Inductive qual :=
| q_true                              (* true *)
| q_uid_eq (column : string)          (* auth.uid() = column *)
| q_has_role (r : app_role)           (* public.has_role(auth.uid(), r) *)
| q_or (a b : qual).

Inductive policy_cmd := FOR (c : command) | FOR_ALL.

(** Every policy of the migration is permissive and [TO authenticated]. *)
Record policy := {
  polname : string;
  polrel : table;
  polcmd : policy_cmd;
  polqual : qual;
}.

Definition policies : list policy := [
  {| polname := "Users can view all profiles"; polrel := T_profiles;
     polcmd := FOR SELECT; polqual := q_true |};
  {| polname := "Users can update own profile"; polrel := T_profiles;
     polcmd := FOR UPDATE; polqual := q_uid_eq "id" |};
  {| polname := "Users can view own roles"; polrel := T_user_roles;
     polcmd := FOR SELECT; polqual := q_uid_eq "user_id" |};
  {| polname := "Admins can manage all roles"; polrel := T_user_roles;
     polcmd := FOR_ALL; polqual := q_has_role admin |};
  {| polname := "Authenticated users can view students"; polrel := T_students;
     polcmd := FOR SELECT; polqual := q_true |};
  {| polname := "Admins and teachers can manage students"; polrel := T_students;
     polcmd := FOR_ALL; polqual := q_or (q_has_role admin) (q_has_role teacher) |};
  {| polname := "Authenticated users can view subjects"; polrel := T_subjects;
     polcmd := FOR SELECT; polqual := q_true |};
  {| polname := "Admins and teachers can manage subjects"; polrel := T_subjects;
     polcmd := FOR_ALL; polqual := q_or (q_has_role admin) (q_has_role teacher) |};
  {| polname := "Authenticated users can view attendance"; polrel := T_attendance;
     polcmd := FOR SELECT; polqual := q_true |};
  {| polname := "Teachers and admins can manage attendance"; polrel := T_attendance;
     polcmd := FOR_ALL; polqual := q_or (q_has_role admin) (q_has_role teacher) |};
  {| polname := "Authenticated users can view grades"; polrel := T_grades;
     polcmd := FOR SELECT; polqual := q_true |};
  {| polname := "Teachers and admins can manage grades"; polrel := T_grades;
     polcmd := FOR_ALL; polqual := q_or (q_has_role admin) (q_has_role teacher) |}
].

(** The uuid columns of a row, by name, for the policy expressions. *)
Definition row_view := string → option uuid.

Definition profiles_view (r : profiles.row) : row_view :=
  λ c, if bool_decide (c = "id") then Some (profiles.id r) else None.

Definition user_roles_view (r : user_roles.row) : row_view :=
  λ c, if bool_decide (c = "id") then Some (user_roles.id r)
       else if bool_decide (c = "user_id") then Some (user_roles.user_id r)
       else None.

Definition students_view (r : students.row) : row_view :=
  λ c, if bool_decide (c = "id") then Some (students.id r) else None.

Definition subjects_view (r : subjects.row) : row_view :=
  λ c, if bool_decide (c = "id") then Some (subjects.id r) else None.

Definition attendance_view (r : attendance.row) : row_view :=
  λ c, if bool_decide (c = "id") then Some (attendance.id r)
       else if bool_decide (c = "student_id") then Some (attendance.student_id r)
       else if bool_decide (c = "subject_id") then Some (attendance.subject_id r)
       else None.

Definition grades_view (r : grades.row) : row_view :=
  λ c, if bool_decide (c = "id") then Some (grades.id r)
       else if bool_decide (c = "student_id") then Some (grades.student_id r)
       else if bool_decide (c = "subject_id") then Some (grades.subject_id r)
       else None.

Fixpoint eval_qual (db : database) (uid : uuid) (row : row_view) (q : qual) : bool :=
  match q with
  | q_true => true
  | q_uid_eq c => bool_decide (row c = Some uid)
  | q_has_role r => has_role db uid r
  | q_or a b => eval_qual db uid row a || eval_qual db uid row b
  end.

Definition policy_applies (p : policy) (t : table) (c : command) : bool :=
  bool_decide (polrel p = t)
  && match polcmd p with FOR c' => bool_decide (c' = c) | FOR_ALL => true end.

(** Row-level security is enabled on every table: a row passes for a command
    when some policy for that command accepts it (permissive policies are
    OR-ed; none applicable means denied).  A policy without WITH CHECK uses
    its USING expression for the rows it writes, so one function serves both. *)
Definition permits (db : database) (c : caller) (t : table) (cmd : command)
    (row : row_view) : bool :=
  match c with
  | table_owner => true
  | anon => false
  | authenticated uid =>
      existsb (λ p, policy_applies p t cmd && eval_qual db uid row (polqual p))
              policies
  end.

(** ** Statements *)

(** SQLSTATE conditions the store can raise. *)
Inductive error :=
| insufficient_privilege          (* 42501: new row violates row-level security policy *)
| check_violation                 (* 23514 *)
| unique_violation                (* 23505 *)
| foreign_key_violation           (* 23503 *)
| not_null_violation              (* 23502 *)
| numeric_value_out_of_range      (* 22003: numeric field overflow *)
| string_data_right_truncation    (* 22001: value too long for type character varying(n) *)
| generated_always                (* 428C9: cannot write a generated column *)
| cardinality_violation.          (* 21000: ON CONFLICT DO UPDATE cannot affect row a second time *)

Inductive result (A : Type) := Ok (a : A) | Err (e : error).
Arguments Ok {A} a.
Arguments Err {A} e.

#[global] Instance result_ret : MRet result := λ A a, Ok a.
#[global] Instance result_bind : MBind result :=
  λ A B f m, match m with Ok a => f a | Err e => Err e end.

Definition ensure (b : bool) (e : error) : result unit :=
  if b then Ok () else Err e.

(** What a statement's defaults draw from: [NOW()] and the uuids that
    [gen_random_uuid()] yields, one per row of the statement. *)
Record env := { now : timestamptz; gen_random_uuid : nat → uuid }.

Definition has_key {A K} `{EqDecision K} (key : A → K) (k : K) (l : list A) : bool :=
  existsb (λ r, bool_decide (key r = k)) l.

(** *** Texts on their way into a [VARCHAR(n)] column *)

(** A continuation byte of UTF-8: [10xxxxxx]. *)
Definition continuation (c : ascii) : bool :=
  match c with Ascii _ _ _ _ _ _ b6 b7 => b7 && negb b6 end.

(** [char_length(s)]: the characters of a text. *)
Fixpoint char_length (s : string) : nat :=
  match s with
  | EmptyString => 0%nat
  | String c rest =>
      if continuation c then char_length rest else S (char_length rest)
  end.

(** The first [n] characters of a text, all of it when it has no more. *)
Fixpoint clip (n : nat) (s : string) : string :=
  match s with
  | EmptyString => EmptyString
  | String c rest =>
      if continuation c then String c (clip n rest)
      else match n with
           | O => EmptyString
           | S n' => String c (clip n' rest)
           end
  end.

(** What follows the first [n] characters. *)
Fixpoint excess (n : nat) (s : string) : string :=
  match s with
  | EmptyString => EmptyString
  | String c rest =>
      if continuation c then excess n rest
      else match n with
           | O => s
           | S n' => excess n' rest
           end
  end.

(** Every byte is a space. *)
Fixpoint blank (s : string) : bool :=
  match s with
  | EmptyString => true
  | String c rest => bool_decide (c = " "%char) && blank rest
  end.

(** Assignment to a [VARCHAR(n)] column: a text of more than [n] characters
    is refused unless all that exceeds them is spaces; the column then stores
    the first [n] characters, [clip n s]. *)
Definition varchar (n : nat) (s : string) : result unit :=
  ensure (blank (excess n s)) string_data_right_truncation.

Definition varchar_null (n : nat) (s : option string) : result unit :=
  match s with None => Ok () | Some s => varchar n s end.

Definition clip_null (n : nat) (s : option string) : option string :=
  clip n <$> s.

(** *** students *)

Definition students_coerce (i : students.input) : result unit :=
  varchar 100 (students.i_first_name i) ;;
  varchar 100 (students.i_last_name i) ;;
  varchar 20 (students.i_id_number i) ;;
  varchar 100 (students.i_email i) ;;
  varchar 100 (students.i_course i).

(** The values the columns store of a record they accept. *)
Definition students_stored (i : students.input) : students.input :=
  {| students.i_first_name := clip 100 (students.i_first_name i);
     students.i_last_name := clip 100 (students.i_last_name i);
     students.i_id_number := clip 20 (students.i_id_number i);
     students.i_email := clip 100 (students.i_email i);
     students.i_course := clip 100 (students.i_course i) |}.

(** [supabase.from("students").insert([formData])] *)
Definition insert_student (e : env) (c : caller) (i : students.input)
    (db : database) : result (database * nat) :=
  students_coerce i ;;
  let v := students_stored i in
  let r := {| students.id := gen_random_uuid e 0;
              students.first_name := students.i_first_name v;
              students.last_name := students.i_last_name v;
              students.id_number := students.i_id_number v;
              students.email := students.i_email v;
              students.course := students.i_course v;
              students.created_at := now e;
              students.updated_at := now e |} in
  ensure (permits db c T_students INSERT (students_view r)) insufficient_privilege ;;
  ensure (negb (has_key students.id (students.id r) (tbl_students db))) unique_violation ;;
  ensure (negb (has_key students.id_number (students.id_number r) (tbl_students db)))
         unique_violation ;;
  Ok (set_students db (tbl_students db ++ [r]), 1%nat).

(** The rows an UPDATE or DELETE ... WHERE id = target can touch: those the
    caller may see and may apply the command to. *)
Definition student_hit (db : database) (c : caller) (cmd : command) (target : uuid)
    (r : students.row) : bool :=
  bool_decide (students.id r = target)
  && permits db c T_students cmd (students_view r)
  && permits db c T_students SELECT (students_view r).

(** [supabase.from("students").update(formData).eq("id", target)]; the
    BEFORE UPDATE trigger [update_students_updated_at] stamps the row. *)
Definition update_student (e : env) (c : caller) (target : uuid)
    (i : students.input) (db : database) : result (database * nat) :=
  students_coerce i ;;
  let v := students_stored i in
  let hit := filter (λ r, student_hit db c UPDATE target r) (tbl_students db) in
  let others := filter (λ r, ¬ student_hit db c UPDATE target r) (tbl_students db) in
  let upd r := {| students.id := students.id r;
                  students.first_name := students.i_first_name v;
                  students.last_name := students.i_last_name v;
                  students.id_number := students.i_id_number v;
                  students.email := students.i_email v;
                  students.course := students.i_course v;
                  students.created_at := students.created_at r;
                  students.updated_at := now e |} in
  match hit with
  | [] => Ok (db, 0%nat)
  | _ =>
      ensure (forallb (λ r, permits db c T_students UPDATE (students_view (upd r))) hit)
             insufficient_privilege ;;
      ensure ((length hit <=? 1)%nat
              && negb (has_key students.id_number (students.i_id_number v) others))
             unique_violation ;;
      Ok (set_students db
            (map (λ r, if student_hit db c UPDATE target r then upd r else r)
                 (tbl_students db)),
          length hit)
  end.

(** [supabase.from("students").delete().eq("id", target)]; the foreign keys
    of attendance and grades are ON DELETE CASCADE. *)
Definition delete_student (c : caller) (target : uuid) (db : database)
    : result (database * nat) :=
  let hit := filter (λ r, student_hit db c DELETE target r) (tbl_students db) in
  match hit with
  | [] => Ok (db, 0%nat)
  | _ =>
      Ok ({| auth_users := auth_users db;
             tbl_profiles := tbl_profiles db;
             tbl_user_roles := tbl_user_roles db;
             tbl_students :=
               filter (λ r, ¬ student_hit db c DELETE target r) (tbl_students db);
             tbl_subjects := tbl_subjects db;
             tbl_attendance :=
               filter (λ a, attendance.student_id a ≠ target) (tbl_attendance db);
             tbl_grades :=
               filter (λ g, grades.student_id g ≠ target) (tbl_grades db) |},
          length hit)
  end.

(** *** subjects *)

Definition subjects_coerce (i : subjects.input) : result unit :=
  varchar 100 (subjects.i_name i) ;;
  varchar 100 (subjects.i_instructor i).

Definition subjects_stored (i : subjects.input) : subjects.input :=
  {| subjects.i_name := clip 100 (subjects.i_name i);
     subjects.i_instructor := clip 100 (subjects.i_instructor i) |}.

(** [supabase.from("subjects").insert([formData])] *)
Definition insert_subject (e : env) (c : caller) (i : subjects.input)
    (db : database) : result (database * nat) :=
  subjects_coerce i ;;
  let v := subjects_stored i in
  let r := {| subjects.id := gen_random_uuid e 0;
              subjects.name := subjects.i_name v;
              subjects.instructor := subjects.i_instructor v;
              subjects.created_at := now e;
              subjects.updated_at := now e |} in
  ensure (permits db c T_subjects INSERT (subjects_view r)) insufficient_privilege ;;
  ensure (negb (has_key subjects.id (subjects.id r) (tbl_subjects db))) unique_violation ;;
  Ok (set_subjects db (tbl_subjects db ++ [r]), 1%nat).

Definition subject_hit (db : database) (c : caller) (cmd : command) (target : uuid)
    (r : subjects.row) : bool :=
  bool_decide (subjects.id r = target)
  && permits db c T_subjects cmd (subjects_view r)
  && permits db c T_subjects SELECT (subjects_view r).

(** [supabase.from("subjects").update(formData).eq("id", target)]; the
    BEFORE UPDATE trigger [update_subjects_updated_at] stamps the row. *)
Definition update_subject (e : env) (c : caller) (target : uuid)
    (i : subjects.input) (db : database) : result (database * nat) :=
  subjects_coerce i ;;
  let v := subjects_stored i in
  let hit := filter (λ r, subject_hit db c UPDATE target r) (tbl_subjects db) in
  let upd r := {| subjects.id := subjects.id r;
                  subjects.name := subjects.i_name v;
                  subjects.instructor := subjects.i_instructor v;
                  subjects.created_at := subjects.created_at r;
                  subjects.updated_at := now e |} in
  match hit with
  | [] => Ok (db, 0%nat)
  | _ =>
      ensure (forallb (λ r, permits db c T_subjects UPDATE (subjects_view (upd r))) hit)
             insufficient_privilege ;;
      Ok (set_subjects db
            (map (λ r, if subject_hit db c UPDATE target r then upd r else r)
                 (tbl_subjects db)),
          length hit)
  end.

(** [supabase.from("subjects").delete().eq("id", target)], cascading. *)
Definition delete_subject (c : caller) (target : uuid) (db : database)
    : result (database * nat) :=
  let hit := filter (λ r, subject_hit db c DELETE target r) (tbl_subjects db) in
  match hit with
  | [] => Ok (db, 0%nat)
  | _ =>
      Ok ({| auth_users := auth_users db;
             tbl_profiles := tbl_profiles db;
             tbl_user_roles := tbl_user_roles db;
             tbl_students := tbl_students db;
             tbl_subjects :=
               filter (λ r, ¬ subject_hit db c DELETE target r) (tbl_subjects db);
             tbl_attendance :=
               filter (λ a, attendance.subject_id a ≠ target) (tbl_attendance db);
             tbl_grades :=
               filter (λ g, grades.subject_id g ≠ target) (tbl_grades db) |},
          length hit)
  end.

(** *** attendance *)

(** [UNIQUE(date, student_id, subject_id)] *)
Definition attendance_key (r : attendance.row) : sql_date * uuid * uuid :=
  (attendance.date r, attendance.student_id r, attendance.subject_id r).

Definition attendance_input_key (i : attendance.input) : sql_date * uuid * uuid :=
  (attendance.i_date i, attendance.i_student_id i, attendance.i_subject_id i).

(** The row an INSERT proposes for a record, [k]-th of its statement. *)
Definition attendance_proposed (e : env) (k : nat) (i : attendance.input)
    : attendance.row :=
  {| attendance.id := gen_random_uuid e k;
     attendance.date := attendance.i_date i;
     attendance.present := default false (attendance.i_present i);
     attendance.student_id := attendance.i_student_id i;
     attendance.subject_id := attendance.i_subject_id i;
     attendance.created_at := now e |}.

Definition attendance_foreign_keys (r : attendance.row) (db : database) : result unit :=
  ensure (has_key students.id (attendance.student_id r) (tbl_students db))
         foreign_key_violation ;;
  ensure (has_key subjects.id (attendance.subject_id r) (tbl_subjects db))
         foreign_key_violation.

(** [INSERT INTO attendance (date, student_id, subject_id, present) VALUES (...)] *)
Definition insert_attendance (e : env) (c : caller) (i : attendance.input)
    (db : database) : result (database * nat) :=
  let r := attendance_proposed e 0 i in
  ensure (permits db c T_attendance INSERT (attendance_view r)) insufficient_privilege ;;
  ensure (negb (has_key attendance.id (attendance.id r) (tbl_attendance db)))
         unique_violation ;;
  ensure (negb (has_key attendance_key (attendance_key r) (tbl_attendance db)))
         unique_violation ;;
  attendance_foreign_keys r db ;;
  Ok (set_attendance db (tbl_attendance db ++ [r]), 1%nat).

(** One record of [upsert(records, { onConflict: "date,student_id,subject_id" })]:
    INSERT ... ON CONFLICT (date, student_id, subject_id) DO UPDATE SET the
    columns the record carries.  [seen] are the keys this statement has
    already written. *)
Definition upsert_attendance_row (e : env) (k : nat) (c : caller)
    (seen : list (sql_date * uuid * uuid)) (i : attendance.input) (db : database)
    : result database :=
  let r := attendance_proposed e k i in
  ensure (permits db c T_attendance INSERT (attendance_view r)) insufficient_privilege ;;
  if has_key attendance_key (attendance_key r) (tbl_attendance db) then
    let upd old := {| attendance.id := attendance.id old;
                      attendance.date := attendance.i_date i;
                      attendance.present :=
                        default (attendance.present old) (attendance.i_present i);
                      attendance.student_id := attendance.i_student_id i;
                      attendance.subject_id := attendance.i_subject_id i;
                      attendance.created_at := attendance.created_at old |} in
    ensure (negb (bool_decide (attendance_key r ∈ seen))) cardinality_violation ;;
    ensure (forallb (λ old, negb (bool_decide (attendance_key old = attendance_key r))
                            || (permits db c T_attendance UPDATE (attendance_view old)
                                && permits db c T_attendance SELECT (attendance_view old)
                                && permits db c T_attendance UPDATE
                                     (attendance_view (upd old))))
                    (tbl_attendance db))
           insufficient_privilege ;;
    Ok (set_attendance db
          (map (λ old, if bool_decide (attendance_key old = attendance_key r)
                       then upd old else old)
               (tbl_attendance db)))
  else
    ensure (negb (has_key attendance.id (attendance.id r) (tbl_attendance db)))
           unique_violation ;;
    attendance_foreign_keys r db ;;
    Ok (set_attendance db (tbl_attendance db ++ [r])).

Fixpoint upsert_attendance_rows (e : env) (c : caller) (k : nat)
    (seen : list (sql_date * uuid * uuid)) (rs : list attendance.input)
    (db : database) : result (database * nat) :=
  match rs with
  | [] => Ok (db, 0%nat)
  | i :: rs' =>
      db1 ← upsert_attendance_row e k c seen i db ;
      '(db2, n) ← upsert_attendance_rows e c (S k) (attendance_input_key i :: seen) rs' db1 ;
      Ok (db2, S n)
  end.

Definition upsert_attendance (e : env) (c : caller) (rs : list attendance.input)
    (db : database) : result (database * nat) :=
  upsert_attendance_rows e c 0 [] rs db.

Definition attendance_hit (db : database) (c : caller) (cmd : command) (target : uuid)
    (r : attendance.row) : bool :=
  bool_decide (attendance.id r = target)
  && permits db c T_attendance cmd (attendance_view r)
  && permits db c T_attendance SELECT (attendance_view r).

(** [UPDATE attendance SET present = b WHERE id = target] *)
Definition update_attendance (c : caller) (target : uuid) (b : bool)
    (db : database) : result (database * nat) :=
  let hit := filter (λ r, attendance_hit db c UPDATE target r) (tbl_attendance db) in
  let upd r := {| attendance.id := attendance.id r;
                  attendance.date := attendance.date r;
                  attendance.present := b;
                  attendance.student_id := attendance.student_id r;
                  attendance.subject_id := attendance.subject_id r;
                  attendance.created_at := attendance.created_at r |} in
  match hit with
  | [] => Ok (db, 0%nat)
  | _ =>
      ensure (forallb (λ r, permits db c T_attendance UPDATE (attendance_view (upd r))) hit)
             insufficient_privilege ;;
      Ok (set_attendance db
            (map (λ r, if attendance_hit db c UPDATE target r then upd r else r)
                 (tbl_attendance db)),
          length hit)
  end.

(** [DELETE FROM attendance WHERE id = target] *)
Definition delete_attendance (c : caller) (target : uuid) (db : database)
    : result (database * nat) :=
  let hit := filter (λ r, attendance_hit db c DELETE target r) (tbl_attendance db) in
  match hit with
  | [] => Ok (db, 0%nat)
  | _ =>
      Ok (set_attendance db
            (filter (λ r, ¬ attendance_hit db c DELETE target r) (tbl_attendance db)),
          length hit)
  end.

(** *** grades *)

(** [UNIQUE(student_id, subject_id)] *)
Definition grades_key (r : grades.row) : uuid * uuid :=
  (grades.student_id r, grades.subject_id r).

Definition grades_input_key (i : grades.input) : uuid * uuid :=
  (grades.i_student_id i, grades.i_subject_id i).

(** A supplied score on its way into a [DECIMAL(5,2)] column. *)
Definition coerce_score (s : option numeric) : result (option Z) :=
  match s with
  | None => Ok None
  | Some x =>
      match to_decimal_5_2 x with
      | Some v => Ok (Some v)
      | None => Err numeric_value_out_of_range
      end
  end.

(** [average] is GENERATED ALWAYS: a statement that names it is refused. *)
Definition generated_untouched (a : option (option numeric)) : result unit :=
  match a with None => Ok () | Some _ => Err generated_always end.

Definition grades_checks (r : grades.row) : result unit :=
  ensure (check_holds (grades.score_check (grades.partial_score r))) check_violation ;;
  ensure (check_holds (grades.score_check (grades.exam_score r))) check_violation.

Definition grades_foreign_keys (r : grades.row) (db : database) : result unit :=
  ensure (has_key students.id (grades.student_id r) (tbl_students db))
         foreign_key_violation ;;
  ensure (has_key subjects.id (grades.subject_id r) (tbl_subjects db))
         foreign_key_violation.

(** The row an INSERT proposes for a record, [k]-th of its statement. *)
Definition grades_proposed (e : env) (k : nat) (i : grades.input)
    : result grades.row :=
  generated_untouched (grades.i_average i) ;;
  p ← coerce_score (grades.i_partial_score i) ;
  x ← coerce_score (grades.i_exam_score i) ;
  Ok {| grades.id := gen_random_uuid e k;
        grades.partial_score := p;
        grades.exam_score := x;
        grades.average := grades.generated_average p x;
        grades.student_id := grades.i_student_id i;
        grades.subject_id := grades.i_subject_id i;
        grades.created_at := now e;
        grades.updated_at := now e |}.

(** [INSERT INTO grades (student_id, subject_id, partial_score, exam_score) VALUES (...)] *)
Definition insert_grade (e : env) (c : caller) (i : grades.input)
    (db : database) : result (database * nat) :=
  r ← grades_proposed e 0 i ;
  ensure (permits db c T_grades INSERT (grades_view r)) insufficient_privilege ;;
  grades_checks r ;;
  ensure (negb (has_key grades.id (grades.id r) (tbl_grades db))) unique_violation ;;
  ensure (negb (has_key grades_key (grades_key r) (tbl_grades db))) unique_violation ;;
  grades_foreign_keys r db ;;
  Ok (set_grades db (tbl_grades db ++ [r]), 1%nat).

(** One record of [upsert(records, { onConflict: "student_id,subject_id" })];
    on conflict the BEFORE UPDATE trigger [update_grades_updated_at] stamps
    the row and [average] is generated anew. *)
Definition upsert_grades_row (e : env) (k : nat) (c : caller)
    (seen : list (uuid * uuid)) (i : grades.input) (db : database)
    : result database :=
  r ← grades_proposed e k i ;
  ensure (permits db c T_grades INSERT (grades_view r)) insufficient_privilege ;;
  grades_checks r ;;
  if has_key grades_key (grades_key r) (tbl_grades db) then
    let upd old := {| grades.id := grades.id old;
                      grades.partial_score := grades.partial_score r;
                      grades.exam_score := grades.exam_score r;
                      grades.average :=
                        grades.generated_average (grades.partial_score r)
                                                 (grades.exam_score r);
                      grades.student_id := grades.i_student_id i;
                      grades.subject_id := grades.i_subject_id i;
                      grades.created_at := grades.created_at old;
                      grades.updated_at := now e |} in
    ensure (negb (bool_decide (grades_key r ∈ seen))) cardinality_violation ;;
    ensure (forallb (λ old, negb (bool_decide (grades_key old = grades_key r))
                            || (permits db c T_grades UPDATE (grades_view old)
                                && permits db c T_grades SELECT (grades_view old)
                                && permits db c T_grades UPDATE (grades_view (upd old))))
                    (tbl_grades db))
           insufficient_privilege ;;
    Ok (set_grades db
          (map (λ old, if bool_decide (grades_key old = grades_key r)
                       then upd old else old)
               (tbl_grades db)))
  else
    ensure (negb (has_key grades.id (grades.id r) (tbl_grades db))) unique_violation ;;
    grades_foreign_keys r db ;;
    Ok (set_grades db (tbl_grades db ++ [r])).

Fixpoint upsert_grades_rows (e : env) (c : caller) (k : nat)
    (seen : list (uuid * uuid)) (rs : list grades.input) (db : database)
    : result (database * nat) :=
  match rs with
  | [] => Ok (db, 0%nat)
  | i :: rs' =>
      db1 ← upsert_grades_row e k c seen i db ;
      '(db2, n) ← upsert_grades_rows e c (S k) (grades_input_key i :: seen) rs' db1 ;
      Ok (db2, S n)
  end.

Definition upsert_grades (e : env) (c : caller) (rs : list grades.input)
    (db : database) : result (database * nat) :=
  upsert_grades_rows e c 0 [] rs db.

Definition grade_hit (db : database) (c : caller) (cmd : command) (target : uuid)
    (r : grades.row) : bool :=
  bool_decide (grades.id r = target)
  && permits db c T_grades cmd (grades_view r)
  && permits db c T_grades SELECT (grades_view r).

(** A SET entry for a score column: absent, or a coerced value. *)
Definition coerce_set (s : option (option numeric)) : result (option (option Z)) :=
  match s with
  | None => Ok None
  | Some v => v' ← coerce_score v ; Ok (Some v')
  end.

(** [UPDATE grades SET ... WHERE id = target]; the BEFORE UPDATE trigger
    stamps [updated_at] and [average] is generated anew. *)
Definition update_grade (e : env) (c : caller) (target : uuid) (p : grades.patch)
    (db : database) : result (database * nat) :=
  generated_untouched (grades.p_average p) ;;
  sp ← coerce_set (grades.p_partial_score p) ;
  sx ← coerce_set (grades.p_exam_score p) ;
  let hit := filter (λ r, grade_hit db c UPDATE target r) (tbl_grades db) in
  let upd r :=
    let p' := default (grades.partial_score r) sp in
    let x' := default (grades.exam_score r) sx in
    {| grades.id := grades.id r;
       grades.partial_score := p';
       grades.exam_score := x';
       grades.average := grades.generated_average p' x';
       grades.student_id := grades.student_id r;
       grades.subject_id := grades.subject_id r;
       grades.created_at := grades.created_at r;
       grades.updated_at := now e |} in
  match hit with
  | [] => Ok (db, 0%nat)
  | _ =>
      ensure (forallb (λ r, permits db c T_grades UPDATE (grades_view (upd r))) hit)
             insufficient_privilege ;;
      ensure (forallb (λ r, check_holds (grades.score_check (grades.partial_score (upd r)))
                            && check_holds (grades.score_check (grades.exam_score (upd r))))
                      hit)
             check_violation ;;
      Ok (set_grades db
            (map (λ r, if grade_hit db c UPDATE target r then upd r else r)
                 (tbl_grades db)),
          length hit)
  end.

(** [DELETE FROM grades WHERE id = target] *)
Definition delete_grade (c : caller) (target : uuid) (db : database)
    : result (database * nat) :=
  let hit := filter (λ r, grade_hit db c DELETE target r) (tbl_grades db) in
  match hit with
  | [] => Ok (db, 0%nat)
  | _ =>
      Ok (set_grades db
            (filter (λ r, ¬ grade_hit db c DELETE target r) (tbl_grades db)),
          length hit)
  end.

(** *** profiles *)

Definition profiles_input_view (i : profiles.input) : row_view :=
  λ c, if bool_decide (c = "id") then Some (profiles.i_id i) else None.

(** [INSERT INTO public.profiles (id, username, first_name, last_name, email)
    VALUES (...)] *)
Definition insert_profile (e : env) (c : caller) (i : profiles.input)
    (db : database) : result (database * nat) :=
  varchar_null 50 (profiles.i_username i) ;;
  varchar_null 100 (profiles.i_first_name i) ;;
  varchar_null 100 (profiles.i_last_name i) ;;
  varchar_null 100 (profiles.i_email i) ;;
  ensure (permits db c T_profiles INSERT (profiles_input_view i)) insufficient_privilege ;;
  match clip_null 50 (profiles.i_username i) with
  | None => Err not_null_violation
  | Some u =>
      let r := {| profiles.id := profiles.i_id i;
                  profiles.username := u;
                  profiles.first_name := clip_null 100 (profiles.i_first_name i);
                  profiles.last_name := clip_null 100 (profiles.i_last_name i);
                  profiles.email := clip_null 100 (profiles.i_email i);
                  profiles.created_at := now e |} in
      ensure (negb (has_key profiles.id (profiles.id r) (tbl_profiles db)))
             unique_violation ;;
      ensure (negb (has_key profiles.username u (tbl_profiles db))) unique_violation ;;
      ensure (has_key auth.users.id (profiles.id r) (auth_users db))
             foreign_key_violation ;;
      Ok (set_profiles db (tbl_profiles db ++ [r]), 1%nat)
  end.

Definition profile_hit (db : database) (c : caller) (cmd : command) (target : uuid)
    (r : profiles.row) : bool :=
  bool_decide (profiles.id r = target)
  && permits db c T_profiles cmd (profiles_view r)
  && permits db c T_profiles SELECT (profiles_view r).

(** [UPDATE profiles SET ... WHERE id = target] *)
Definition update_profile (c : caller) (target : uuid) (p : profiles.patch)
    (db : database) : result (database * nat) :=
  varchar_null 50 (profiles.p_username p) ;;
  varchar_null 100 (default None (profiles.p_first_name p)) ;;
  varchar_null 100 (default None (profiles.p_last_name p)) ;;
  varchar_null 100 (default None (profiles.p_email p)) ;;
  let hit := filter (λ r, profile_hit db c UPDATE target r) (tbl_profiles db) in
  let others := filter (λ r, ¬ profile_hit db c UPDATE target r) (tbl_profiles db) in
  let upd r := {| profiles.id := profiles.id r;
                  profiles.username :=
                    default (profiles.username r) (clip_null 50 (profiles.p_username p));
                  profiles.first_name :=
                    default (profiles.first_name r)
                            (clip_null 100 <$> profiles.p_first_name p);
                  profiles.last_name :=
                    default (profiles.last_name r)
                            (clip_null 100 <$> profiles.p_last_name p);
                  profiles.email :=
                    default (profiles.email r) (clip_null 100 <$> profiles.p_email p);
                  profiles.created_at := profiles.created_at r |} in
  match hit with
  | [] => Ok (db, 0%nat)
  | _ =>
      ensure (forallb (λ r, permits db c T_profiles UPDATE (profiles_view (upd r))) hit)
             insufficient_privilege ;;
      ensure (match clip_null 50 (profiles.p_username p) with
              | None => true
              | Some u => (length hit <=? 1)%nat && negb (has_key profiles.username u others)
              end)
             unique_violation ;;
      Ok (set_profiles db
            (map (λ r, if profile_hit db c UPDATE target r then upd r else r)
                 (tbl_profiles db)),
          length hit)
  end.

(** [DELETE FROM profiles WHERE id = target] *)
Definition delete_profile (c : caller) (target : uuid) (db : database)
    : result (database * nat) :=
  let hit := filter (λ r, profile_hit db c DELETE target r) (tbl_profiles db) in
  match hit with
  | [] => Ok (db, 0%nat)
  | _ =>
      Ok (set_profiles db
            (filter (λ r, ¬ profile_hit db c DELETE target r) (tbl_profiles db)),
          length hit)
  end.

(** *** user_roles *)

Definition user_roles_key (r : user_roles.row) : uuid * app_role :=
  (user_roles.user_id r, user_roles.role r).

(** [INSERT INTO user_roles (user_id, role) VALUES (...)] *)
Definition insert_user_role (e : env) (c : caller) (i : user_roles.input)
    (db : database) : result (database * nat) :=
  let r := {| user_roles.id := gen_random_uuid e 0;
              user_roles.user_id := user_roles.i_user_id i;
              user_roles.role := user_roles.i_role i;
              user_roles.created_at := now e |} in
  ensure (permits db c T_user_roles INSERT (user_roles_view r)) insufficient_privilege ;;
  ensure (negb (has_key user_roles.id (user_roles.id r) (tbl_user_roles db)))
         unique_violation ;;
  ensure (negb (has_key user_roles_key (user_roles_key r) (tbl_user_roles db)))
         unique_violation ;;
  ensure (has_key auth.users.id (user_roles.user_id r) (auth_users db))
         foreign_key_violation ;;
  Ok (set_user_roles db (tbl_user_roles db ++ [r]), 1%nat).

Definition user_role_hit (db : database) (c : caller) (cmd : command) (target : uuid)
    (r : user_roles.row) : bool :=
  bool_decide (user_roles.id r = target)
  && permits db c T_user_roles cmd (user_roles_view r)
  && permits db c T_user_roles SELECT (user_roles_view r).

(** [DELETE FROM user_roles WHERE id = target] *)
Definition delete_user_role (c : caller) (target : uuid) (db : database)
    : result (database * nat) :=
  let hit := filter (λ r, user_role_hit db c DELETE target r) (tbl_user_roles db) in
  match hit with
  | [] => Ok (db, 0%nat)
  | _ =>
      Ok (set_user_roles db
            (filter (λ r, ¬ user_role_hit db c DELETE target r) (tbl_user_roles db)),
          length hit)
  end.

(** *** auth.users and the provisioning trigger *)

(** [o ->> k]: the field as text, NULL when absent or JSON null. *)
Definition json_get_text (o : gmap string json) (k : string) : option string :=
  match o !! k with
  | Some (JString s) => Some s
  | Some JNull | None => None
  end.

(** [SPLIT_PART(s, d, n)] for a one-character delimiter and a field number
    [n >= 1]: the [n]-th field of [s] cut at every [d], empty when there are
    fewer fields. *)
Fixpoint split_part (s : string) (d : Ascii.ascii) (n : nat) : string :=
  match s with
  | EmptyString => EmptyString
  | String ch rest =>
      match n with
      | O => EmptyString
      | S O =>
          if bool_decide (ch = d) then EmptyString
          else String ch (split_part rest d 1)
      | S (S _ as n') =>
          if bool_decide (ch = d) then split_part rest d n'
          else split_part rest d n
      end
  end.

(** [COALESCE(a, b)] *)
Definition coalesce {A} (a b : option A) : option A :=
  match a with Some _ => a | None => b end.

(** [public.handle_new_user()], SECURITY DEFINER: the INSERT runs as the
    owner of the function. *)
Definition handle_new_user (e : env) (NEW : auth.users.row) (db : database)
    : result (database * nat) :=
  insert_profile e table_owner
    {| profiles.i_id := auth.users.id NEW;
       profiles.i_username :=
         coalesce (json_get_text (auth.users.raw_user_meta_data NEW) "username")
                  ((λ m, split_part m "@"%char 1) <$> auth.users.email NEW);
       profiles.i_first_name :=
         json_get_text (auth.users.raw_user_meta_data NEW) "first_name";
       profiles.i_last_name :=
         json_get_text (auth.users.raw_user_meta_data NEW) "last_name";
       profiles.i_email := auth.users.email NEW |}
    db.

(** The auth service creates an account: INSERT INTO auth.users, then the
    trigger [on_auth_user_created] (AFTER INSERT, FOR EACH ROW) runs
    [handle_new_user]; an error in the trigger aborts the whole insert. *)
Definition insert_user (e : env) (u : auth.users.row) (db : database)
    : result (database * nat) :=
  ensure (negb (has_key auth.users.id (auth.users.id u) (auth_users db)))
         unique_violation ;;
  '(db', _) ← handle_new_user e u (set_auth_users db (auth_users db ++ [u])) ;
  Ok (db', 1%nat).

(** The auth service removes an account; profiles and user_roles reference
    it ON DELETE CASCADE. *)
Definition delete_user (target : uuid) (db : database) : result (database * nat) :=
  let hit := filter (λ u, auth.users.id u = target) (auth_users db) in
  match hit with
  | [] => Ok (db, 0%nat)
  | _ =>
      Ok ({| auth_users := filter (λ u, auth.users.id u ≠ target) (auth_users db);
             tbl_profiles := filter (λ p, profiles.id p ≠ target) (tbl_profiles db);
             tbl_user_roles :=
               filter (λ r, user_roles.user_id r ≠ target) (tbl_user_roles db);
             tbl_students := tbl_students db;
             tbl_subjects := tbl_subjects db;
             tbl_attendance := tbl_attendance db;
             tbl_grades := tbl_grades db |},
          length hit)
  end.

(** *** Running a statement *)

Inductive statement :=
| InsertUser (u : auth.users.row)
| DeleteUser (target : uuid)
| InsertProfile (i : profiles.input)
| UpdateProfile (target : uuid) (p : profiles.patch)
| DeleteProfile (target : uuid)
| InsertUserRole (i : user_roles.input)
| DeleteUserRole (target : uuid)
| InsertStudent (i : students.input)
| UpdateStudent (target : uuid) (i : students.input)
| DeleteStudent (target : uuid)
| InsertSubject (i : subjects.input)
| UpdateSubject (target : uuid) (i : subjects.input)
| DeleteSubject (target : uuid)
| InsertAttendance (i : attendance.input)
| UpsertAttendance (rs : list attendance.input)
| UpdateAttendance (target : uuid) (present : bool)
| DeleteAttendance (target : uuid)
| InsertGrade (i : grades.input)
| UpsertGrades (rs : list grades.input)
| UpdateGrade (target : uuid) (p : grades.patch)
| DeleteGrade (target : uuid).

Definition run (e : env) (c : caller) (s : statement) (db : database)
    : result (database * nat) :=
  match s with
  | InsertUser u => insert_user e u db
  | DeleteUser t => delete_user t db
  | InsertProfile i => insert_profile e c i db
  | UpdateProfile t p => update_profile c t p db
  | DeleteProfile t => delete_profile c t db
  | InsertUserRole i => insert_user_role e c i db
  | DeleteUserRole t => delete_user_role c t db
  | InsertStudent i => insert_student e c i db
  | UpdateStudent t i => update_student e c t i db
  | DeleteStudent t => delete_student c t db
  | InsertSubject i => insert_subject e c i db
  | UpdateSubject t i => update_subject e c t i db
  | DeleteSubject t => delete_subject c t db
  | InsertAttendance i => insert_attendance e c i db
  | UpsertAttendance rs => upsert_attendance e c rs db
  | UpdateAttendance t b => update_attendance c t b db
  | DeleteAttendance t => delete_attendance c t db
  | InsertGrade i => insert_grade e c i db
  | UpsertGrades rs => upsert_grades e c rs db
  | UpdateGrade t p => update_grade e c t p db
  | DeleteGrade t => delete_grade c t db
  end.

(** What the client gets back: the number of rows written, or the error. *)
Inductive outcome := Done (rows : nat) | Rejected (e : error).

(** A statement is atomic: on an error the database is the one it started
    from, no row of a multi-row statement stays written. *)
Definition exec (e : env) (c : caller) (s : statement) (db : database)
    : database * outcome :=
  match run e c s db with
  | Ok (db', n) => (db', Done n)
  | Err err => (db, Rejected err)
  end.

(** The table a statement writes to, and the command it is. *)
Definition statement_table (s : statement) : option table :=
  match s with
  | InsertUser _ | DeleteUser _ => None
  | InsertProfile _ | UpdateProfile _ _ | DeleteProfile _ => Some T_profiles
  | InsertUserRole _ | DeleteUserRole _ => Some T_user_roles
  | InsertStudent _ | UpdateStudent _ _ | DeleteStudent _ => Some T_students
  | InsertSubject _ | UpdateSubject _ _ | DeleteSubject _ => Some T_subjects
  | InsertAttendance _ | UpsertAttendance _ | UpdateAttendance _ _
  | DeleteAttendance _ => Some T_attendance
  | InsertGrade _ | UpsertGrades _ | UpdateGrade _ _ | DeleteGrade _ => Some T_grades
  end.

(** The databases the store can be in: from the empty schema, by statements. *)
Inductive reachable : database → Prop :=
| reachable_empty : reachable empty_db
| reachable_exec e c s db : reachable db → reachable (exec e c s db).1.

(** ** The client *)

(** What a page sends to the store. *)
Inductive request :=
| req_select (t : table)
| req_statement (s : statement).

(** [toast({ title: "Success", ... })] and
    [toast({ title: "Error", ..., variant: "destructive" })] *)
Inductive toast :=
| toast_success (description : string)
| toast_error (description : string).

(** [error.message] *)
Definition message (err : error) : string :=
  match err with
  | insufficient_privilege => "new row violates row-level security policy"
  | check_violation => "new row violates check constraint"
  | unique_violation => "duplicate key value violates unique constraint"
  | foreign_key_violation => "insert or update violates foreign key constraint"
  | not_null_violation => "null value violates not-null constraint"
  | numeric_value_out_of_range => "numeric field overflow"
  | string_data_right_truncation => "value too long for type character varying"
  | generated_always => "cannot insert a non-DEFAULT value into a generated column"
  | cardinality_violation => "ON CONFLICT DO UPDATE command cannot affect row a second time"
  end.

(** The browser tab and the store behind it: the signed-in session, the
    defaults the store will draw for its n-th request, the requests sent so
    far (oldest first) and the notifications shown. *)
Record world := {
  store : database;
  session : caller;
  draw : nat → env;
  requests : list request;
  toasts : list toast;
}.

Definition notify (t : toast) (w : world) : world :=
  {| store := store w; session := session w; draw := draw w;
     requests := requests w; toasts := toasts w ++ [t] |}.

(** A write through the client: the statement runs in the store as the
    session's caller. *)
Definition send (s : statement) (w : world) : world * outcome :=
  let r := exec (draw w (length (requests w))) (session w) s (store w) in
  ({| store := r.1; session := session w; draw := draw w;
      requests := requests w ++ [req_statement s]; toasts := toasts w |},
   r.2).

(** A read through the client: the rows of the table the SELECT policies
    let the session see. *)
Definition select {R} (t : table) (view : R → row_view) (rows : database → list R)
    (w : world) : world * list R :=
  ({| store := store w; session := session w; draw := draw w;
      requests := requests w ++ [req_select t]; toasts := toasts w |},
   filter (λ r, permits (store w) (session w) t SELECT (view r)) (rows (store w))).

(** [s.includes(t)]: [t] occurs in [s] as a substring. *)
Fixpoint includes (s t : string) : bool :=
  String.prefix t s
  || match s with
     | EmptyString => false
     | String _ rest => includes rest t
     end.

(** *** pages/Students.tsx *)

Module Students.

Record state := {
  students : list students.row;
  search : string;
  isDialogOpen : bool;
  editingStudent : option students.row;
  formData : students.input;
}.

Definition emptyForm : students.input :=
  {| students.i_first_name := ""; students.i_last_name := "";
     students.i_id_number := ""; students.i_email := ""; students.i_course := "" |}.

(** [supabase.from("students").select("*").order("last_name", { ascending: true })] *)
Definition fetchStudents (st : state) (w : world) : state * world :=
  let r := select T_students students_view tbl_students w in
  ({| students :=
        merge_sort (λ a b, String.leb (students.last_name a) (students.last_name b)) r.2;
      search := search st; isDialogOpen := isDialogOpen st;
      editingStudent := editingStudent st; formData := formData st |},
   r.1).

Definition handleSubmit (st : state) (w : world) : state * world :=
  let r := match editingStudent st with
           | Some s => send (UpdateStudent (students.id s) (formData st)) w
           | None => send (InsertStudent (formData st)) w
           end in
  match r.2 with
  | Rejected err => (st, notify (toast_error (message err)) r.1)
  | Done _ =>
      fetchStudents
        {| students := students st; search := search st; isDialogOpen := false;
           editingStudent := None; formData := emptyForm |}
        (notify (toast_success
                   (match editingStudent st with
                    | Some _ => "Student updated successfully"
                    | None => "Student added successfully"
                    end))
                r.1)
  end.

(** [confirmed] is the answer to [confirm("Are you sure ...")]. *)
Definition handleDelete (confirmed : bool) (id : uuid) (st : state) (w : world)
    : state * world :=
  if confirmed then
    let r := send (DeleteStudent id) w in
    match r.2 with
    | Rejected err => (st, notify (toast_error (message err)) r.1)
    | Done _ =>
        fetchStudents st (notify (toast_success "Student deleted successfully") r.1)
    end
  else (st, w).

(** [handleEdit(student)]: the dialog opens on the student's columns. *)
Definition handleEdit (student : students.row) (st : state) : state :=
  {| students := students st; search := search st; isDialogOpen := true;
     editingStudent := Some student;
     formData :=
       {| students.i_first_name := students.first_name student;
          students.i_last_name := students.last_name student;
          students.i_id_number := students.id_number student;
          students.i_email := students.email student;
          students.i_course := students.course student |} |}.

Section js.

(** The JS built-in [String.prototype.toLowerCase]. *)
Variable toLowerCase : string → string.

(** [students.filter((s) => s.first_name.toLowerCase().includes(search.toLowerCase())
    || s.last_name... || s.id_number...)] *)
Definition filteredStudents (st : state) : list students.row :=
  filter (λ s, includes (toLowerCase (students.first_name s)) (toLowerCase (search st))
               || includes (toLowerCase (students.last_name s)) (toLowerCase (search st))
               || includes (toLowerCase (students.id_number s)) (toLowerCase (search st)))
         (students st).

End js.

End Students.

(** *** pages/Subjects.tsx *)

Module Subjects.

Record state := {
  subjects : list subjects.row;
  isDialogOpen : bool;
  editingSubject : option subjects.row;
  formData : subjects.input;
}.

Definition emptyForm : subjects.input :=
  {| subjects.i_name := ""; subjects.i_instructor := "" |}.

(** [supabase.from("subjects").select("*").order("name", { ascending: true })] *)
Definition fetchSubjects (st : state) (w : world) : state * world :=
  let r := select T_subjects subjects_view tbl_subjects w in
  ({| subjects := merge_sort (λ a b, String.leb (subjects.name a) (subjects.name b)) r.2;
      isDialogOpen := isDialogOpen st; editingSubject := editingSubject st;
      formData := formData st |},
   r.1).

Definition handleSubmit (st : state) (w : world) : state * world :=
  let r := match editingSubject st with
           | Some s => send (UpdateSubject (subjects.id s) (formData st)) w
           | None => send (InsertSubject (formData st)) w
           end in
  match r.2 with
  | Rejected err => (st, notify (toast_error (message err)) r.1)
  | Done _ =>
      fetchSubjects
        {| subjects := subjects st; isDialogOpen := false;
           editingSubject := None; formData := emptyForm |}
        (notify (toast_success
                   (match editingSubject st with
                    | Some _ => "Subject updated successfully"
                    | None => "Subject added successfully"
                    end))
                r.1)
  end.

Definition handleDelete (confirmed : bool) (id : uuid) (st : state) (w : world)
    : state * world :=
  if confirmed then
    let r := send (DeleteSubject id) w in
    match r.2 with
    | Rejected err => (st, notify (toast_error (message err)) r.1)
    | Done _ =>
        fetchSubjects st (notify (toast_success "Subject deleted successfully") r.1)
    end
  else (st, w).

(** [handleEdit(subject)]: the dialog opens on the subject's columns. *)
Definition handleEdit (subject : subjects.row) (st : state) : state :=
  {| subjects := subjects st; isDialogOpen := true;
     editingSubject := Some subject;
     formData := {| subjects.i_name := subjects.name subject;
                    subjects.i_instructor := subjects.instructor subject |} |}.

End Subjects.

(** *** pages/Attendance.tsx *)

Module Attendance.

Record state := {
  students : list students.row;
  subjects : list subjects.row;
  selectedSubject : string;
  selectedDate : sql_date;
  attendance : gmap string bool;
}.

Definition fetchStudents (st : state) (w : world) : state * world :=
  let r := select T_students students_view tbl_students w in
  ({| students :=
        merge_sort (λ a b, String.leb (students.last_name a) (students.last_name b)) r.2;
      subjects := subjects st; selectedSubject := selectedSubject st;
      selectedDate := selectedDate st; attendance := attendance st |},
   r.1).

Definition fetchSubjects (st : state) (w : world) : state * world :=
  let r := select T_subjects subjects_view tbl_subjects w in
  ({| students := students st; subjects := r.2;
      selectedSubject := selectedSubject st; selectedDate := selectedDate st;
      attendance := attendance st |},
   r.1).

(** [select("student_id, present").eq("subject_id", selectedSubject)
    .eq("date", format(selectedDate, "yyyy-MM-dd"))], folded into
    [attendanceMap]. *)
Definition fetchAttendance (st : state) (w : world) : state * world :=
  let r := select T_attendance attendance_view tbl_attendance w in
  let data := filter (λ a, attendance.subject_id a = selectedSubject st
                           ∧ attendance.date a = selectedDate st) r.2 in
  ({| students := students st; subjects := subjects st;
      selectedSubject := selectedSubject st; selectedDate := selectedDate st;
      attendance :=
        foldl (λ m record, <[attendance.student_id record := attendance.present record]> m)
              ∅ data |},
   r.1).

Definition handleAttendanceChange (studentId : string) (present : bool) (st : state)
    : state :=
  {| students := students st; subjects := subjects st;
     selectedSubject := selectedSubject st; selectedDate := selectedDate st;
     attendance := <[studentId := present]> (attendance st) |}.

(** [students.map((student) => ({ date, student_id: student.id,
    subject_id: selectedSubject, present: attendance[student.id] || false }))] *)
Definition records (st : state) : list attendance.input :=
  map (λ student,
         {| attendance.i_date := selectedDate st;
            attendance.i_student_id := students.id student;
            attendance.i_subject_id := selectedSubject st;
            attendance.i_present :=
              Some (default false (attendance st !! students.id student)) |})
      (students st).

Definition handleSave (st : state) (w : world) : state * world :=
  if bool_decide (selectedSubject st = "") then
    (st, notify (toast_error "Please select a subject") w)
  else
    let r := send (UpsertAttendance (records st)) w in
    match r.2 with
    | Rejected err => (st, notify (toast_error (message err)) r.1)
    | Done _ => (st, notify (toast_success "Attendance saved successfully") r.1)
    end.

End Attendance.

(** *** pages/Grades.tsx *)

(** A JS object used as a record keyed by strings: entries in insertion
    order, one per key. *)
Definition js_object (V : Type) := list (string * V).

(** [o[k]] *)
Fixpoint js_get {V} (o : js_object V) (k : string) : option V :=
  match o with
  | [] => None
  | kv :: rest => if bool_decide (kv.1 = k) then Some kv.2 else js_get rest k
  end.

(** [o[k] = v]: an existing key keeps its place, a new one goes last. *)
Definition js_set {V} (k : string) (v : V) (o : js_object V) : js_object V :=
  if existsb (λ kv, bool_decide (kv.1 = k)) o
  then map (λ kv, if bool_decide (kv.1 = k) then (k, v) else kv) o
  else o ++ [(k, v)].

Module Grades.

(** [{ partial: string; exam: string }]; a field is [None] while it is
    [undefined]. *)
Record scores := { partial : option string; exam : option string }.

Record state := {
  students : list students.row;
  subjects : list subjects.row;
  selectedSubject : string;
  grades : js_object scores;
  existingGrades : list grades.row;
}.

(** A JS number as [parseFloat] yields it: NaN, an infinity, or a finite
    value. *)
Inductive number := NaN | Infinity (negative : bool) | Finite (x : numeric).

(** [v || 0]: NaN and zero are falsy, every other number is truthy. *)
Definition or_0 (v : number) : number :=
  match v with
  | NaN => Finite {| digits := 0; scale := 0 |}
  | Infinity _ => v
  | Finite x => if bool_decide (digits x = 0)
                then Finite {| digits := 0; scale := 0 |} else v
  end.

(** A number as [JSON.stringify] writes it into the body of a request:
    [null] unless it is finite. *)
Definition to_json (v : number) : option numeric :=
  match v with
  | Finite x => Some x
  | NaN | Infinity _ => None
  end.

Section js.

(** The JS built-ins the page calls: [parseFloat] and
    [Number.prototype.toString] on a score read from the store. *)
Variable parseFloat : string → number.
Variable toString : Z → string.

(** [parseFloat(s) || 0] as the request carries it; [parseFloat(undefined)]
    is NaN. *)
Definition parse_or_0 (s : option string) : option numeric :=
  to_json (or_0 (from_option parseFloat NaN s)).

(** The body of [data?.forEach((grade) => { gradesMap[grade.student_id] = ... })];
    [toString] on a null score throws, which is [None]. *)
Fixpoint gradesMap (data : list grades.row) (acc : js_object scores)
    : option (js_object scores) :=
  match data with
  | [] => Some acc
  | grade :: rest =>
      p ← grades.partial_score grade ;
      x ← grades.exam_score grade ;
      gradesMap rest
        (js_set (grades.student_id grade)
                {| partial := Some (toString p); exam := Some (toString x) |}
                acc)
  end.

(** [supabase.from("grades").select("*, students(*)").eq("subject_id", selectedSubject)] *)
Definition fetchGrades (st : state) (w : world) : state * world :=
  let r := select T_grades grades_view tbl_grades w in
  let data := filter (λ g, grades.subject_id g = selectedSubject st) r.2 in
  ({| students := students st; subjects := subjects st;
      selectedSubject := selectedSubject st;
      grades := default (grades st) (gradesMap data []);
      existingGrades := data |},
   r.1).

Definition handleGradeChange (studentId : string) (field_is_partial : bool)
    (value : string) (st : state) : state :=
  let old := default {| partial := None; exam := None |} (js_get (grades st) studentId) in
  {| students := students st; subjects := subjects st;
     selectedSubject := selectedSubject st;
     grades :=
       js_set studentId
              (if field_is_partial
               then {| partial := Some value; exam := exam old |}
               else {| partial := partial old; exam := Some value |})
              (grades st);
     existingGrades := existingGrades st |}.

(** [Object.entries(grades).map(([studentId, scores]) => ({ student_id,
    subject_id, partial_score, exam_score }))] *)
Definition records (st : state) : list grades.input :=
  map (λ entry,
         {| grades.i_student_id := entry.1;
            grades.i_subject_id := selectedSubject st;
            grades.i_partial_score := parse_or_0 (partial entry.2);
            grades.i_exam_score := parse_or_0 (exam entry.2);
            grades.i_average := None |})
      (grades st).

Definition handleSave (st : state) (w : world) : state * world :=
  if bool_decide (selectedSubject st = "") then
    (st, notify (toast_error "Please select a subject") w)
  else
    let r := send (UpsertGrades (records st)) w in
    match r.2 with
    | Rejected err => (st, notify (toast_error (message err)) r.1)
    | Done _ => fetchGrades st (notify (toast_success "Grades saved successfully") r.1)
    end.

End js.

End Grades.

(** *** pages/Reports.tsx *)

Module Reports.

Record ReportData := {
  student_name : string;
  id_number : string;
  attendance_rate : Q;
  average_grade : Q;
}.

Record state := {
  subjects : list subjects.row;
  selectedSubject : string;
  reportData : list ReportData;
}.

(** The labels of the Performance column. *)
Inductive badge := Excellent | Good | NeedsAttention | Average.

(** [getPerformanceBadge(grade, attendance)]; on numbers, [a < b] is the
    negation of [a >= b]. *)
Definition getPerformanceBadge (grade attendance : Q) : badge :=
  if Qle_bool 85 grade && Qle_bool 90 attendance then Excellent
  else if Qle_bool 70 grade && Qle_bool 80 attendance then Good
  else if negb (Qle_bool 70 grade) || negb (Qle_bool 70 attendance) then NeedsAttention
  else Average.

Section js.

(** JS arithmetic on doubles: [percent a b] is [(a / b) * 100] for two
    lengths, and [Number v] is the number read from a [DECIMAL(5,2)] value of
    [v] hundredths. *)
Variable percent : nat → nat → Q.
Variable Number : Z → Q.

Definition fetchSubjects (st : state) (w : world) : state * world :=
  let r := select T_subjects subjects_view tbl_subjects w in
  ({| subjects := r.2; selectedSubject := selectedSubject st;
      reportData := reportData st |},
   r.1).

(** Three reads (students, then the attendance and the grades of the
    selected subject), and one report line per student. *)
Definition fetchReportData (st : state) (w : world) : state * world :=
  let r1 := select T_students students_view tbl_students w in
  let r2 := select T_attendance attendance_view tbl_attendance r1.1 in
  let attendance := filter (λ a, attendance.subject_id a = selectedSubject st) r2.2 in
  let r3 := select T_grades grades_view tbl_grades r2.1 in
  let grades := filter (λ g, grades.subject_id g = selectedSubject st) r3.2 in
  ({| subjects := subjects st; selectedSubject := selectedSubject st;
      reportData :=
        map (λ student,
               let studentAttendance :=
                 filter (λ a, attendance.student_id a = students.id student) attendance in
               {| student_name :=
                    students.first_name student +:+ " " +:+ students.last_name student;
                  id_number := students.id_number student;
                  attendance_rate :=
                    if (0 <? length studentAttendance)%nat
                    then percent
                           (length (filter (λ a, attendance.present a) studentAttendance))
                           (length studentAttendance)
                    else 0%Q;
                  average_grade :=
                    match find (λ g, bool_decide (grades.student_id g = students.id student))
                               grades with
                    | Some studentGrade =>
                        match grades.average studentGrade with
                        | Some v => Number v
                        | None => 0%Q          (* [Number(null)] *)
                        end
                    | None => 0%Q
                    end |})
            r1.2 |},
   r3.1).

End js.

End Reports.

(** A mutation went through and the page then read the table [t] again:
    the last two requests are the statement and a SELECT on [t]. *)
Definition refetched (t : table) (s : statement) (before after : world) : Prop :=
  requests after = requests before ++ [req_statement s; req_select t].

(** ** Predicates of the properties *)

(** What the store maintains for a grade row: [average] is the generated
    value of the row's scores, and both range checks hold. *)
Definition grade_ok (g : grades.row) : Prop :=
  grades.average g
    = grades.generated_average (grades.partial_score g) (grades.exam_score g)
  ∧ check_holds (grades.score_check (grades.partial_score g)) = true
  ∧ check_holds (grades.score_check (grades.exam_score g)) = true.

(** The average column holds exactly the mean of the two score columns. *)
Definition average_is_exact_mean (g : grades.row) : Prop :=
  ∃ p x a, grades.partial_score g = Some p ∧ grades.exam_score g = Some x
    ∧ grades.average g = Some a ∧ 2 * a = p + x.

(** The four tables the school's staff manages. *)
Definition school_tables : list table :=
  [T_students; T_subjects; T_attendance; T_grades].

(** The caller holds the admin role or the teacher role. *)
Definition staff (db : database) (uid : uuid) : bool :=
  has_role db uid admin || has_role db uid teacher.

(** A statement wrote nothing: no change, and no row counted. *)
Definition wrote_nothing (db : database) (r : database * outcome) : Prop :=
  r.1 = db ∧ ∀ n, r.2 = Done n → n = 0%nat.

(** A supplied score that the column type and the range check let through:
    NULL, or a literal that, rounded to two decimals, lies in [0, 100]. *)
Definition score_storable (s : option numeric) : bool :=
  match s with
  | None => true
  | Some x =>
      match to_decimal_5_2 x with
      | Some v => (0 <=? v) && (v <=? 10000)
      | None => false
      end
  end.

(** A record an INSERT or upsert of grades would have to refuse. *)
Definition bad_grade_input (i : grades.input) : Prop :=
  score_storable (grades.i_partial_score i) = false
  ∨ score_storable (grades.i_exam_score i) = false
  ∨ grades.i_average i ≠ None.

(** A SET list an UPDATE of grades would have to refuse. *)
Definition bad_grade_patch (p : grades.patch) : Prop :=
  (∃ s, grades.p_partial_score p = Some s ∧ score_storable s = false)
  ∨ (∃ s, grades.p_exam_score p = Some s ∧ score_storable s = false)
  ∨ grades.p_average p ≠ None.


(** [students.id] is a primary key. *)
Definition students_unique (db : database) : Prop :=
  NoDup (map students.id (tbl_students db)).

(** A row of the attendance table for a key, with a given mark. *)
Definition attendance_row_for (db : database) (k : sql_date * uuid * uuid)
    (b : option bool) : Prop :=
  ∃ a, a ∈ tbl_attendance db ∧ attendance_key a = k
     ∧ ∀ v, b = Some v → attendance.present a = v.

(** The PRIMARY KEY of each table of the migration: no two rows share an
    [id]. *)
Definition primary_keys (db : database) : Prop :=
  NoDup (map profiles.id (tbl_profiles db))
  ∧ NoDup (map user_roles.id (tbl_user_roles db))
  ∧ NoDup (map students.id (tbl_students db))
  ∧ NoDup (map subjects.id (tbl_subjects db))
  ∧ NoDup (map attendance.id (tbl_attendance db))
  ∧ NoDup (map grades.id (tbl_grades db)).

(** The UNIQUE constraints of the migration. *)
Definition unique_constraints (db : database) : Prop :=
  NoDup (map profiles.username (tbl_profiles db))
  ∧ NoDup (map user_roles_key (tbl_user_roles db))
  ∧ NoDup (map students.id_number (tbl_students db))
  ∧ NoDup (map attendance_key (tbl_attendance db))
  ∧ NoDup (map grades_key (tbl_grades db)).

(** [child.fk] REFERENCES [parent.pk]: every row of the child table names a
    row of the parent table. *)
Definition refers_to {A B} (fk : A → uuid) (pk : B → uuid)
    (child : list A) (parent : list B) : Prop :=
  Forall (λ r, has_key pk (fk r) parent = true) child.

(** The FOREIGN KEY constraints of the migration. *)
Definition foreign_keys (db : database) : Prop :=
  refers_to profiles.id auth.users.id (tbl_profiles db) (auth_users db)
  ∧ refers_to user_roles.user_id auth.users.id (tbl_user_roles db) (auth_users db)
  ∧ refers_to attendance.student_id students.id (tbl_attendance db) (tbl_students db)
  ∧ refers_to attendance.subject_id subjects.id (tbl_attendance db) (tbl_subjects db)
  ∧ refers_to grades.student_id students.id (tbl_grades db) (tbl_students db)
  ∧ refers_to grades.subject_id subjects.id (tbl_grades db) (tbl_subjects db).

(** A text fits a [VARCHAR(n)] column: it has at most [n] characters. *)
Definition fits (n : nat) (s : string) : Prop := (char_length s ≤ n)%nat.

Definition fits_null (n : nat) (s : option string) : Prop :=
  match s with Some s => fits n s | None => True end.

Definition student_fits (s : students.row) : Prop :=
  fits 100 (students.first_name s) ∧ fits 100 (students.last_name s)
  ∧ fits 20 (students.id_number s) ∧ fits 100 (students.email s)
  ∧ fits 100 (students.course s).

Definition subject_fits (j : subjects.row) : Prop :=
  fits 100 (subjects.name j) ∧ fits 100 (subjects.instructor j).

Definition profile_fits (p : profiles.row) : Prop :=
  fits 50 (profiles.username p) ∧ fits_null 100 (profiles.first_name p)
  ∧ fits_null 100 (profiles.last_name p) ∧ fits_null 100 (profiles.email p).

(** The lengths that the column types of the migration allow. *)
Definition column_widths (db : database) : Prop :=
  Forall profile_fits (tbl_profiles db)
  ∧ Forall student_fits (tbl_students db)
  ∧ Forall subject_fits (tbl_subjects db).

(** A student row touched by an UPDATE at time [t] that changed no column. *)
Definition touch (t : timestamptz) (r : students.row) : students.row :=
  {| students.id := students.id r;
     students.first_name := students.first_name r;
     students.last_name := students.last_name r;
     students.id_number := students.id_number r;
     students.email := students.email r;
     students.course := students.course r;
     students.created_at := students.created_at r;
     students.updated_at := t |}.

(** The entry of the Grades page's map for a grade row whose scores are
    there: the student and the two scores as text. *)
Definition grade_entry (toString : Z → string) (g : grades.row)
    : string * Grades.scores :=
  (grades.student_id g,
   {| Grades.partial := toString <$> grades.partial_score g;
      Grades.exam := toString <$> grades.exam_score g |}).

(** A row of the grades table for a key, with given scores and the average
    generated from them. *)
Definition grade_row_for (db : database) (k : uuid * uuid) (p x : option Z) : Prop :=
  ∃ g, g ∈ tbl_grades db ∧ grades_key g = k
     ∧ grades.partial_score g = p ∧ grades.exam_score g = x
     ∧ grades.average g = grades.generated_average p x.

(** What a score column keeps of a score sent to it: NULL for a NULL, and
    otherwise the number rounded to two decimals, which lies in [0, 100]. *)
Definition stored_score (sent : option numeric) (kept : option Z) : Prop :=
  match sent with
  | None => kept = None
  | Some v => kept = Some (to_scale_2 v) ∧ 0 ≤ to_scale_2 v ≤ 10000
  end.

(** The labels of the Reports page from worst to best. *)
Definition badge_rank (b : Reports.badge) : nat :=
  match b with
  | Reports.NeedsAttention => 0
  | Reports.Average => 1
  | Reports.Good => 2
  | Reports.Excellent => 3
  end.

(** The username [handle_new_user] gives a new account:
    [COALESCE(raw_user_meta_data->>'username', SPLIT_PART(email, '@', 1))]
    as the [VARCHAR(50)] column of the profile takes it. *)
Definition derived_username (u : auth.users.row) : option string :=
  clip_null 50
    (coalesce (json_get_text (auth.users.raw_user_meta_data u) "username")
              ((λ m, split_part m "@"%char 1) <$> auth.users.email u)).

(** [t] occurs in [s]: [s] is [pre ++ t ++ post]. *)
Definition substring_of (t s : string) : Prop :=
  ∃ pre post, s = pre +:+ t +:+ post.

(** The tab after a statement that the store refused: the store is the one
    before, the statement is in the log, and the error is shown. *)
Definition after_rejection (s : statement) (err : error) (w : world) : world :=
  {| store := store w; session := session w; draw := draw w;
     requests := requests w ++ [req_statement s];
     toasts := toasts w ++ [toast_error (message err)] |}.


(** ** Sample data *)

(** Defaults drawn by a statement: time 0 and uuids [prefix0], [prefix1], ... *)
Definition draws (prefix : string) : env :=
  {| now := 0;
     gen_random_uuid := λ k, prefix +:+ String (ascii_of_nat (48 + k)) "" |}.

(** The account of the teacher. *)
Definition ana : auth.users.row :=
  {| auth.users.id := "ana"; auth.users.email := Some "ana@school.edu";
     auth.users.raw_user_meta_data := ∅ |}.

(** A school with one teacher (ana), one student and one subject. *)
Definition school : database :=
  let db1 := (exec (draws "u") anon (InsertUser ana) empty_db).1 in
  let db2 := (exec (draws "r") table_owner
                (InsertUserRole {| user_roles.i_user_id := "ana";
                                   user_roles.i_role := teacher |}) db1).1 in
  let db3 := (exec (draws "s") (authenticated "ana")
                (InsertStudent {| students.i_first_name := "Luis";
                                  students.i_last_name := "Mora";
                                  students.i_id_number := "A-001";
                                  students.i_email := "luis@school.edu";
                                  students.i_course := "1A" |}) db2).1 in
  (exec (draws "j") (authenticated "ana")
     (InsertSubject {| subjects.i_name := "Algebra";
                       subjects.i_instructor := "Ana" |}) db3).1.

(** The literal [d / 10 ^ s]: [num 8001 2] is 80.01. *)
Definition num (d : Z) (s : nat) : numeric := {| digits := d; scale := s |}.

(** A grade record for the school's student in its subject. *)
Definition grade_for_luis (partial exam : option numeric) : grades.input :=
  {| grades.i_student_id := "s0"; grades.i_subject_id := "j0";
     grades.i_partial_score := partial; grades.i_exam_score := exam;
     grades.i_average := None |}.

(** The school after Luis got 80.01 and 90 in Algebra. *)
Definition odd_sum_grades : database :=
  (exec (draws "g") (authenticated "ana")
     (InsertGrade (grade_for_luis (Some (num 8001 2)) (Some (num 90 0))))
     school).1.

(** An attendance record for the school's student in its subject. *)
Definition roll_call (day : sql_date) (present : option bool) : attendance.input :=
  {| attendance.i_date := day; attendance.i_student_id := "s0";
     attendance.i_subject_id := "j0"; attendance.i_present := present |}.

(** The school after Luis got a grade in Algebra and was marked present on
    day 100. *)
Definition school_in_session : database :=
  let db1 := (exec (draws "g") (authenticated "ana")
                (InsertGrade (grade_for_luis (Some (num 80 0)) (Some (num 90 0))))
                school).1 in
  (exec (draws "a") (authenticated "ana")
     (InsertAttendance (roll_call 100 (Some true))) db1).1.

(** The Students form filled in for a second student. *)
Definition luis_form : students.input :=
  {| students.i_first_name := "Luis"; students.i_last_name := "Mora";
     students.i_id_number := "A-002"; students.i_email := "l@school.edu";
     students.i_course := "1B" |}.

(** An account that signs up without a username in its metadata. *)
Definition eva : auth.users.row :=
  {| auth.users.id := "eva"; auth.users.email := Some "eva.ruiz@school.edu";
     auth.users.raw_user_meta_data := ∅ |}.


(** The Students form filled in with an id_number of eleven accented
    letters, two bytes each. *)
Definition accents_form : students.input :=
  {| students.i_first_name := "Zoé"; students.i_last_name := "Núñez";
     students.i_id_number := "ééééééééééé"; students.i_email := "z@school.edu";
     students.i_course := "1A" |}.

(** A browser tab of a signed-in caller in front of a store. *)
Definition tab (db : database) (c : caller) : world :=
  {| store := db; session := c;
     draw := λ n, draws (String (ascii_of_nat (97 + n)) "");
     requests := []; toasts := [] |}.

(** The Attendance page listing the school's students, Algebra and day 100
    selected, nobody marked yet. *)
Definition roll_call_page : Attendance.state :=
  {| Attendance.students := tbl_students school;
     Attendance.subjects := tbl_subjects school;
     Attendance.selectedSubject := "j0";
     Attendance.selectedDate := 100;
     Attendance.attendance := ∅ |}.

(** The Students page as it opens: nothing loaded, no search, no dialog. *)
Definition students_page : Students.state :=
  {| Students.students := []; Students.search := "";
     Students.isDialogOpen := false; Students.editingStudent := None;
     Students.formData := Students.emptyForm |}.

(** The row of the school's student. *)
Definition luis : students.row :=
  {| students.id := "s0"; students.first_name := "Luis";
     students.last_name := "Mora"; students.id_number := "A-001";
     students.email := "luis@school.edu"; students.course := "1A";
     students.created_at := 0; students.updated_at := 0 |}.

(** The Subjects page as it opens. *)
Definition subjects_page : Subjects.state :=
  {| Subjects.subjects := []; Subjects.isDialogOpen := false;
     Subjects.editingSubject := None; Subjects.formData := Subjects.emptyForm |}.

(** The row of the school's subject. *)
Definition algebra : subjects.row :=
  {| subjects.id := "j0"; subjects.name := "Algebra"; subjects.instructor := "Ana";
     subjects.created_at := 0; subjects.updated_at := 0 |}.

(** The grade row of [school_in_session]: 80 and 90, average 85. *)
Definition luis_grade : grades.row :=
  {| grades.id := "g0"; grades.partial_score := Some 8000;
     grades.exam_score := Some 9000; grades.average := Some 8500;
     grades.student_id := "s0"; grades.subject_id := "j0";
     grades.created_at := 0; grades.updated_at := 0 |}.

(** A [parseFloat] that reads the texts of the samples. *)
Definition sample_parseFloat (s : string) : Grades.number :=
  if bool_decide (s = "80") then Grades.Finite (num 80 0)
  else if bool_decide (s = "90.5") then Grades.Finite (num 905 1)
  else if bool_decide (s = "1e999") then Grades.Infinity false
  else Grades.NaN.

(** The Grades page with Algebra selected and 80 and 90.5 typed for Luis. *)
Definition grades_page : Grades.state :=
  {| Grades.students := tbl_students school;
     Grades.subjects := tbl_subjects school;
     Grades.selectedSubject := "j0";
     Grades.grades := [("s0", {| Grades.partial := Some "80";
                                 Grades.exam := Some "90.5" |})];
     Grades.existingGrades := [] |}.

(** The Grades page with Algebra selected and 1e999 and 90.5 typed for Luis. *)
Definition overflow_page : Grades.state :=
  {| Grades.students := tbl_students school;
     Grades.subjects := tbl_subjects school;
     Grades.selectedSubject := "j0";
     Grades.grades := [("s0", {| Grades.partial := Some "1e999";
                                 Grades.exam := Some "90.5" |})];
     Grades.existingGrades := [] |}.

(** The school after Luis got 75 in the partial and no exam score yet. *)
Definition exam_pending : database :=
  (exec (draws "g") (authenticated "ana")
     (InsertGrade (grade_for_luis (Some (num 75 0)) None)) school).1.

(** A statement's defaults at time 7. *)
Definition at_seven : env := {| now := 7; gen_random_uuid := λ _, "x" |}.

(** * Properties of the store *)

(** ** The result monad *)

Lemma bind_Ok {A B} (m : result A) (f : A → result B) (b : B) :
  m ≫= f = Ok b → ∃ a, m = Ok a ∧ f a = Ok b.
Proof. destruct m as [a|err]; simpl; [eauto | discriminate]. Qed.

Lemma ensure_Ok (b : bool) (err : error) (u : unit) : ensure b err = Ok u → b = true.
Proof. destruct b; [done | discriminate]. Qed.

(** Peel the binds of a successful run, one constraint at a time. *)
Ltac unbind H :=
  repeat (cbv zeta in H;
          match type of H with
          | _ ≫= _ = Ok _ =>
              let a := fresh "a" in
              let Ha := fresh "Hstep" in
              apply bind_Ok in H as (a & Ha & H);
              try (apply ensure_Ok in Ha)
          end).

(** ** Atomicity *)

Lemma exec_Done e c s db db' n :
  exec e c s db = (db', Done n) ↔ run e c s db = Ok (db', n).
Proof.
  unfold exec. destruct (run e c s db) as [[d k]|err]; split; intros H;
    inversion H; subst; done.
Qed.

Lemma exec_Rejected e c s db db' err :
  exec e c s db = (db', Rejected err) ↔ db' = db ∧ run e c s db = Err err.
Proof.
  unfold exec. destruct (run e c s db) as [[d k]|err']; split.
  - intros H; inversion H.
  - intros [_ H]; inversion H.
  - intros H; inversion H; subst; done.
  - intros [-> H]; inversion H; subst; done.
Qed.

(** ** The generated average *)

Lemma grades_checks_Ok r u :
  grades_checks r = Ok u →
  check_holds (grades.score_check (grades.partial_score r)) = true
  ∧ check_holds (grades.score_check (grades.exam_score r)) = true.
Proof. unfold grades_checks. intros H. unbind H. apply ensure_Ok in H. done. Qed.

Lemma grades_proposed_average e k i r :
  grades_proposed e k i = Ok r →
  grades.average r
    = grades.generated_average (grades.partial_score r) (grades.exam_score r).
Proof. unfold grades_proposed. intros H. unbind H. inversion H; subst. done. Qed.

Lemma insert_grade_ok e c i db db' n :
  insert_grade e c i db = Ok (db', n) →
  Forall grade_ok (tbl_grades db) → Forall grade_ok (tbl_grades db').
Proof.
  unfold insert_grade. intros H Hinv. unbind H.
  inversion H; subst; clear H. simpl.
  apply Forall_app. split; [done|].
  apply Forall_singleton. unfold grade_ok.
  split; [eauto using grades_proposed_average | eauto using grades_checks_Ok].
Qed.

Lemma upsert_grades_row_ok e k c seen i db db' :
  upsert_grades_row e k c seen i db = Ok db' →
  Forall grade_ok (tbl_grades db) → Forall grade_ok (tbl_grades db').
Proof.
  unfold upsert_grades_row. intros H Hinv. unbind H.
  apply grades_checks_Ok in Hstep1 as [Hp Hx].
  destruct (has_key grades_key (grades_key a) (tbl_grades db)).
  - unbind H. inversion H; subst; clear H. simpl.
    apply Forall_fmap. eapply Forall_impl; [exact Hinv|].
    intros old Hold. simpl.
    destruct (bool_decide (grades_key old = grades_key a)); [|exact Hold].
    unfold grade_ok. simpl. done.
  - unbind H. inversion H; subst; clear H. simpl.
    apply Forall_app. split; [done|]. apply Forall_singleton.
    unfold grade_ok. eauto using grades_proposed_average.
Qed.

Lemma upsert_grades_rows_ok e c rs : ∀ k seen db db' n,
  upsert_grades_rows e c k seen rs db = Ok (db', n) →
  Forall grade_ok (tbl_grades db) → Forall grade_ok (tbl_grades db').
Proof.
  induction rs as [|i rs IH]; simpl; intros k seen db db' n H Hinv.
  - inversion H; subst. done.
  - unbind H. destruct a0 as [db2 m]. inversion H; subst; clear H.
    eapply IH; [exact Hstep0|]. eauto using upsert_grades_row_ok.
Qed.

Lemma update_grade_ok e c t p db db' n :
  update_grade e c t p db = Ok (db', n) →
  Forall grade_ok (tbl_grades db) → Forall grade_ok (tbl_grades db').
Proof.
  unfold update_grade. intros H Hinv. unbind H.
  destruct (filter _ (tbl_grades db)) as [|h hit] eqn:Hhit.
  { inversion H; subst. done. }
  unbind H. inversion H; subst; clear H. simpl.
  apply Forall_fmap, Forall_forall. intros r Hr. simpl.
  destruct (grade_hit db c UPDATE t r) eqn:Hg.
  - assert (Hin : r ∈ h :: hit).
    { rewrite <- Hhit. apply list_elem_of_filter. split; [by rewrite Hg | done]. }
    rewrite forallb_forall in Hstep3. apply list_elem_of_In, Hstep3 in Hin.
    apply andb_prop in Hin as [Hp Hx]. unfold grade_ok. simpl in *. done.
  - rewrite Forall_forall in Hinv. auto.
Qed.

Lemma Forall_filter_keep {A} (P : A → Prop) (Q : A → Prop) `{∀ x, Decision (Q x)}
    (l : list A) :
  Forall P l → Forall P (filter Q l).
Proof.
  rewrite !Forall_forall. intros HP x Hx.
  apply list_elem_of_filter in Hx as [_ Hx]. auto.
Qed.

(** Split a successful run on the [match]es and [if]s it went through. *)
Ltac split_run H :=
  repeat (unbind H;
          match type of H with
          | match ?x with _ => _ end = Ok _ => destruct x eqn:?; try discriminate H
          end);
  unbind H.

(** What a successful INSERT INTO profiles has checked and written. *)
Lemma insert_profile_Ok e c i db db' n :
  insert_profile e c i db = Ok (db', n) →
  ∃ u, profiles.i_username i = Some u
    ∧ has_key profiles.id (profiles.i_id i) (tbl_profiles db) = false
    ∧ has_key profiles.username (clip 50 u) (tbl_profiles db) = false
    ∧ n = 1%nat
    ∧ db' = set_profiles db
              (tbl_profiles db ++
                 [{| profiles.id := profiles.i_id i;
                     profiles.username := clip 50 u;
                     profiles.first_name := clip_null 100 (profiles.i_first_name i);
                     profiles.last_name := clip_null 100 (profiles.i_last_name i);
                     profiles.email := clip_null 100 (profiles.i_email i);
                     profiles.created_at := now e |}]).
Proof.
  unfold insert_profile. intros H.
  destruct (profiles.i_username i) as [u|] eqn:Hu; simpl in H.
  - split_run H. inversion H; subst; clear H. simpl in *.
    apply negb_true_iff in Hstep4, Hstep5.
    exists u. repeat split; done.
  - split_run H. discriminate H.
Qed.

Lemma insert_user_Ok e u db db' n :
  insert_user e u db = Ok (db', n) →
  ∃ p, db' = set_profiles (set_auth_users db (auth_users db ++ [u]))
               (tbl_profiles db ++ [p])
    ∧ profiles.id p = auth.users.id u
    ∧ Some (profiles.username p)
        = clip_null 50
            (coalesce (json_get_text (auth.users.raw_user_meta_data u) "username")
                      ((λ m, split_part m "@" 1) <$> auth.users.email u))
    ∧ has_key profiles.id (auth.users.id u) (tbl_profiles db) = false
    ∧ has_key auth.users.id (auth.users.id u) (auth_users db) = false.
Proof.
  unfold insert_user, handle_new_user. intros H. unbind H.
  destruct a0 as [db1 m]. inversion H; subst; clear H.
  apply insert_profile_Ok in Hstep0 as (name & Hname & Hid & _ & _ & ->).
  simpl in *. apply negb_true_iff in Hstep.
  eexists. split; [reflexivity|]. simpl. rewrite Hname. done.
Qed.

(** An attendance upsert writes to the attendance table only. *)
Lemma upsert_attendance_row_frame e k c seen i db db' :
  upsert_attendance_row e k c seen i db = Ok db' →
  db' = set_attendance db (tbl_attendance db').
Proof.
  unfold upsert_attendance_row, attendance_foreign_keys. intros H.
  split_run H; inversion H; subst; done.
Qed.

Lemma upsert_attendance_rows_frame e c rs : ∀ k seen db db' n,
  upsert_attendance_rows e c k seen rs db = Ok (db', n) →
  db' = set_attendance db (tbl_attendance db').
Proof.
  induction rs as [|i rs IH]; simpl; intros k seen db db' n H.
  - inversion H; subst. by destruct db'.
  - unbind H. destruct a0 as [db2 m]. inversion H; subst; clear H.
    apply IH in Hstep0. apply upsert_attendance_row_frame in Hstep.
    rewrite Hstep0. rewrite Hstep at 1. done.
Qed.

(** A grades upsert writes to the grades table only. *)
Lemma upsert_grades_row_frame e k c seen i db db' :
  upsert_grades_row e k c seen i db = Ok db' →
  db' = set_grades db (tbl_grades db').
Proof.
  unfold upsert_grades_row, grades_foreign_keys. intros H.
  split_run H; inversion H; subst; done.
Qed.

Lemma upsert_grades_rows_frame e c rs : ∀ k seen db db' n,
  upsert_grades_rows e c k seen rs db = Ok (db', n) →
  db' = set_grades db (tbl_grades db').
Proof.
  induction rs as [|i rs IH]; simpl; intros k seen db db' n H.
  - inversion H; subst. by destruct db'.
  - unbind H. destruct a0 as [db2 m]. inversion H; subst; clear H.
    apply IH in Hstep0. apply upsert_grades_row_frame in Hstep.
    rewrite Hstep0. rewrite Hstep at 1. done.
Qed.

Lemma run_grade_ok e c s db db' n :
  run e c s db = Ok (db', n) →
  Forall grade_ok (tbl_grades db) → Forall grade_ok (tbl_grades db').
Proof.
  intros H Hinv.
  destruct s; simpl in H;
    eauto using insert_grade_ok, upsert_grades_rows_ok, update_grade_ok.
  all: try (apply insert_user_Ok in H as (p & -> & _); done).
  all: try (apply insert_profile_Ok in H as (u & _ & _ & _ & _ & ->); done).
  all: try (apply upsert_attendance_rows_frame in H as ->; done).
  all: unfold delete_user,
         update_profile, delete_profile, insert_user_role, delete_user_role,
         insert_student, update_student, delete_student, insert_subject,
         update_subject, delete_subject, insert_attendance, update_attendance,
         delete_attendance, delete_grade in H.
  all: split_run H; inversion H; subst; simpl; auto using Forall_filter_keep.
Qed.

Lemma reachable_grade_ok db : reachable db → Forall grade_ok (tbl_grades db).
Proof.
  induction 1 as [|e c s db Hdb IH]; [constructor|].
  unfold exec. destruct (run e c s db) as [[db' n]|err] eqn:Hrun; simpl; [|done].
  eauto using run_grade_ok.
Qed.

Lemma score_check_range (p : Z) :
  check_holds (grades.score_check (Some p)) = true → 0 ≤ p ≤ 10000.
Proof.
  unfold grades.score_check, sql_ge, sql_le, sql_and, check_holds.
  destruct (0 <=? p) eqn:H0, (p <=? 10000) eqn:H1; try discriminate; lia.
Qed.

(** Halving a non-negative count of hundredths: exact when it is even,
    rounded up by half a hundredth when it is odd. *)
Lemma round_div_2_nonneg (s : Z) : 0 ≤ s → 2 * round_div s 2 = s + s mod 2.
Proof.
  intros Hs. unfold round_div.
  destruct (Z.eq_dec s 0) as [->|Hne]; [reflexivity|].
  rewrite Z.sgn_pos, Z.abs_eq by lia.
  pose proof (Z.div_mod (2 * s + 2) (2 * 2) ltac:(lia)) as Hd.
  pose proof (Z.mod_pos_bound (2 * s + 2) (2 * 2) ltac:(lia)) as Hb.
  pose proof (Z.div_mod s 2 ltac:(lia)) as Hd2.
  pose proof (Z.mod_pos_bound s 2 ltac:(lia)) as Hb2.
  lia.
Qed.

Lemma school_reachable : reachable school.
Proof. unfold school. cbv zeta. repeat constructor. Qed.

Example school_tables_sample :
  map students.id (tbl_students school) = ["s0"]
  ∧ map subjects.id (tbl_subjects school) = ["j0"]
  ∧ has_role school "ana" teacher = true.
Proof. vm_compute. done. Qed.

(** C1, as stated, fails: scores 80.01 and 90.00 have mean 85.005, and the
    [DECIMAL(5,2)] average column stores 85.01. *)
Lemma average_not_exact_mean :
  reachable odd_sum_grades
  ∧ ∃ g, g ∈ tbl_grades odd_sum_grades
      ∧ grades.partial_score g = Some 8001
      ∧ grades.exam_score g = Some 9000
      ∧ grades.average g = Some 8501
      ∧ ¬ average_is_exact_mean g.
Proof.
  split; [constructor; exact school_reachable|].
  eexists. split; [vm_compute; apply list_elem_of_here|].
  do 3 (split; [reflexivity|]).
  intros (p & x & a & Hp & Hx & Ha & Hm).
  simpl in *. by simplify_eq.
Qed.

(** C1 (amended): in every database the store can reach, the [average] of a
    grade row is the mean of its two scores rounded to the column's two
    decimals (half a hundredth rounds up), so it is the exact mean whenever
    the scores' hundredths add up to an even number, and it is NULL when a
    score is NULL; every insert and update passes through that computation.
    Inserting partial_score = 80 and exam_score = 90 stores average = 85.00. *)
Theorem grades_average_generated :
  (∀ db, reachable db → ∀ g, g ∈ tbl_grades db →
     match grades.partial_score g, grades.exam_score g with
     | Some p, Some x =>
         ∃ a, grades.average g = Some a ∧ 2 * a = p + x + (p + x) mod 2
     | _, _ => grades.average g = None
     end)
  ∧ (∀ e c i db db' n,
       grades.i_partial_score i = Some {| digits := 80; scale := 0 |} →
       grades.i_exam_score i = Some {| digits := 90; scale := 0 |} →
       exec e c (InsertGrade i) db = (db', Done n) →
       ∃ g, tbl_grades db' = tbl_grades db ++ [g]
         ∧ grades.partial_score g = Some 8000
         ∧ grades.exam_score g = Some 9000
         ∧ grades.average g = Some 8500).
Proof.
  split.
  - intros db Hdb g Hg.
    apply reachable_grade_ok in Hdb. rewrite Forall_forall in Hdb.
    destruct (Hdb g Hg) as (Havg & Hp & Hx). rewrite Havg.
    destruct (grades.partial_score g) as [p|], (grades.exam_score g) as [x|];
      simpl; try reflexivity.
    apply score_check_range in Hp, Hx.
    eexists. split; [reflexivity|]. apply round_div_2_nonneg. lia.
  - intros e c i db db' n Hp Hx H. apply exec_Done in H. simpl in H.
    unfold insert_grade, grades_proposed in H. rewrite Hp, Hx in H. simpl in H.
    unbind H. inversion H; subst; clear H. simpl.
    destruct (grades.i_average i); [discriminate|].
    simpl in Hstep. inversion Hstep; subst; clear Hstep. simpl.
    eexists. split; [reflexivity|]. done.
Qed.

Lemma grades_average_generated_witness :
  (∃ a, Some 8501 = Some a ∧ 2 * a = 8001 + 9000 + (8001 + 9000) mod 2)
  ∧ ∃ g, tbl_grades (exec (draws "g") (authenticated "ana")
                     (InsertGrade (grade_for_luis (Some (num 80 0)) (Some (num 90 0))))
                     school).1 = tbl_grades school ++ [g]
      ∧ grades.partial_score g = Some 8000
      ∧ grades.exam_score g = Some 9000
      ∧ grades.average g = Some 8500.
Proof.
  split.
  - exact (proj1 grades_average_generated _
             (reachable_exec (draws "g") (authenticated "ana")
                (InsertGrade (grade_for_luis (Some (num 8001 2)) (Some (num 90 0))))
                school school_reachable)
             {| grades.id := "g0"; grades.partial_score := Some 8001;
                grades.exam_score := Some 9000; grades.average := Some 8501;
                grades.student_id := "s0"; grades.subject_id := "j0";
                grades.created_at := 0; grades.updated_at := 0 |}
             ltac:(vm_compute; apply list_elem_of_here)).
  - apply (proj2 grades_average_generated (draws "g") (authenticated "ana")
             (grade_for_luis (Some (num 80 0)) (Some (num 90 0))) school _ 1%nat);
      [reflexivity | reflexivity | vm_compute; reflexivity].
Defined.

(** ** Uniqueness *)

Lemma has_key_true {A K} `{EqDecision K} (key : A → K) (k : K) (l : list A) :
  has_key key k l = true ↔ ∃ r, r ∈ l ∧ key r = k.
Proof.
  unfold has_key. rewrite existsb_exists. split.
  - intros (r & Hr & Hk). apply bool_decide_eq_true in Hk.
    exists r. by rewrite list_elem_of_In.
  - intros (r & Hr & Hk). exists r. rewrite <- list_elem_of_In.
    split; [done|]. by apply bool_decide_eq_true.
Qed.

Lemma has_key_false {A K} `{EqDecision K} (key : A → K) (k : K) (l : list A) :
  has_key key k l = false ↔ ∀ r, r ∈ l → key r ≠ k.
Proof.
  rewrite <- not_true_iff_false, has_key_true. split.
  - intros Hno r Hr Hk. apply Hno. eauto.
  - intros Hall (r & Hr & Hk). by apply (Hall r).
Qed.

Lemma insert_grade_duplicate e c i db :
  (∃ g, g ∈ tbl_grades db
      ∧ grades.student_id g = grades.i_student_id i
      ∧ grades.subject_id g = grades.i_subject_id i) →
  ∃ err, exec e c (InsertGrade i) db = (db, Rejected err).
Proof.
  intros (g & Hg & Hst & Hsu).
  destruct (run e c (InsertGrade i) db) as [[db' n]|err] eqn:Hrun.
  - exfalso. simpl in Hrun. unfold insert_grade in Hrun. unbind Hrun.
    apply negb_true_iff in Hstep3. rewrite has_key_false in Hstep3.
    apply (Hstep3 g Hg). unfold grades_proposed in Hstep. unbind Hstep.
    inversion Hstep; subst. unfold grades_key. simpl. congruence.
  - exists err. by apply exec_Rejected.
Qed.

Lemma insert_attendance_duplicate e c i db :
  (∃ a, a ∈ tbl_attendance db
      ∧ attendance.date a = attendance.i_date i
      ∧ attendance.student_id a = attendance.i_student_id i
      ∧ attendance.subject_id a = attendance.i_subject_id i) →
  ∃ err, exec e c (InsertAttendance i) db = (db, Rejected err).
Proof.
  intros (a & Ha & Hd & Hst & Hsu).
  destruct (run e c (InsertAttendance i) db) as [[db' n]|err] eqn:Hrun.
  - exfalso. simpl in Hrun. unfold insert_attendance in Hrun. unbind Hrun.
    apply negb_true_iff in Hstep1. rewrite has_key_false in Hstep1.
    apply (Hstep1 a Ha). unfold attendance_key. simpl. congruence.
  - exists err. by apply exec_Rejected.
Qed.

Lemma insert_attendance_new_date e c i db :
  permits db c T_attendance INSERT (attendance_view (attendance_proposed e 0 i)) = true →
  has_key attendance.id (gen_random_uuid e 0) (tbl_attendance db) = false →
  has_key students.id (attendance.i_student_id i) (tbl_students db) = true →
  has_key subjects.id (attendance.i_subject_id i) (tbl_subjects db) = true →
  (∀ a, a ∈ tbl_attendance db →
        attendance.student_id a = attendance.i_student_id i →
        attendance.subject_id a = attendance.i_subject_id i →
        attendance.date a ≠ attendance.i_date i) →
  exec e c (InsertAttendance i) db
    = (set_attendance db (tbl_attendance db ++ [attendance_proposed e 0 i]), Done 1).
Proof.
  intros Hrls Hpk Hst Hsu Hdate.
  assert (Hkey : has_key attendance_key (attendance_key (attendance_proposed e 0 i))
                   (tbl_attendance db) = false).
  { apply has_key_false. intros a Ha Hk. unfold attendance_key in Hk. simpl in Hk.
    inversion Hk. by apply (Hdate a). }
  unfold exec. simpl. unfold insert_attendance, attendance_foreign_keys.
  rewrite Hrls. simpl. rewrite Hpk, Hkey. simpl. rewrite Hst, Hsu. reflexivity.
Qed.

(** C2: a second grade for a (student, subject) pair and a second attendance
    record for a (date, student, subject) triple are rejected; an attendance
    record for the same student and subject on a date that has none yet is
    stored; a rejected statement leaves the database as it was. *)
Theorem duplicates_rejected :
  (∀ e c i db,
     (∃ g, g ∈ tbl_grades db
         ∧ grades.student_id g = grades.i_student_id i
         ∧ grades.subject_id g = grades.i_subject_id i) →
     ∃ err, exec e c (InsertGrade i) db = (db, Rejected err))
  ∧ (∀ e c i db,
     (∃ a, a ∈ tbl_attendance db
         ∧ attendance.date a = attendance.i_date i
         ∧ attendance.student_id a = attendance.i_student_id i
         ∧ attendance.subject_id a = attendance.i_subject_id i) →
     ∃ err, exec e c (InsertAttendance i) db = (db, Rejected err))
  ∧ (∀ e c i db,
     permits db c T_attendance INSERT
       (attendance_view (attendance_proposed e 0 i)) = true →
     has_key attendance.id (gen_random_uuid e 0) (tbl_attendance db) = false →
     has_key students.id (attendance.i_student_id i) (tbl_students db) = true →
     has_key subjects.id (attendance.i_subject_id i) (tbl_subjects db) = true →
     (∀ a, a ∈ tbl_attendance db →
           attendance.student_id a = attendance.i_student_id i →
           attendance.subject_id a = attendance.i_subject_id i →
           attendance.date a ≠ attendance.i_date i) →
     ∃ r, exec e c (InsertAttendance i) db
            = (set_attendance db (tbl_attendance db ++ [r]), Done 1)
        ∧ attendance.date r = attendance.i_date i
        ∧ attendance.student_id r = attendance.i_student_id i
        ∧ attendance.subject_id r = attendance.i_subject_id i)
  ∧ (∀ e c s db db' err, exec e c s db = (db', Rejected err) → db' = db).
Proof.
  split; [exact insert_grade_duplicate|].
  split; [exact insert_attendance_duplicate|].
  split.
  - intros e c i db Hrls Hpk Hst Hsu Hdate.
    exists (attendance_proposed e 0 i).
    split; [by apply insert_attendance_new_date | done].
  - intros e c s db db' err H. by apply exec_Rejected in H as [-> _].
Qed.

Lemma duplicates_rejected_witness :
  (∃ err, exec (draws "h") (authenticated "ana")
            (InsertGrade (grade_for_luis (Some (num 70 0)) None)) school_in_session
          = (school_in_session, Rejected err))
  ∧ (∃ err, exec (draws "b") (authenticated "ana")
              (InsertAttendance (roll_call 100 (Some false))) school_in_session
            = (school_in_session, Rejected err))
  ∧ (∃ r, exec (draws "b") (authenticated "ana")
            (InsertAttendance (roll_call 101 (Some false))) school_in_session
          = (set_attendance school_in_session
               (tbl_attendance school_in_session ++ [r]), Done 1)
        ∧ attendance.date r = 101
        ∧ attendance.student_id r = "s0"
        ∧ attendance.subject_id r = "j0")
  ∧ (exec (draws "b") anon (InsertAttendance (roll_call 101 None)) school_in_session).1
    = school_in_session.
Proof.
  destruct duplicates_rejected as (Hgrade & Hatt & Hnew & Hsame).
  split; [|split; [|split]].
  - apply Hgrade. eexists. split; [vm_compute; apply list_elem_of_here|done].
  - apply Hatt. eexists. split; [vm_compute; apply list_elem_of_here|done].
  - apply (Hnew (draws "b") (authenticated "ana") (roll_call 101 (Some false)));
      try (vm_compute; reflexivity).
    intros a Ha _ _. vm_compute in Ha.
    apply list_elem_of_singleton in Ha as ->. done.
  - apply (Hsame (draws "b") anon (InsertAttendance (roll_call 101 None))
             school_in_session _ insufficient_privilege).
    vm_compute. reflexivity.
Defined.

(** ** Policies of the school tables *)

Lemma has_role_spec db uid r :
  has_role db uid r = true
  ↔ ∃ ur, ur ∈ tbl_user_roles db
        ∧ user_roles.user_id ur = uid ∧ user_roles.role ur = r.
Proof.
  unfold has_role. rewrite existsb_exists. split.
  - intros (ur & Hin & Hb). apply andb_prop in Hb as [Hu Hr].
    apply bool_decide_eq_true in Hu, Hr.
    exists ur. by rewrite list_elem_of_In.
  - intros (ur & Hin & Hu & Hr). exists ur. rewrite <- list_elem_of_In.
    split; [done|]. apply andb_true_intro. by rewrite !bool_decide_eq_true.
Qed.

Lemma school_table_cases t :
  t ∈ school_tables →
  t = T_students ∨ t = T_subjects ∨ t = T_attendance ∨ t = T_grades.
Proof. unfold school_tables. rewrite !elem_of_cons, elem_of_nil. tauto. Qed.

Lemma permits_school_select db uid t row :
  t ∈ school_tables → permits db (authenticated uid) t SELECT row = true.
Proof.
  intros Ht. apply school_table_cases in Ht as [->|[->|[->| ->]]]; reflexivity.
Qed.

Lemma permits_school_write db uid t cmd row :
  t ∈ school_tables → cmd ≠ SELECT →
  permits db (authenticated uid) t cmd row = staff db uid.
Proof.
  intros Ht Hcmd. unfold staff.
  apply school_table_cases in Ht as [->|[->|[->| ->]]];
    destruct cmd; try done; simpl; by rewrite ?orb_false_r.
Qed.

Lemma filter_none {A} (f : A → bool) (l : list A) :
  (∀ x, f x = false) → filter (λ x, f x) l = [].
Proof.
  intros Hf. induction l as [|x l IH]; [done|].
  rewrite filter_cons_False; [exact IH|]. rewrite Hf. exact id.
Qed.

Lemma wrote_nothing_run e c s db :
  (run e c s db = Ok (db, 0%nat) ∨ ∃ err, run e c s db = Err err) →
  wrote_nothing db (exec e c s db).
Proof.
  unfold wrote_nothing, exec. intros [->|[err ->]]; simpl.
  - split; [done|]. intros n Hn. by inversion Hn.
  - split; [done|]. intros n Hn. inversion Hn.
Qed.

(** A policy check that passed although the policy denies. *)
Ltac denied Hw :=
  match goal with
  | H : permits _ _ _ _ _ = true |- _ => by rewrite Hw in H
  end.

(** Without the admin or teacher role, no statement writes to a school table. *)
Lemma run_denied e uid s db t :
  statement_table s = Some t → t ∈ school_tables → staff db uid = false →
  run e (authenticated uid) s db = Ok (db, 0%nat)
  ∨ ∃ err, run e (authenticated uid) s db = Err err.
Proof.
  intros Hs Ht Hno.
  assert (Hw : ∀ cmd row, cmd ≠ SELECT →
             permits db (authenticated uid) t cmd row = false).
  { intros cmd row Hc. by rewrite permits_school_write. }
  destruct (run e (authenticated uid) s db) as [[db' n]|err] eqn:Hrun; [left|eauto].
  apply school_table_cases in Ht.
  destruct s; simpl in Hs; simplify_eq; simpl in Hrun;
    try (by destruct Ht as [?|[?|[?|?]]]); clear Ht.
  - (* InsertStudent *)
    unfold insert_student in Hrun. unbind Hrun. denied Hw.
  - (* UpdateStudent *)
    unfold update_student in Hrun. unbind Hrun.
    rewrite filter_none in Hrun; [done|].
    intros x. unfold student_hit. by rewrite Hw, andb_false_r.
  - (* DeleteStudent *)
    unfold delete_student in Hrun.
    rewrite filter_none in Hrun; [done|].
    intros x. unfold student_hit. by rewrite Hw, andb_false_r.
  - unfold insert_subject in Hrun. unbind Hrun. denied Hw.
  - unfold update_subject in Hrun. unbind Hrun.
    rewrite filter_none in Hrun; [done|].
    intros x. unfold subject_hit. by rewrite Hw, andb_false_r.
  - unfold delete_subject in Hrun.
    rewrite filter_none in Hrun; [done|].
    intros x. unfold subject_hit. by rewrite Hw, andb_false_r.
  - unfold insert_attendance in Hrun. unbind Hrun. denied Hw.
  - (* UpsertAttendance *)
    unfold upsert_attendance in Hrun. destruct rs as [|i rs]; simpl in Hrun; [done|].
    unbind Hrun. unfold upsert_attendance_row in Hstep. unbind Hstep.
    denied Hw.
  - unfold update_attendance in Hrun.
    rewrite filter_none in Hrun; [done|].
    intros x. unfold attendance_hit. by rewrite Hw, andb_false_r.
  - unfold delete_attendance in Hrun.
    rewrite filter_none in Hrun; [done|].
    intros x. unfold attendance_hit. by rewrite Hw, andb_false_r.
  - unfold insert_grade in Hrun. unbind Hrun. denied Hw.
  - (* UpsertGrades *)
    unfold upsert_grades in Hrun. destruct rs as [|i rs]; simpl in Hrun; [done|].
    unbind Hrun. unfold upsert_grades_row in Hstep. unbind Hstep.
    denied Hw.
  - unfold update_grade in Hrun. unbind Hrun.
    rewrite filter_none in Hrun; [done|].
    intros x. unfold grade_hit. by rewrite Hw, andb_false_r.
  - unfold delete_grade in Hrun.
    rewrite filter_none in Hrun; [done|].
    intros x. unfold grade_hit. by rewrite Hw, andb_false_r.
Qed.

(** ** With the admin or teacher role the policies never refuse a write *)

Lemma permits_staff db uid t cmd row :
  t ∈ school_tables → staff db uid = true →
  permits db (authenticated uid) t cmd row = true.
Proof.
  intros Ht Hstaff. destruct (decide (cmd = SELECT)) as [->|Hcmd].
  - by apply permits_school_select.
  - by rewrite permits_school_write.
Qed.

(** The policies of the school tables do not look at the row. *)
Lemma permits_school_row db c t cmd row row' :
  t ∈ school_tables → permits db c t cmd row = permits db c t cmd row'.
Proof.
  intros Ht. destruct c as [|uid|]; [done| |done].
  destruct (decide (cmd = SELECT)) as [->|Hcmd].
  - by rewrite !permits_school_select.
  - by rewrite !permits_school_write.
Qed.

Lemma bind_Err {A B} (m : result A) (f : A → result B) (err : error) :
  m ≫= f = Err err → m = Err err ∨ ∃ a, m = Ok a ∧ f a = Err err.
Proof. destruct m as [a|err']; simpl; [eauto | intros [= ->]; eauto]. Qed.

Lemma ensure_Err (b : bool) (err err' : error) :
  ensure b err = Err err' → b = false ∧ err = err'.
Proof. destruct b; [discriminate | intros [= ->]; done]. Qed.

(** Walk a failed run down to the constraint that raised the error. *)
Ltac err_walk H :=
  cbv zeta in H;
  lazymatch type of H with
  | Ok _ = Err _ => discriminate H
  | Err _ = Err _ => try discriminate H
  | ensure _ _ = Err _ =>
      let Heq := fresh "Heq" in
      apply ensure_Err in H as [H Heq]; try discriminate Heq
  | (_ ≫= _) = Err _ =>
      let a := fresh "a" in
      let Hm := fresh "Hm" in
      apply bind_Err in H as [H | (a & Hm & H)]; err_walk H
  | match ?x with _ => _ end = Err _ => destruct x eqn:?; err_walk H
  | _ => idtac
  end.

(** A policy check that failed although the policy permits. *)
Ltac permitted Hw :=
  match goal with
  | H : permits _ _ _ _ _ = false |- _ => by rewrite Hw in H
  | H : forallb ?f ?l = false |- _ =>
      assert (forallb f l = true)
        by (apply forallb_forall; intros; rewrite !Hw; by rewrite ?orb_true_r);
      congruence
  end.

Lemma upsert_attendance_rows_staff e uid rs : ∀ k seen db,
  staff db uid = true →
  upsert_attendance_rows e (authenticated uid) k seen rs db ≠ Err insufficient_privilege.
Proof.
  assert (Ht : T_attendance ∈ school_tables)
    by (do 2 apply list_elem_of_further; apply list_elem_of_here).
  induction rs as [|i rs IH]; intros k seen db Hstaff H; simpl in H; [discriminate|].
  pose proof (λ cmd row, permits_staff db uid T_attendance cmd row Ht Hstaff) as Hw.
  destruct (upsert_attendance_row e k (authenticated uid) seen i db) as [db1|err] eqn:Hrow;
    simpl in H.
  - destruct (upsert_attendance_rows e (authenticated uid) (S k) _ rs db1)
      as [[db2 n]|err] eqn:Hrest; simpl in H; [discriminate|].
    inversion H; subst. eapply IH; [|exact Hrest].
    apply upsert_attendance_row_frame in Hrow. rewrite Hrow. exact Hstaff.
  - inversion H; subst; clear H.
    unfold upsert_attendance_row, attendance_foreign_keys in Hrow.
    err_walk Hrow; permitted Hw.
Qed.

Lemma upsert_grades_rows_staff e uid rs : ∀ k seen db,
  staff db uid = true →
  upsert_grades_rows e (authenticated uid) k seen rs db ≠ Err insufficient_privilege.
Proof.
  assert (Ht : T_grades ∈ school_tables)
    by (do 3 apply list_elem_of_further; apply list_elem_of_here).
  induction rs as [|i rs IH]; intros k seen db Hstaff H; simpl in H; [discriminate|].
  pose proof (λ cmd row, permits_staff db uid T_grades cmd row Ht Hstaff) as Hw.
  destruct (upsert_grades_row e k (authenticated uid) seen i db) as [db1|err] eqn:Hrow;
    simpl in H.
  - destruct (upsert_grades_rows e (authenticated uid) (S k) _ rs db1)
      as [[db2 n]|err] eqn:Hrest; simpl in H; [discriminate|].
    inversion H; subst. eapply IH; [|exact Hrest].
    apply upsert_grades_row_frame in Hrow. rewrite Hrow. exact Hstaff.
  - inversion H; subst; clear H.
    unfold upsert_grades_row, grades_proposed, grades_checks, grades_foreign_keys,
      generated_untouched, coerce_score in Hrow.
    err_walk Hrow; permitted Hw.
Qed.

Lemma run_staff e uid s db t :
  statement_table s = Some t → t ∈ school_tables → staff db uid = true →
  run e (authenticated uid) s db ≠ Err insufficient_privilege.
Proof.
  intros Hs Ht Hstaff H.
  pose proof (λ cmd row, permits_staff db uid t cmd row Ht Hstaff) as Hw.
  apply school_table_cases in Ht.
  destruct s; simpl in Hs; simplify_eq; simpl in H;
    try (by destruct Ht as [?|[?|[?|?]]]); clear Ht.
  all: try (by eapply upsert_attendance_rows_staff).
  all: try (by eapply upsert_grades_rows_staff).
  all: unfold insert_student, update_student, delete_student, students_coerce,
         insert_subject, update_subject, delete_subject, subjects_coerce,
         insert_attendance, update_attendance, delete_attendance,
         attendance_foreign_keys, insert_grade, update_grade, delete_grade,
         grades_proposed, grades_checks, grades_foreign_keys, generated_untouched,
         coerce_set, coerce_score, varchar in H.
  all: err_walk H; permitted Hw.
Qed.

(** C3: on students, subjects, attendance and grades, every read by a
    signed-in caller passes the policies; a write (INSERT, UPDATE, DELETE)
    passes them exactly when the caller holds the admin or the teacher role,
    where holding a role is having a user_roles row for it; and a statement
    of a caller without those roles writes nothing, while one of a caller
    with such a role is never refused by the policies. *)
Theorem school_tables_policies db uid t :
  t ∈ school_tables →
  (∀ row, permits db (authenticated uid) t SELECT row = true)
  ∧ (∀ cmd row, cmd ≠ SELECT →
       (permits db (authenticated uid) t cmd row = true
        ↔ has_role db uid admin = true ∨ has_role db uid teacher = true))
  ∧ (∀ r, has_role db uid r = true
          ↔ ∃ ur, ur ∈ tbl_user_roles db
                ∧ user_roles.user_id ur = uid ∧ user_roles.role ur = r)
  ∧ (∀ e s, statement_table s = Some t →
       ¬ (has_role db uid admin = true ∨ has_role db uid teacher = true) →
       (exec e (authenticated uid) s db).1 = db
       ∧ ∀ n, (exec e (authenticated uid) s db).2 = Done n → n = 0%nat)
  ∧ (∀ e s, statement_table s = Some t →
       has_role db uid admin = true ∨ has_role db uid teacher = true →
       (exec e (authenticated uid) s db).2 ≠ Rejected insufficient_privilege).
Proof.
  intros Ht. split; [|split; [|split; [|split]]].
  - intros row. by apply permits_school_select.
  - intros cmd row Hcmd. rewrite permits_school_write by done.
    unfold staff. apply orb_true_iff.
  - apply has_role_spec.
  - intros e s Hs Hno. apply wrote_nothing_run. eapply run_denied; [done..|].
    unfold staff. apply not_true_iff_false. by rewrite orb_true_iff.
  - intros e s Hs Hyes. unfold exec.
    destruct (run e (authenticated uid) s db) as [[db' n]|err] eqn:Hrun;
      simpl; [discriminate|].
    intros [= ->]. eapply run_staff; [done..| |exact Hrun].
    unfold staff. by apply orb_true_iff.
Qed.

Lemma school_tables_policies_witness :
  permits school (authenticated "ana") T_students SELECT (λ _, None) = true
  ∧ (permits school (authenticated "ana") T_grades INSERT (λ _, None) = true
     ↔ has_role school "ana" admin = true ∨ has_role school "ana" teacher = true)
  ∧ (permits school (authenticated "bob") T_students INSERT (λ _, None) = true
     ↔ has_role school "bob" admin = true ∨ has_role school "bob" teacher = true)
  ∧ (exec (draws "s") (authenticated "bob") (InsertStudent luis_form) school).1 = school
  ∧ (exec (draws "s") (authenticated "ana") (InsertStudent luis_form) school).2
    ≠ Rejected insufficient_privilege.
Proof.
  assert (Hs : T_students ∈ school_tables) by (apply list_elem_of_here).
  assert (Hg : T_grades ∈ school_tables) by (do 3 apply list_elem_of_further; apply list_elem_of_here).
  split; [|split; [|split; [|split]]].
  - apply (proj1 (school_tables_policies school "ana" T_students Hs)).
  - apply (proj1 (proj2 (school_tables_policies school "ana" T_grades Hg))). done.
  - apply (proj1 (proj2 (school_tables_policies school "bob" T_students Hs))). done.
  - apply (proj1 (proj2 (proj2 (proj2 (school_tables_policies school "bob" T_students Hs))))
             (draws "s") (InsertStudent luis_form)); [done|].
    vm_compute. intros [H|H]; discriminate H.
  - apply (proj2 (proj2 (proj2 (proj2 (school_tables_policies school "ana" T_students Hs))))
             (draws "s") (InsertStudent luis_form)); [done|].
    right. vm_compute. reflexivity.
Defined.

(** ** Score bounds *)

Lemma round_div_range (d b : Z) :
  0 < b → (0 ≤ round_div d b ≤ 10000 ↔ - b < 2 * d < 20001 * b).
Proof.
  intros Hb. unfold round_div.
  set (q := (2 * Z.abs d + b) / (2 * b)).
  assert (Hq : 0 ≤ q) by (apply Z.div_pos; lia).
  assert (Hzero : q = 0 ↔ 2 * Z.abs d < b).
  { unfold q. rewrite Z.div_small_iff by lia. lia. }
  assert (Hle : q ≤ 10000 ↔ 2 * Z.abs d < 20001 * b).
  { unfold q. split; intros H.
    - apply (Z.mul_le_mono_nonneg_l _ _ (2 * b)) in H; [|lia].
      pose proof (Z.mul_succ_div_gt (2 * Z.abs d + b) (2 * b) ltac:(lia)) as Hd.
      rewrite Z.mul_succ_r in Hd. lia.
    - apply Z.lt_succ_r. apply Z.div_lt_upper_bound; lia. }
  destruct (Z.lt_trichotomy d 0) as [Hneg|[->|Hpos]].
  - rewrite Z.sgn_neg by lia. rewrite Z.abs_neq in * by lia. lia.
  - simpl. lia.
  - rewrite Z.sgn_pos by lia. rewrite Z.abs_eq in * by lia. lia.
Qed.

(** The scores that get through are those strictly between -0.005 and
    100.005: [-0.005 < digits / 10^scale < 100.005]. *)
Lemma score_storable_spec (x : numeric) :
  score_storable (Some x) = true
  ↔ - 10 ^ Z.of_nat (scale x) < 200 * digits x < 20001 * 10 ^ Z.of_nat (scale x).
Proof.
  destruct x as [d s]. unfold score_storable, to_decimal_5_2, to_scale_2. simpl.
  destruct (s <=? 2)%nat eqn:Hs.
  - apply Nat.leb_le in Hs.
    assert (Hc : s = 0%nat ∨ s = 1%nat ∨ s = 2%nat) by lia.
    destruct Hc as [->|[->| ->]]; simpl;
      change (Z.of_nat 0) with 0; change (Z.of_nat 1) with 1;
      change (Z.of_nat 2) with 2; change (10 ^ 0) with 1;
      change (10 ^ 1) with 10; change (10 ^ 2) with 100;
      (destruct (Z.abs _ <? 100000) eqn:Ha;
       [ rewrite andb_true_iff, !Z.leb_le; lia
       | apply Z.ltb_ge in Ha; split; [discriminate | lia] ]).
  - apply Nat.leb_gt in Hs.
    set (b := 10 ^ Z.of_nat (s - 2)).
    assert (Hb : 0 < b) by (apply Z.pow_pos_nonneg; lia).
    assert (Hp : 10 ^ Z.of_nat s = 100 * b).
    { unfold b. replace (Z.of_nat s) with (2 + Z.of_nat (s - 2)) by lia.
      rewrite Z.pow_add_r by lia. reflexivity. }
    rewrite Hp. pose proof (round_div_range d b Hb) as Hr.
    destruct (Z.abs (round_div d b) <? 100000) eqn:Ha.
    + rewrite andb_true_iff, !Z.leb_le. lia.
    + apply Z.ltb_ge in Ha. split; [discriminate|]. lia.
Qed.

Lemma in_range_storable (x : numeric) :
  numeric_in_0_100 x = true → score_storable (Some x) = true.
Proof.
  unfold numeric_in_0_100. rewrite andb_true_iff, !Z.leb_le. intros [H0 H1].
  apply score_storable_spec.
  assert (0 < 10 ^ Z.of_nat (scale x)) by (apply Z.pow_pos_nonneg; lia). lia.
Qed.

Lemma coerce_score_check s v :
  coerce_score s = Ok v →
  check_holds (grades.score_check v) = score_storable s.
Proof.
  unfold coerce_score, score_storable. destruct s as [x|].
  - destruct (to_decimal_5_2 x) as [w|]; [|discriminate].
    intros H. inversion H; subst. unfold grades.score_check. simpl.
    destruct (0 <=? w), (w <=? 10000); reflexivity.
  - intros H. inversion H; subst. reflexivity.
Qed.

Lemma grades_proposed_storable e k i r :
  grades_proposed e k i = Ok r →
  grades.i_average i = None
  ∧ check_holds (grades.score_check (grades.partial_score r))
    = score_storable (grades.i_partial_score i)
  ∧ check_holds (grades.score_check (grades.exam_score r))
    = score_storable (grades.i_exam_score i).
Proof.
  unfold grades_proposed, generated_untouched. intros H. unbind H.
  inversion H; subst; clear H. simpl.
  destruct (grades.i_average i); [discriminate|].
  eauto using coerce_score_check.
Qed.

Lemma grades_proposed_checked e k i r u :
  grades_proposed e k i = Ok r → grades_checks r = Ok u → ¬ bad_grade_input i.
Proof.
  intros Hr Hc. apply grades_proposed_storable in Hr as (Ha & Hp & Hx).
  apply grades_checks_Ok in Hc as [Hp' Hx'].
  intros [H|[H|H]]; congruence.
Qed.

Lemma insert_grade_bad e c i db :
  bad_grade_input i → ∃ err, exec e c (InsertGrade i) db = (db, Rejected err).
Proof.
  intros Hbad.
  destruct (run e c (InsertGrade i) db) as [[db' n]|err] eqn:Hrun.
  - exfalso. simpl in Hrun. unfold insert_grade in Hrun. unbind Hrun.
    eapply grades_proposed_checked; eauto.
  - exists err. by apply exec_Rejected.
Qed.

Lemma upsert_grades_rows_bad e c rs : ∀ k seen db db' n i,
  upsert_grades_rows e c k seen rs db = Ok (db', n) → i ∈ rs → ¬ bad_grade_input i.
Proof.
  induction rs as [|j rs IH]; simpl; intros k seen db db' n i H Hi.
  - by apply elem_of_nil in Hi.
  - unbind H. destruct a0 as [db2 m].
    apply elem_of_cons in Hi as [->|Hi]; [|eauto].
    unfold upsert_grades_row in Hstep. unbind Hstep.
    eapply grades_proposed_checked; eauto.
Qed.

Lemma upsert_grades_bad e c rs i db :
  i ∈ rs → bad_grade_input i →
  ∃ err, exec e c (UpsertGrades rs) db = (db, Rejected err).
Proof.
  intros Hi Hbad.
  destruct (run e c (UpsertGrades rs) db) as [[db' n]|err] eqn:Hrun.
  - exfalso. simpl in Hrun. unfold upsert_grades in Hrun.
    eapply upsert_grades_rows_bad; eauto.
  - exists err. by apply exec_Rejected.
Qed.

Lemma coerce_set_check s w v :
  coerce_set (Some s) = Ok w → check_holds (grades.score_check (default v w)) = score_storable s.
Proof.
  unfold coerce_set. intros H. unbind H. inversion H; subst. simpl.
  eauto using coerce_score_check.
Qed.

Lemma update_grade_bad e c t p db db' n :
  bad_grade_patch p →
  update_grade e c t p db = Ok (db', n) →
  db' = db ∧ n = 0%nat ∧ ∀ r, r ∈ tbl_grades db → grade_hit db c UPDATE t r = false.
Proof.
  intros Hbad H. unfold update_grade, generated_untouched in H. unbind H.
  destruct (filter _ (tbl_grades db)) as [|h hit] eqn:Hhit.
  - inversion H; subst. split; [done|]. split; [done|].
    intros r Hr. apply not_true_iff_false. intros Hg.
    eapply filter_nil_not_elem_of; [exact Hhit| |exact Hr].
    cbv beta. by rewrite Hg.
  - exfalso. unbind H.
    match goal with
    | Hc : forallb _ (h :: hit) = true |- _ =>
        simpl in Hc; apply andb_prop in Hc as [Hc _];
        apply andb_prop in Hc as [Hp Hx]
    end.
    destruct Hbad as [(s & Hs & Hbad)|[(s & Hs & Hbad)|Hbad]].
    + rewrite Hs in *. erewrite coerce_set_check in Hp by eauto. congruence.
    + rewrite Hs in *. erewrite coerce_set_check in Hx by eauto. congruence.
    + destruct (grades.p_average p); [discriminate|done].
Qed.

Lemma coerce_score_storable s :
  score_storable s = true →
  ∃ v, coerce_score s = Ok v ∧ check_holds (grades.score_check v) = true.
Proof.
  intros Hs. destruct (coerce_score s) as [v|err] eqn:Hc.
  - exists v. split; [done|]. by rewrite (coerce_score_check s v Hc).
  - exfalso. unfold coerce_score, score_storable in *.
    destruct s as [x|]; [|discriminate].
    destruct (to_decimal_5_2 x); discriminate.
Qed.

(** Scores that can be stored get past the column type and the range
    checks: whatever refuses the record, it is neither of the two. *)
Lemma grades_proposed_in_range e k i :
  score_storable (grades.i_partial_score i) = true →
  score_storable (grades.i_exam_score i) = true →
  (∃ r, grades_proposed e k i = Ok r ∧ grades_checks r = Ok ())
  ∨ grades_proposed e k i = Err generated_always.
Proof.
  intros Hp Hx.
  apply coerce_score_storable in Hp as (p & Hp & Hpc).
  apply coerce_score_storable in Hx as (x & Hx & Hxc).
  unfold grades_proposed, generated_untouched.
  destruct (grades.i_average i); [by right|]. left.
  rewrite Hp, Hx. simpl. eexists. split; [reflexivity|].
  unfold grades_checks. simpl. by rewrite Hpc, Hxc.
Qed.

Lemma insert_grade_in_range e c i db err :
  score_storable (grades.i_partial_score i) = true →
  score_storable (grades.i_exam_score i) = true →
  insert_grade e c i db = Err err →
  err ≠ check_violation ∧ err ≠ numeric_value_out_of_range.
Proof.
  intros Hp Hx H. unfold insert_grade in H.
  destruct (grades_proposed_in_range e 0 i Hp Hx) as [(r & Hr & Hc)| Hr];
    rewrite Hr in H; simpl in H.
  - rewrite Hc in H. unfold grades_foreign_keys in H.
    err_walk H; subst; split; discriminate.
  - inversion H; subst. split; discriminate.
Qed.

Lemma upsert_grades_row_in_range e k c seen i db err :
  score_storable (grades.i_partial_score i) = true →
  score_storable (grades.i_exam_score i) = true →
  upsert_grades_row e k c seen i db = Err err →
  err ≠ check_violation ∧ err ≠ numeric_value_out_of_range.
Proof.
  intros Hp Hx H. unfold upsert_grades_row in H.
  destruct (grades_proposed_in_range e k i Hp Hx) as [(r & Hr & Hc)| Hr];
    rewrite Hr in H; simpl in H.
  - rewrite Hc in H. unfold grades_foreign_keys in H.
    err_walk H; subst; split; discriminate.
  - inversion H; subst. split; discriminate.
Qed.

Lemma upsert_grades_rows_in_range e c rs : ∀ k seen db err,
  Forall (λ i, score_storable (grades.i_partial_score i) = true
               ∧ score_storable (grades.i_exam_score i) = true) rs →
  upsert_grades_rows e c k seen rs db = Err err →
  err ≠ check_violation ∧ err ≠ numeric_value_out_of_range.
Proof.
  induction rs as [|i rs IH]; intros k seen db err Hrs H; simpl in H; [discriminate|].
  apply Forall_cons in Hrs as [[Hp Hx] Hrs].
  destruct (upsert_grades_row e k c seen i db) as [db1|err1] eqn:Hrow; simpl in H.
  - destruct (upsert_grades_rows e c (S k) _ rs db1) as [[db2 n]|err2] eqn:Hrest;
      simpl in H; [discriminate|].
    inversion H; subst. eauto.
  - inversion H; subst. eauto using upsert_grades_row_in_range.
Qed.

Lemma coerce_set_storable s :
  (∀ v, s = Some v → score_storable v = true) →
  ∃ w, coerce_set s = Ok w
     ∧ ∀ old, check_holds (grades.score_check old) = true →
              check_holds (grades.score_check (default old w)) = true.
Proof.
  intros Hs. destruct s as [v|]; simpl.
  - destruct (coerce_score_storable v (Hs v eq_refl)) as (z & -> & Hz).
    simpl. eexists. split; [reflexivity|]. done.
  - eexists. split; [reflexivity|]. done.
Qed.

Lemma update_grade_in_range e c t p db err :
  Forall grade_ok (tbl_grades db) →
  (∀ v, grades.p_partial_score p = Some v → score_storable v = true) →
  (∀ v, grades.p_exam_score p = Some v → score_storable v = true) →
  update_grade e c t p db = Err err →
  err ≠ check_violation ∧ err ≠ numeric_value_out_of_range.
Proof.
  intros Hok Hp Hx H. unfold update_grade, generated_untouched in H.
  apply coerce_set_storable in Hp as (sp & Hp & Hpc).
  apply coerce_set_storable in Hx as (sx & Hx & Hxc).
  rewrite Hp, Hx in H.
  destruct (grades.p_average p).
  { inversion H; subst. split; discriminate. }
  simpl in H.
  destruct (filter _ (tbl_grades db)) as [|h hit] eqn:Hhit; [discriminate|].
  err_walk H; subst; try (split; discriminate).
  exfalso. apply not_true_iff_false in H. apply H.
  apply forallb_forall. intros r Hr. apply list_elem_of_In in Hr.
  rewrite <- Hhit in Hr. apply list_elem_of_filter in Hr as [_ Hr].
  rewrite Forall_forall in Hok. destruct (Hok r Hr) as (_ & Hrp & Hrx).
  simpl. rewrite Hpc, Hxc by done. done.
Qed.

(** An INSERT of a grade that every constraint lets through stores the
    scores as the column type rounds them. *)
Lemma insert_grade_accepted e c i db :
  score_storable (grades.i_partial_score i) = true →
  score_storable (grades.i_exam_score i) = true →
  grades.i_average i = None →
  permits db c T_grades INSERT (λ _, None) = true →
  has_key grades.id (gen_random_uuid e 0) (tbl_grades db) = false →
  has_key grades_key (grades_input_key i) (tbl_grades db) = false →
  has_key students.id (grades.i_student_id i) (tbl_students db) = true →
  has_key subjects.id (grades.i_subject_id i) (tbl_subjects db) = true →
  ∃ p x, coerce_score (grades.i_partial_score i) = Ok p
       ∧ coerce_score (grades.i_exam_score i) = Ok x
       ∧ exec e c (InsertGrade i) db
         = (set_grades db
              (tbl_grades db ++
                 [{| grades.id := gen_random_uuid e 0;
                     grades.partial_score := p;
                     grades.exam_score := x;
                     grades.average := grades.generated_average p x;
                     grades.student_id := grades.i_student_id i;
                     grades.subject_id := grades.i_subject_id i;
                     grades.created_at := now e;
                     grades.updated_at := now e |}]),
            Done 1).
Proof.
  intros Hp Hx Havg Hrls Hpk Hkey Hst Hsu.
  apply coerce_score_storable in Hp as (p & Hp & Hpc).
  apply coerce_score_storable in Hx as (x & Hx & Hxc).
  assert (Ht : T_grades ∈ school_tables)
    by (do 3 apply list_elem_of_further; apply list_elem_of_here).
  exists p, x. split; [done|]. split; [done|].
  unfold exec. simpl. unfold insert_grade, grades_proposed.
  rewrite Havg, Hp, Hx. simpl.
  rewrite (permits_school_row _ _ _ _ _ (λ _, None) Ht), Hrls. simpl.
  unfold grades_checks. simpl. rewrite Hpc, Hxc. simpl.
  rewrite Hpk. simpl. unfold grades_input_key in Hkey.
  match goal with
  | |- context [grades_key ?r] =>
      change (grades_key r) with (grades.i_student_id i, grades.i_subject_id i)
  end.
  rewrite Hkey. simpl.
  unfold grades_foreign_keys. simpl. rewrite Hst, Hsu. simpl. reflexivity.
Qed.

Lemma exec_rejected_by e c s db (P : error → Prop) :
  (∀ err, run e c s db = Err err → P err) →
  ∀ err, (exec e c s db).2 = Rejected err → P err.
Proof.
  intros H err. unfold exec.
  destruct (run e c s db) as [[db' n]|err'] eqn:Hrun; simpl; [discriminate|].
  intros [= ->]. auto.
Qed.

(** C4, as stated, fails: 100.004 lies outside [0, 100], yet the column
    rounds it to 100.00 and the row is stored. *)
Lemma score_above_100_stored :
  numeric_in_0_100 (num 100004 3) = false
  ∧ ∃ db', exec (draws "g") (authenticated "ana")
             (InsertGrade (grade_for_luis (Some (num 100004 3)) (Some (num 90 0))))
             school = (db', Done 1)
         ∧ map grades.partial_score (tbl_grades db') = [Some 10000].
Proof. split; [reflexivity|]. eexists. split; vm_compute; reflexivity. Qed.

(** C4 (amended): a write to grades is refused unless every supplied score,
    rounded to the column's two decimals, lies in [0, 100], that is unless it
    is strictly between -0.005 and 100.005.  An INSERT or upsert with a score
    outside, or one naming the average column, is rejected and changes
    nothing; an UPDATE with such a SET list writes no row, and is rejected
    when it reaches one.  A score inside gets through the column type and
    the range check of INSERT, upsert and UPDATE: whatever refuses such a
    write, it is neither the numeric overflow nor the check violation, and an
    INSERT that the other constraints let through stores the rounded
    scores. *)
Theorem grades_scores_checked :
  (∀ x, score_storable (Some x) = true
        ↔ - 10 ^ Z.of_nat (scale x) < 200 * digits x
            < 20001 * 10 ^ Z.of_nat (scale x))
  ∧ (∀ x, numeric_in_0_100 x = true → score_storable (Some x) = true)
  ∧ (∀ e c i db, bad_grade_input i →
       ∃ err, exec e c (InsertGrade i) db = (db, Rejected err))
  ∧ (∀ e c rs i db, i ∈ rs → bad_grade_input i →
       ∃ err, exec e c (UpsertGrades rs) db = (db, Rejected err))
  ∧ (∀ e c t p db, bad_grade_patch p →
       (exec e c (UpdateGrade t p) db).1 = db
       ∧ (∀ n, (exec e c (UpdateGrade t p) db).2 = Done n → n = 0%nat)
       ∧ ((∃ r, r ∈ tbl_grades db ∧ grade_hit db c UPDATE t r = true) →
          ∃ err, (exec e c (UpdateGrade t p) db).2 = Rejected err))
  ∧ (∀ s, score_storable s = true
          ↔ ∃ v, coerce_score s = Ok v
               ∧ check_holds (grades.score_check v) = true)
  ∧ (∀ e c i db,
       score_storable (grades.i_partial_score i) = true →
       score_storable (grades.i_exam_score i) = true →
       (exec e c (InsertGrade i) db).2 ≠ Rejected check_violation
       ∧ (exec e c (InsertGrade i) db).2 ≠ Rejected numeric_value_out_of_range)
  ∧ (∀ e c i db x y,
       grades.i_partial_score i = Some x → grades.i_exam_score i = Some y →
       numeric_in_0_100 x = true → numeric_in_0_100 y = true →
       (exec e c (InsertGrade i) db).2 ≠ Rejected check_violation
       ∧ (exec e c (InsertGrade i) db).2 ≠ Rejected numeric_value_out_of_range)
  ∧ (∀ e c rs db,
       (∀ i, i ∈ rs → score_storable (grades.i_partial_score i) = true
                      ∧ score_storable (grades.i_exam_score i) = true) →
       (exec e c (UpsertGrades rs) db).2 ≠ Rejected check_violation
       ∧ (exec e c (UpsertGrades rs) db).2 ≠ Rejected numeric_value_out_of_range)
  ∧ (∀ e c t p db, reachable db →
       (∀ v, grades.p_partial_score p = Some v → score_storable v = true) →
       (∀ v, grades.p_exam_score p = Some v → score_storable v = true) →
       (exec e c (UpdateGrade t p) db).2 ≠ Rejected check_violation
       ∧ (exec e c (UpdateGrade t p) db).2 ≠ Rejected numeric_value_out_of_range)
  ∧ (∀ e c i db,
       score_storable (grades.i_partial_score i) = true →
       score_storable (grades.i_exam_score i) = true →
       grades.i_average i = None →
       permits db c T_grades INSERT (λ _, None) = true →
       has_key grades.id (gen_random_uuid e 0) (tbl_grades db) = false →
       has_key grades_key (grades_input_key i) (tbl_grades db) = false →
       has_key students.id (grades.i_student_id i) (tbl_students db) = true →
       has_key subjects.id (grades.i_subject_id i) (tbl_subjects db) = true →
       ∃ p x, coerce_score (grades.i_partial_score i) = Ok p
            ∧ coerce_score (grades.i_exam_score i) = Ok x
            ∧ exec e c (InsertGrade i) db
              = (set_grades db
                   (tbl_grades db ++
                      [{| grades.id := gen_random_uuid e 0;
                          grades.partial_score := p;
                          grades.exam_score := x;
                          grades.average := grades.generated_average p x;
                          grades.student_id := grades.i_student_id i;
                          grades.subject_id := grades.i_subject_id i;
                          grades.created_at := now e;
                          grades.updated_at := now e |}]),
                 Done 1)).
Proof.
  split; [exact score_storable_spec|].
  split; [exact in_range_storable|].
  split; [exact insert_grade_bad|].
  split; [exact upsert_grades_bad|].
  split.
  { intros e c t p db Hbad. unfold exec. simpl.
    destruct (update_grade e c t p db) as [[db' n]|err] eqn:Hrun; simpl.
    - apply update_grade_bad in Hrun as (-> & -> & Hnone); [|done].
      split; [done|]. split.
      + intros n Hn. by inversion Hn.
      + intros (r & Hr & Hhit). rewrite (Hnone r Hr) in Hhit. discriminate.
    - split; [done|]. split; [intros n Hn; inversion Hn | eauto]. }
  split.
  { intros s. split; [apply coerce_score_storable|].
    intros (v & Hv & Hc). by rewrite <- (coerce_score_check s v Hv). }
  assert (Hins : ∀ e c i db,
            score_storable (grades.i_partial_score i) = true →
            score_storable (grades.i_exam_score i) = true →
            (exec e c (InsertGrade i) db).2 ≠ Rejected check_violation
            ∧ (exec e c (InsertGrade i) db).2 ≠ Rejected numeric_value_out_of_range).
  { intros e c i db Hp Hx.
    pose proof (exec_rejected_by e c (InsertGrade i) db
                  (λ err, err ≠ check_violation ∧ err ≠ numeric_value_out_of_range)
                  (λ err, insert_grade_in_range e c i db err Hp Hx)) as H.
    split; intros Hr; apply H in Hr as [? ?]; done. }
  split; [exact Hins|].
  split.
  { intros e c i db x y Hp Hx Hpr Hxr.
    apply Hins; [rewrite Hp | rewrite Hx]; by apply in_range_storable. }
  split.
  { intros e c rs db Hrs.
    assert (Hall : Forall (λ i, score_storable (grades.i_partial_score i) = true
                                ∧ score_storable (grades.i_exam_score i) = true) rs)
      by (by apply Forall_forall).
    pose proof (exec_rejected_by e c (UpsertGrades rs) db
                  (λ err, err ≠ check_violation ∧ err ≠ numeric_value_out_of_range)
                  (λ err, upsert_grades_rows_in_range e c rs 0%nat [] db err Hall)) as H.
    split; intros Hr; apply H in Hr as [? ?]; done. }
  split.
  { intros e c t p db Hdb Hp Hx.
    pose proof (exec_rejected_by e c (UpdateGrade t p) db
                  (λ err, err ≠ check_violation ∧ err ≠ numeric_value_out_of_range)
                  (λ err, update_grade_in_range e c t p db err
                            (reachable_grade_ok db Hdb) Hp Hx)) as H.
    split; intros Hr; apply H in Hr as [? ?]; done. }
  exact insert_grade_accepted.
Qed.

Lemma grades_scores_checked_witness :
  (score_storable (Some (num 100004 3)) = true)
  ∧ (score_storable (Some (num 100 0)) = true)
  ∧ (∃ err, exec (draws "g") (authenticated "ana")
              (InsertGrade (grade_for_luis (Some (num 100005 3)) None)) school
            = (school, Rejected err))
  ∧ (∃ err, exec (draws "g") (authenticated "ana")
              (UpsertGrades [grade_for_luis (Some (num 50 0)) (Some (num (-1) 0))])
              school
            = (school, Rejected err))
  ∧ (∃ err, (exec (draws "g") (authenticated "ana")
               (UpdateGrade "g0"
                  {| grades.p_partial_score := Some (Some (num 101 0));
                     grades.p_exam_score := None; grades.p_average := None |})
               school_in_session).2 = Rejected err)
  ∧ (exec (draws "g") (authenticated "ana")
       (InsertGrade (grade_for_luis (Some (num 100 0)) (Some (num 0 0))))
       school_in_session).2 ≠ Rejected check_violation
  ∧ (∃ p x, exec (draws "g") (authenticated "ana")
              (InsertGrade (grade_for_luis (Some (num 100 0)) (Some (num 0 0)))) school
            = (set_grades school
                 (tbl_grades school ++
                    [{| grades.id := "g0"; grades.partial_score := p;
                        grades.exam_score := x;
                        grades.average := grades.generated_average p x;
                        grades.student_id := "s0"; grades.subject_id := "j0";
                        grades.created_at := 0; grades.updated_at := 0 |}]),
               Done 1)).
Proof.
  destruct grades_scores_checked
    as (Hspec & Hin & Hins & Hups & Hupd & _ & Hpass & _ & _ & _ & Hacc).
  split; [|split; [|split; [|split; [|split; [|split]]]]].
  - apply Hspec. vm_compute. done.
  - apply Hin. reflexivity.
  - apply Hins. left. reflexivity.
  - apply (Hups _ _ _ (grade_for_luis (Some (num 50 0)) (Some (num (-1) 0)))).
    + apply list_elem_of_here.
    + right. left. reflexivity.
  - apply Hupd.
    + left. eexists. split; reflexivity.
    + eexists. split; [vm_compute; apply list_elem_of_here | vm_compute; reflexivity].
  - apply Hpass; reflexivity.
  - destruct (Hacc (draws "g") (authenticated "ana")
                (grade_for_luis (Some (num 100 0)) (Some (num 0 0))) school)
      as (p & x & _ & _ & Hexec); try (vm_compute; reflexivity).
    exists p, x. exact Hexec.
Defined.

(** ** Texts and VARCHAR columns *)

Lemma clip_fits (s : string) : ∀ n, fits n s → clip n s = s.
Proof.
  unfold fits. induction s as [|ch s IH]; intros n Hn; simpl in *; [done|].
  destruct (continuation ch).
  - by rewrite IH.
  - destruct n as [|n]; [lia|]. rewrite IH by lia. done.
Qed.

Lemma excess_fits (s : string) : ∀ n, fits n s → excess n s = "".
Proof.
  unfold fits. induction s as [|ch s IH]; intros n Hn; simpl in *; [done|].
  destruct (continuation ch).
  - by apply IH.
  - destruct n as [|n]; [lia|]. apply IH. lia.
Qed.

Lemma fits_clip (s : string) : ∀ n, fits n (clip n s).
Proof.
  unfold fits. induction s as [|ch s IH]; intros n; simpl; [lia|].
  destruct (continuation ch) eqn:Hc; simpl.
  - rewrite Hc. apply IH.
  - destruct n as [|n]; simpl; [lia|]. rewrite Hc. specialize (IH n). lia.
Qed.

Lemma clip_excess (s : string) : ∀ n, clip n s +:+ excess n s = s.
Proof.
  induction s as [|ch s IH]; intros n; simpl; [done|].
  destruct (continuation ch).
  - change (String ch (clip n s +:+ excess n s) = String ch s). by rewrite IH.
  - destruct n as [|n]; [done|].
    change (String ch (clip n s +:+ excess n s) = String ch s). by rewrite IH.
Qed.

Lemma fits_varchar n s : fits n s → varchar n s = Ok ().
Proof. intros H. unfold varchar. by rewrite excess_fits. Qed.

Lemma fits_varchar_null n s : fits_null n s → varchar_null n s = Ok ().
Proof. destruct s as [s|]; simpl; [apply fits_varchar|done]. Qed.


(** ** The provisioning trigger *)









(** ** Cascading deletes *)

Lemma student_hit_all db c cmd t r0 :
  student_hit db c cmd t r0 = true →
  ∀ r, student_hit db c cmd t r = bool_decide (students.id r = t).
Proof.
  unfold student_hit. intros H r.
  apply andb_prop in H as [H Hsel]. apply andb_prop in H as [_ Hcmd].
  assert (Ht : T_students ∈ school_tables) by apply list_elem_of_here.
  rewrite (permits_school_row _ _ _ _ _ (students_view r0) Ht), Hcmd.
  rewrite (permits_school_row _ _ _ _ _ (students_view r0) Ht), Hsel.
  by rewrite !andb_true_r.
Qed.

Lemma subject_hit_all db c cmd t r0 :
  subject_hit db c cmd t r0 = true →
  ∀ r, subject_hit db c cmd t r = bool_decide (subjects.id r = t).
Proof.
  unfold subject_hit. intros H r.
  apply andb_prop in H as [H Hsel]. apply andb_prop in H as [_ Hcmd].
  assert (Ht : T_subjects ∈ school_tables)
    by (apply list_elem_of_further, list_elem_of_here).
  rewrite (permits_school_row _ _ _ _ _ (subjects_view r0) Ht), Hcmd.
  rewrite (permits_school_row _ _ _ _ _ (subjects_view r0) Ht), Hsel.
  by rewrite !andb_true_r.
Qed.

Lemma filter_head_hit {A} (f : A → bool) (l : list A) h hit :
  filter (λ r, f r) l = h :: hit → f h = true.
Proof.
  intros H. assert (Hin : h ∈ filter (λ r, f r) l) by (rewrite H; apply list_elem_of_here).
  apply list_elem_of_filter in Hin as [Hf _]. by apply Is_true_true.
Qed.

Lemma delete_student_Ok c t db db' n :
  delete_student c t db = Ok (db', S n) →
  db' = {| auth_users := auth_users db;
           tbl_profiles := tbl_profiles db;
           tbl_user_roles := tbl_user_roles db;
           tbl_students := filter (λ r, students.id r ≠ t) (tbl_students db);
           tbl_subjects := tbl_subjects db;
           tbl_attendance :=
             filter (λ a, attendance.student_id a ≠ t) (tbl_attendance db);
           tbl_grades := filter (λ g, grades.student_id g ≠ t) (tbl_grades db) |}.
Proof.
  unfold delete_student. intros H.
  destruct (filter _ (tbl_students db)) as [|h hit] eqn:Hhit; [discriminate|].
  apply filter_head_hit in Hhit. inversion H; subst; clear H. f_equal.
  apply list_filter_iff. intros r.
  rewrite (student_hit_all _ _ _ _ _ Hhit r).
  by rewrite bool_decide_spec.
Qed.

Lemma delete_subject_Ok c t db db' n :
  delete_subject c t db = Ok (db', S n) →
  db' = {| auth_users := auth_users db;
           tbl_profiles := tbl_profiles db;
           tbl_user_roles := tbl_user_roles db;
           tbl_students := tbl_students db;
           tbl_subjects := filter (λ r, subjects.id r ≠ t) (tbl_subjects db);
           tbl_attendance :=
             filter (λ a, attendance.subject_id a ≠ t) (tbl_attendance db);
           tbl_grades := filter (λ g, grades.subject_id g ≠ t) (tbl_grades db) |}.
Proof.
  unfold delete_subject. intros H.
  destruct (filter _ (tbl_subjects db)) as [|h hit] eqn:Hhit; [discriminate|].
  apply filter_head_hit in Hhit. inversion H; subst; clear H. f_equal.
  apply list_filter_iff. intros r.
  rewrite (subject_hit_all _ _ _ _ _ Hhit r).
  by rewrite bool_decide_spec.
Qed.

(** C6: deleting a student removes the student and every attendance and
    grade row that references it, and nothing else; deleting a subject
    likewise.  The tables after the delete are the tables before it without
    exactly those rows. *)
Theorem delete_cascades :
  (∀ e c t db db' n,
     exec e c (DeleteStudent t) db = (db', Done (S n)) →
     tbl_students db' = filter (λ r, students.id r ≠ t) (tbl_students db)
     ∧ tbl_attendance db'
       = filter (λ a, attendance.student_id a ≠ t) (tbl_attendance db)
     ∧ tbl_grades db' = filter (λ g, grades.student_id g ≠ t) (tbl_grades db)
     ∧ tbl_subjects db' = tbl_subjects db
     ∧ tbl_profiles db' = tbl_profiles db
     ∧ tbl_user_roles db' = tbl_user_roles db
     ∧ auth_users db' = auth_users db)
  ∧ (∀ e c t db db' n,
     exec e c (DeleteSubject t) db = (db', Done (S n)) →
     tbl_subjects db' = filter (λ r, subjects.id r ≠ t) (tbl_subjects db)
     ∧ tbl_attendance db'
       = filter (λ a, attendance.subject_id a ≠ t) (tbl_attendance db)
     ∧ tbl_grades db' = filter (λ g, grades.subject_id g ≠ t) (tbl_grades db)
     ∧ tbl_students db' = tbl_students db
     ∧ tbl_profiles db' = tbl_profiles db
     ∧ tbl_user_roles db' = tbl_user_roles db
     ∧ auth_users db' = auth_users db).
Proof.
  split; intros e c t db db' n H; apply exec_Done in H; simpl in H.
  - apply delete_student_Ok in H as ->. simpl. done.
  - apply delete_subject_Ok in H as ->. simpl. done.
Qed.

(** The delete goes through when the caller may write and the row exists. *)
Lemma delete_student_succeeds e c t db :
  permits db c T_students DELETE (λ _, None) = true →
  permits db c T_students SELECT (λ _, None) = true →
  has_key students.id t (tbl_students db) = true →
  ∃ db' n, exec e c (DeleteStudent t) db = (db', Done (S n)).
Proof.
  intros Hdel Hsel Hkey. apply has_key_true in Hkey as (r & Hr & Hid).
  assert (Ht : T_students ∈ school_tables) by apply list_elem_of_here.
  assert (Hhit : r ∈ filter (λ r, student_hit db c DELETE t r) (tbl_students db)).
  { apply list_elem_of_filter. split; [|done]. unfold student_hit.
    rewrite (permits_school_row _ _ _ _ _ (λ _, None) Ht), Hdel.
    rewrite (permits_school_row _ _ _ _ _ (λ _, None) Ht), Hsel.
    by rewrite bool_decide_eq_true_2. }
  unfold exec. simpl. unfold delete_student.
  destruct (filter _ (tbl_students db)) as [|h hit].
  - by apply elem_of_nil in Hhit.
  - simpl. eauto.
Qed.

Lemma delete_cascades_witness :
  (tbl_students (exec (draws "d") (authenticated "ana") (DeleteStudent "s0")
                   school_in_session).1
   = filter (λ r, students.id r ≠ "s0") (tbl_students school_in_session)
   ∧ tbl_attendance (exec (draws "d") (authenticated "ana") (DeleteStudent "s0")
                       school_in_session).1
     = filter (λ a, attendance.student_id a ≠ "s0") (tbl_attendance school_in_session)
   ∧ tbl_grades (exec (draws "d") (authenticated "ana") (DeleteStudent "s0")
                   school_in_session).1
     = filter (λ g, grades.student_id g ≠ "s0") (tbl_grades school_in_session))
  ∧ (tbl_attendance (exec (draws "d") (authenticated "ana") (DeleteSubject "j0")
                       school_in_session).1
     = filter (λ a, attendance.subject_id a ≠ "j0") (tbl_attendance school_in_session)
     ∧ tbl_grades (exec (draws "d") (authenticated "ana") (DeleteSubject "j0")
                     school_in_session).1
       = filter (λ g, grades.subject_id g ≠ "j0") (tbl_grades school_in_session)).
Proof.
  split.
  - assert (H : exec (draws "d") (authenticated "ana") (DeleteStudent "s0")
                  school_in_session
                = ((exec (draws "d") (authenticated "ana") (DeleteStudent "s0")
                      school_in_session).1, Done 1))
      by (vm_compute; reflexivity).
    apply (proj1 delete_cascades) in H as (Hst & Hat & Hgr & _).
    exact (conj Hst (conj Hat Hgr)).
  - assert (H : exec (draws "d") (authenticated "ana") (DeleteSubject "j0")
                  school_in_session
                = ((exec (draws "d") (authenticated "ana") (DeleteSubject "j0")
                      school_in_session).1, Done 1))
      by (vm_compute; reflexivity).
    apply (proj2 delete_cascades) in H as (_ & Hat & Hgr & _).
    exact (conj Hat Hgr).
Defined.

(** ** Profiles *)

Lemma permits_profiles_select db uid row :
  permits db (authenticated uid) T_profiles SELECT row = true.
Proof. reflexivity. Qed.

Lemma permits_profiles_update db uid (r : profiles.row) :
  permits db (authenticated uid) T_profiles UPDATE (profiles_view r)
  = bool_decide (profiles.id r = uid).
Proof.
  simpl. rewrite orb_false_r. unfold profiles_view.
  rewrite (bool_decide_eq_true_2 ("id" = "id")) by done.
  apply bool_decide_ext. split; congruence.
Qed.

Lemma profile_hit_own db uid t (r : profiles.row) :
  profile_hit db (authenticated uid) UPDATE t r = true
  ↔ profiles.id r = t ∧ t = uid.
Proof.
  unfold profile_hit. rewrite permits_profiles_update, permits_profiles_select.
  rewrite andb_true_r, andb_true_iff, !bool_decide_eq_true. split.
  - intros [<- <-]. done.
  - intros [<- <-]. done.
Qed.

(** An UPDATE of one's own profile that leaves the username alone and whose
    texts the column types accept reaches the row and is accepted. *)
Lemma update_own_profile e uid p db :
  (∃ r, r ∈ tbl_profiles db ∧ profiles.id r = uid) →
  profiles.p_username p = None →
  varchar_null 100 (default None (profiles.p_first_name p)) = Ok () →
  varchar_null 100 (default None (profiles.p_last_name p)) = Ok () →
  varchar_null 100 (default None (profiles.p_email p)) = Ok () →
  ∃ db' n, exec e (authenticated uid) (UpdateProfile uid p) db = (db', Done (S n)).
Proof.
  intros (r & Hr & Hid) Hname Hfirst Hlast Hemail.
  unfold exec, run, update_profile.
  rewrite Hname, Hfirst, Hlast, Hemail.
  unfold varchar_null, mbind, result_bind. cbv beta iota zeta.
  destruct (filter _ (tbl_profiles db)) as [|h hit] eqn:Hhit.
  - exfalso. eapply filter_nil_not_elem_of; [exact Hhit| |exact Hr].
    cbv beta. apply Is_true_true. by apply profile_hit_own.
  - match goal with
    | |- context [forallb ?f (h :: hit)] =>
        assert (Hcheck : forallb f (h :: hit) = true)
    end.
    { apply forallb_forall. intros r0 Hin. apply list_elem_of_In in Hin.
      rewrite <- Hhit in Hin. apply list_elem_of_filter in Hin as [Hin _].
      apply Is_true_true, profile_hit_own in Hin as [Hin _].
      rewrite permits_profiles_update. by apply bool_decide_eq_true. }
    rewrite Hcheck. unfold ensure. cbv beta iota. eauto.
Qed.

(** C7: a signed-in caller may read every profile row, and may update a
    profile row exactly when it is their own: an UPDATE aimed at a row
    reaches it only if the row's id is the caller's id, so an UPDATE aimed
    at somebody else's profile changes nothing, while one aimed at the
    caller's own profile goes through. *)
Theorem profiles_policies e db uid :
  (∀ r, permits db (authenticated uid) T_profiles SELECT (profiles_view r) = true)
  ∧ (∀ r, permits db (authenticated uid) T_profiles UPDATE (profiles_view r) = true
          ↔ profiles.id r = uid)
  ∧ (∀ t r, profile_hit db (authenticated uid) UPDATE t r = true
            ↔ profiles.id r = t ∧ t = uid)
  ∧ (∀ t p, t ≠ uid →
       (exec e (authenticated uid) (UpdateProfile t p) db).1 = db
       ∧ ∀ n, (exec e (authenticated uid) (UpdateProfile t p) db).2 = Done n → n = 0%nat)
  ∧ (∀ first last mail,
       (∃ r, r ∈ tbl_profiles db ∧ profiles.id r = uid) →
       varchar_null 100 first = Ok () →
       varchar_null 100 last = Ok () →
       varchar_null 100 mail = Ok () →
       ∃ db' n,
         exec e (authenticated uid)
           (UpdateProfile uid
              {| profiles.p_username := None; profiles.p_first_name := Some first;
                 profiles.p_last_name := Some last; profiles.p_email := Some mail |})
           db = (db', Done (S n))).
Proof.
  split; [intros r; apply permits_profiles_select|].
  split; [intros r; by rewrite permits_profiles_update, bool_decide_eq_true|].
  split; [intros t r; apply profile_hit_own|].
  split.
  - intros t p Ht. apply wrote_nothing_run.
    destruct (run e (authenticated uid) (UpdateProfile t p) db)
      as [[db' n]|err] eqn:Hrun; [left|eauto].
    simpl in Hrun. unfold update_profile in Hrun. unbind Hrun.
    rewrite filter_none in Hrun; [done|].
    intros r. apply not_true_iff_false. rewrite profile_hit_own. tauto.
  - intros first last mail Hown Hfirst Hlast Hmail.
    by apply update_own_profile.
Qed.

Lemma profiles_policies_witness :
  (permits school (authenticated "ana") T_profiles UPDATE
     (profiles_view {| profiles.id := "ana"; profiles.username := "ana";
                       profiles.first_name := None; profiles.last_name := None;
                       profiles.email := Some "ana@school.edu";
                       profiles.created_at := 0 |}) = true)
  ∧ (exec (draws "p") (authenticated "bob")
       (UpdateProfile "ana"
          {| profiles.p_username := Some "bob"; profiles.p_first_name := None;
             profiles.p_last_name := None; profiles.p_email := None |})
       school).1 = school
  ∧ (∃ db' n,
       exec (draws "p") (authenticated "ana")
         (UpdateProfile "ana"
            {| profiles.p_username := None; profiles.p_first_name := Some (Some "Ana");
               profiles.p_last_name := Some None; profiles.p_email := Some None |})
         school = (db', Done (S n))).
Proof.
  destruct (profiles_policies (draws "p") school "ana") as (_ & Hupd & _ & _ & Hown).
  destruct (profiles_policies (draws "p") school "bob") as (_ & _ & _ & Hother & _).
  split; [|split].
  - apply Hupd. reflexivity.
  - apply Hother. discriminate.
  - apply Hown; try reflexivity.
    eexists. split; [vm_compute; apply list_elem_of_here | reflexivity].
Defined.

(** ** NULL scores *)

Lemma generated_average_null_l x : grades.generated_average None x = None.
Proof. reflexivity. Qed.

Lemma generated_average_null_r p : grades.generated_average p None = None.
Proof. by destruct p. Qed.

(** C9: a grade with a NULL partial_score or exam_score passes the range
    checks (they constrain only the scores that are present): when the
    caller may write, the student and subject exist and have no grade yet,
    the insert succeeds and the stored average is NULL. *)
Theorem null_score_accepted e c i db :
  grades.i_partial_score i = None ∨ grades.i_exam_score i = None →
  score_storable (grades.i_partial_score i) = true →
  score_storable (grades.i_exam_score i) = true →
  grades.i_average i = None →
  permits db c T_grades INSERT (λ _, None) = true →
  has_key grades.id (gen_random_uuid e 0) (tbl_grades db) = false →
  has_key grades_key (grades_input_key i) (tbl_grades db) = false →
  has_key students.id (grades.i_student_id i) (tbl_students db) = true →
  has_key subjects.id (grades.i_subject_id i) (tbl_subjects db) = true →
  ∃ g, exec e c (InsertGrade i) db = (set_grades db (tbl_grades db ++ [g]), Done 1)
     ∧ grades.student_id g = grades.i_student_id i
     ∧ grades.subject_id g = grades.i_subject_id i
     ∧ (grades.partial_score g = None ∨ grades.exam_score g = None)
     ∧ grades.average g = None.
Proof.
  intros Hnull Hp Hx Havg Hrls Hpk Hkey Hst Hsu.
  apply coerce_score_storable in Hp as (p & Hp & Hpc).
  apply coerce_score_storable in Hx as (x & Hx & Hxc).
  assert (Ht : T_grades ∈ school_tables)
    by (do 3 apply list_elem_of_further; apply list_elem_of_here).
  eexists. split.
  - unfold exec. simpl. unfold insert_grade, grades_proposed.
    rewrite Havg, Hp, Hx. simpl.
    rewrite (permits_school_row _ _ _ _ _ (λ _, None) Ht), Hrls. simpl.
    unfold grades_checks. simpl. rewrite Hpc, Hxc. simpl.
    rewrite Hpk. simpl. unfold grades_input_key in Hkey.
    match goal with
    | |- context [grades_key ?r] =>
        change (grades_key r) with (grades.i_student_id i, grades.i_subject_id i)
    end.
    rewrite Hkey. simpl.
    unfold grades_foreign_keys. simpl. rewrite Hst, Hsu. simpl. reflexivity.
  - simpl. split; [done|]. split; [done|].
    destruct Hnull as [Hn|Hn]; rewrite Hn in *; simpl in *; simplify_eq.
    + split; [by left | apply generated_average_null_l].
    + split; [by right | apply generated_average_null_r].
Qed.

Lemma null_score_accepted_witness :
  ∃ g, exec (draws "g") (authenticated "ana")
         (InsertGrade (grade_for_luis (Some (num 75 0)) None)) school
       = (set_grades school (tbl_grades school ++ [g]), Done 1)
     ∧ grades.student_id g = "s0"
     ∧ grades.subject_id g = "j0"
     ∧ (grades.partial_score g = None ∨ grades.exam_score g = None)
     ∧ grades.average g = None.
Proof.
  apply (null_score_accepted (draws "g") (authenticated "ana")
           (grade_for_luis (Some (num 75 0)) None) school);
    try (vm_compute; reflexivity).
  right. reflexivity.
Defined.

(** ** The pages *)

Lemma requests_send s w : requests (send s w).1 = requests w ++ [req_statement s].
Proof. reflexivity. Qed.

Lemma refetched_after_send t s w w' :
  requests w' = requests (send s w).1 ++ [req_select t] → refetched t s w w'.
Proof. unfold refetched. rewrite requests_send, <- app_assoc. done. Qed.

(** The Students page reads its table again after a submit or a delete that
    the store accepted. *)
Lemma students_submit_refetches st w :
  let s := match Students.editingStudent st with
           | Some r => UpdateStudent (students.id r) (Students.formData st)
           | None => InsertStudent (Students.formData st)
           end in
  (∃ n, (send s w).2 = Done n) →
  refetched T_students s w (Students.handleSubmit st w).2.
Proof.
  intros s [n Hn]. subst s. apply refetched_after_send.
  unfold Students.handleSubmit.
  destruct (Students.editingStudent st) as [r|]; cbv zeta; rewrite Hn; reflexivity.
Qed.

Lemma students_delete_refetches id st w :
  (∃ n, (send (DeleteStudent id) w).2 = Done n) →
  refetched T_students (DeleteStudent id) w (Students.handleDelete true id st w).2.
Proof.
  intros [n Hn]. apply refetched_after_send.
  unfold Students.handleDelete. cbv zeta. rewrite Hn. reflexivity.
Qed.

(** So does the Subjects page. *)
Lemma subjects_submit_refetches st w :
  let s := match Subjects.editingSubject st with
           | Some r => UpdateSubject (subjects.id r) (Subjects.formData st)
           | None => InsertSubject (Subjects.formData st)
           end in
  (∃ n, (send s w).2 = Done n) →
  refetched T_subjects s w (Subjects.handleSubmit st w).2.
Proof.
  intros s [n Hn]. subst s. apply refetched_after_send.
  unfold Subjects.handleSubmit.
  destruct (Subjects.editingSubject st) as [r|]; cbv zeta; rewrite Hn; reflexivity.
Qed.

Lemma subjects_delete_refetches id st w :
  (∃ n, (send (DeleteSubject id) w).2 = Done n) →
  refetched T_subjects (DeleteSubject id) w (Subjects.handleDelete true id st w).2.
Proof.
  intros [n Hn]. apply refetched_after_send.
  unfold Subjects.handleDelete. cbv zeta. rewrite Hn. reflexivity.
Qed.

(** And the Grades page, after a save that the store accepted. *)
Lemma grades_save_refetches parseFloat toString st w :
  Grades.selectedSubject st ≠ "" →
  (∃ n, (send (UpsertGrades (Grades.records parseFloat st)) w).2 = Done n) →
  refetched T_grades (UpsertGrades (Grades.records parseFloat st)) w
            (Grades.handleSave parseFloat toString st w).2.
Proof.
  intros Hsel [n Hn]. apply refetched_after_send.
  unfold Grades.handleSave. rewrite bool_decide_eq_false_2 by done.
  cbv zeta. rewrite Hn. reflexivity.
Qed.

(** The Attendance page's save sends the upsert and nothing after it. *)
Lemma attendance_save_log st w :
  requests (Attendance.handleSave st w).2
  = if bool_decide (Attendance.selectedSubject st = "") then requests w
    else requests w ++ [req_statement (UpsertAttendance (Attendance.records st))].
Proof.
  unfold Attendance.handleSave. case_bool_decide; [reflexivity|].
  cbv zeta. destruct ((send _ w).2); reflexivity.
Qed.

(** C8 fails on the Attendance page: whatever the page holds, its save sends
    the upsert and no read after it.  With the teacher signed in, Algebra
    and day 100 selected and one student listed, the store accepts the
    record and the page reports success, yet the attendance table is not
    read again. *)
Theorem attendance_save_no_refetch :
  (∀ st w,
     requests (Attendance.handleSave st w).2
     = if bool_decide (Attendance.selectedSubject st = "") then requests w
       else requests w ++ [req_statement (UpsertAttendance (Attendance.records st))])
  ∧ requests (Attendance.handleSave roll_call_page (tab school (authenticated "ana"))).2
    = [req_statement (UpsertAttendance [roll_call 100 (Some false)])]
  ∧ toasts (Attendance.handleSave roll_call_page (tab school (authenticated "ana"))).2
    = [toast_success "Attendance saved successfully"]
  ∧ map attendance_key
        (tbl_attendance
           (store (Attendance.handleSave roll_call_page
                     (tab school (authenticated "ana"))).2))
    = [(100, "s0", "j0")]
  ∧ ¬ refetched T_attendance (UpsertAttendance [roll_call 100 (Some false)])
        (tab school (authenticated "ana"))
        (Attendance.handleSave roll_call_page (tab school (authenticated "ana"))).2.
Proof.
  split; [exact attendance_save_log|].
  assert (Hreq : requests (Attendance.handleSave roll_call_page
                             (tab school (authenticated "ana"))).2
                 = [req_statement (UpsertAttendance [roll_call 100 (Some false)])])
    by (vm_compute; reflexivity).
  split; [exact Hreq|].
  split; [vm_compute; reflexivity|].
  split; [vm_compute; reflexivity|].
  unfold refetched. rewrite Hreq. simpl. discriminate.
Qed.

(** ** Saving attendance *)

Lemma map_fmap {A B} (f : A → B) (l : list A) : map f l = f <$> l.
Proof. reflexivity. Qed.

Lemma NoDup_map_filter {A B} (f : A → B) (P : A → Prop) `{∀ x, Decision (P x)}
    (l : list A) :
  NoDup (map f l) → NoDup (map f (filter P l)).
Proof.
  rewrite !map_fmap. intros Hl. eapply sublist_NoDup; [exact Hl|].
  apply fmap_sublist, sublist_filter.
Qed.

Lemma insert_student_unique e c i db db' n :
  insert_student e c i db = Ok (db', n) → students_unique db → students_unique db'.
Proof.
  unfold insert_student, students_unique. intros H Hu. unbind H.
  inversion H; subst; clear H. simpl. rewrite map_app. simpl.
  apply NoDup_app. split; [done|]. split; [|apply NoDup_singleton].
  intros x Hx ->%list_elem_of_singleton.
  rewrite map_fmap in Hx. apply list_elem_of_fmap in Hx as (row & Hrow & Hin).
  match goal with
  | Hk : negb (has_key students.id _ _) = true |- _ =>
      apply negb_true_iff in Hk; rewrite has_key_false in Hk;
      by apply (Hk row Hin)
  end.
Qed.

Lemma update_student_unique e c t i db db' n :
  update_student e c t i db = Ok (db', n) → students_unique db → students_unique db'.
Proof.
  unfold update_student, students_unique. intros H Hu. unbind H.
  destruct (filter _ (tbl_students db)); [by inversion H; subst|].
  unbind H. inversion H; subst; clear H. simpl.
  rewrite map_map. erewrite map_ext; [exact Hu|].
  intros row. simpl. by destruct (student_hit db c UPDATE t row).
Qed.

Lemma run_students_unique e c s db db' n :
  run e c s db = Ok (db', n) → students_unique db → students_unique db'.
Proof.
  intros H Hinv.
  destruct s; simpl in H;
    eauto using insert_student_unique, update_student_unique.
  all: try (apply insert_user_Ok in H as (p & -> & _); done).
  all: try (apply insert_profile_Ok in H as (u & _ & _ & _ & _ & ->); done).
  all: try (apply upsert_attendance_rows_frame in H as ->; done).
  all: try (apply upsert_grades_rows_frame in H as ->; done).
  all: unfold delete_user, update_profile, delete_profile, insert_user_role,
         delete_user_role, delete_student, insert_subject, update_subject,
         delete_subject, insert_attendance, update_attendance, delete_attendance,
         insert_grade, update_grade, delete_grade, students_unique in *.
  all: split_run H; inversion H; subst; simpl; auto using NoDup_map_filter.
Qed.

Lemma reachable_students_unique db : reachable db → students_unique db.
Proof.
  induction 1 as [|e c s db Hdb IH]; [constructor|].
  unfold exec. destruct (run e c s db) as [[db' n]|err] eqn:Hrun; simpl; [|done].
  eauto using run_students_unique.
Qed.

(** What the Attendance page lists after loading the students of a store the
    application can be in: no student twice. *)
Lemma attendance_fetch_unique st w :
  reachable (store w) →
  NoDup (map students.id (Attendance.students (Attendance.fetchStudents st w).1)).
Proof.
  intros Hw. apply reachable_students_unique in Hw. unfold students_unique in Hw.
  unfold Attendance.fetchStudents, select. simpl.
  rewrite map_fmap, merge_sort_Permutation, <- map_fmap.
  by apply NoDup_map_filter.
Qed.

Lemma filter_map_none {A B K} `{EqDecision K} (f : A → B) (ka : A → K) (kb : B → K)
    (k : K) (l : list A) :
  (∀ a, kb (f a) = ka a) → k ∉ map ka l → filter (λ b, kb b = k) (map f l) = [].
Proof.
  intros Hk. induction l as [|a l IH]; simpl; intros Hno; [done|].
  apply not_elem_of_cons in Hno as [Hne Hno].
  rewrite filter_cons_False by (rewrite Hk; congruence). auto.
Qed.

Lemma filter_map_unique {A B K} `{EqDecision K} (f : A → B) (ka : A → K) (kb : B → K)
    (l : list A) (x : A) :
  (∀ a, kb (f a) = ka a) → NoDup (map ka l) → x ∈ l →
  filter (λ b, kb b = ka x) (map f l) = [f x].
Proof.
  intros Hk. induction l as [|a l IH]; simpl; intros Hl Hx.
  - by apply elem_of_nil in Hx.
  - apply NoDup_cons in Hl as [Ha Hl].
    apply elem_of_cons in Hx as [->|Hx].
    + rewrite filter_cons_True by apply Hk.
      by rewrite (filter_map_none f ka kb).
    + rewrite filter_cons_False; [by apply IH|].
      rewrite Hk. intros Heq. apply Ha. rewrite Heq, map_fmap.
      by apply list_elem_of_fmap_2.
Qed.

Lemma upsert_attendance_row_writes e k c seen i db db' :
  upsert_attendance_row e k c seen i db = Ok db' →
  attendance_input_key i ∉ seen ∨ has_key attendance_key (attendance_input_key i)
                                     (tbl_attendance db) = false.
Proof.
  unfold upsert_attendance_row. intros H. unbind H.
  change (attendance_key (attendance_proposed e k i)) with (attendance_input_key i) in *.
  destruct (has_key attendance_key _ (tbl_attendance db)); [|by right].
  unbind H. left.
  match goal with
  | Hk : negb (bool_decide _) = true |- _ =>
      apply negb_true_iff, bool_decide_eq_false in Hk; exact Hk
  end.
Qed.

Lemma upsert_attendance_row_stores e k c seen i db db' :
  upsert_attendance_row e k c seen i db = Ok db' →
  attendance_row_for db' (attendance_input_key i) (attendance.i_present i).
Proof.
  unfold upsert_attendance_row. intros H. unbind H.
  change (attendance_key (attendance_proposed e k i)) with (attendance_input_key i) in *.
  destruct (has_key attendance_key _ (tbl_attendance db)) eqn:Hkey.
  - unbind H. inversion H; subst; clear H. simpl.
    apply has_key_true in Hkey as (old & Hold & Hk).
    eexists. split; [|split].
    + rewrite map_fmap. apply list_elem_of_fmap_2. exact Hold.
    + rewrite bool_decide_eq_true_2 by done. reflexivity.
    + rewrite bool_decide_eq_true_2 by done. simpl. by intros v ->.
  - unfold attendance_foreign_keys in H. unbind H.
    inversion H; subst; clear H. simpl.
    exists (attendance_proposed e k i). split; [|split].
    + apply elem_of_app. right. apply list_elem_of_here.
    + reflexivity.
    + simpl. by intros v ->.
Qed.

Lemma upsert_attendance_row_keeps e k c seen i db db' key b :
  upsert_attendance_row e k c seen i db = Ok db' →
  key ≠ attendance_input_key i →
  attendance_row_for db key b → attendance_row_for db' key b.
Proof.
  unfold upsert_attendance_row. intros H Hne (a & Ha & Hk & Hb). unbind H.
  change (attendance_key (attendance_proposed e k i)) with (attendance_input_key i) in *.
  destruct (has_key attendance_key _ (tbl_attendance db)).
  - unbind H. inversion H; subst; clear H. simpl.
    exists a. split; [|done].
    rewrite map_fmap. apply list_elem_of_fmap. exists a. split; [|done].
    by rewrite bool_decide_eq_false_2 by congruence.
  - unfold attendance_foreign_keys in H. unbind H.
    inversion H; subst; clear H. simpl.
    exists a. split; [|done]. apply elem_of_app. by left.
Qed.

Lemma upsert_attendance_rows_keeps e c rs : ∀ k seen db db' n key b,
  upsert_attendance_rows e c k seen rs db = Ok (db', n) →
  key ∈ seen →
  attendance_row_for db key b → attendance_row_for db' key b.
Proof.
  induction rs as [|i rs IH]; simpl; intros k seen db db' n key b H Hseen Hrow.
  - by inversion H; subst.
  - unbind H. destruct a0 as [db2 m]. inversion H; subst; clear H.
    assert (Hne : key ≠ attendance_input_key i).
    { intros ->. apply upsert_attendance_row_writes in Hstep as [Hno|Hno].
      - by apply Hno.
      - destruct Hrow as (row & Hrow & Hk & _).
        rewrite has_key_false in Hno. by apply (Hno row Hrow). }
    eapply IH; [exact Hstep0 | by apply list_elem_of_further |].
    eauto using upsert_attendance_row_keeps.
Qed.

(** Every record of an accepted attendance upsert is in the table afterwards. *)
Lemma upsert_attendance_rows_stores e c rs : ∀ k seen db db' n i,
  upsert_attendance_rows e c k seen rs db = Ok (db', n) →
  i ∈ rs →
  attendance_row_for db' (attendance_input_key i) (attendance.i_present i).
Proof.
  induction rs as [|j rs IH]; simpl; intros k seen db db' n i H Hi.
  - by apply elem_of_nil in Hi.
  - unbind H. destruct a0 as [db2 m]. inversion H; subst; clear H.
    apply elem_of_cons in Hi as [->|Hi]; [|eauto].
    eapply upsert_attendance_rows_keeps; [exact Hstep0 | apply list_elem_of_here |].
    eauto using upsert_attendance_row_stores.
Qed.

(** After a save that the store accepted, the attendance table has a row
    for every listed student on the selected date and subject, marked as on
    the page, absent when unmarked. *)
Lemma attendance_save_stored st w n s :
  Attendance.selectedSubject st ≠ "" →
  (send (UpsertAttendance (Attendance.records st)) w).2 = Done n →
  s ∈ Attendance.students st →
  ∃ a, a ∈ tbl_attendance (store (Attendance.handleSave st w).2)
     ∧ attendance.date a = Attendance.selectedDate st
     ∧ attendance.student_id a = students.id s
     ∧ attendance.subject_id a = Attendance.selectedSubject st
     ∧ attendance.present a
       = default false (Attendance.attendance st !! students.id s).
Proof.
  intros Hsel Hdone Hs. unfold Attendance.handleSave.
  rewrite bool_decide_eq_false_2 by done. cbv zeta. rewrite Hdone. simpl.
  unfold send in Hdone. simpl in Hdone. unfold exec in *.
  destruct (run _ _ _ (store w)) as [[db' m]|err] eqn:Hrun; [|discriminate].
  simpl in *. unfold upsert_attendance in Hrun.
  eapply upsert_attendance_rows_stores in Hrun as (a & Ha & Hk & Hb).
  2: { unfold Attendance.records. rewrite map_fmap.
       apply list_elem_of_fmap_2. exact Hs. }
  simpl in *. unfold attendance_key, attendance_input_key in Hk. simpl in Hk.
  injection Hk as Hd Hst Hsu. exists a. split; [done|].
  do 3 (split; [done|]). by apply Hb.
Qed.

(** C10: with a subject selected, saving attendance upserts one record for
    each listed student, carrying the selected date, the student, the
    selected subject, and the student's mark, false when the student was not
    marked; no record is for anyone else.  When the store accepts the
    upsert, its attendance table then holds such a row for every listed
    student. *)
Theorem attendance_save_records st w :
  Attendance.selectedSubject st ≠ "" →
  NoDup (map students.id (Attendance.students st)) →
  ∃ rs,
    requests (Attendance.handleSave st w).2
      = requests w ++ [req_statement (UpsertAttendance rs)]
    ∧ length rs = length (Attendance.students st)
    ∧ (∀ s, s ∈ Attendance.students st →
         filter (λ r, attendance.i_student_id r = students.id s) rs
         = [{| attendance.i_date := Attendance.selectedDate st;
               attendance.i_student_id := students.id s;
               attendance.i_subject_id := Attendance.selectedSubject st;
               attendance.i_present :=
                 Some (default false (Attendance.attendance st !! students.id s)) |}])
    ∧ (∀ r, r ∈ rs →
         ∃ s, s ∈ Attendance.students st
            ∧ attendance_input_key r
              = (Attendance.selectedDate st, students.id s, Attendance.selectedSubject st))
    ∧ (∀ s, s ∈ Attendance.students st →
         Attendance.attendance st !! students.id s = None →
         ∃ r, r ∈ rs
            ∧ attendance.i_student_id r = students.id s
            ∧ attendance.i_present r = Some false)
    ∧ (∀ n s, (send (UpsertAttendance rs) w).2 = Done n →
         s ∈ Attendance.students st →
         ∃ a, a ∈ tbl_attendance (store (Attendance.handleSave st w).2)
            ∧ attendance.date a = Attendance.selectedDate st
            ∧ attendance.student_id a = students.id s
            ∧ attendance.subject_id a = Attendance.selectedSubject st
            ∧ attendance.present a
              = default false (Attendance.attendance st !! students.id s)).
Proof.
  intros Hsel Hnodup. exists (Attendance.records st).
  split; [|split; [|split; [|split; [|split]]]].
  - rewrite attendance_save_log. by rewrite bool_decide_eq_false_2.
  - unfold Attendance.records. by rewrite length_map.
  - intros s Hs. unfold Attendance.records.
    by rewrite (filter_map_unique _ students.id attendance.i_student_id).
  - intros r Hr. unfold Attendance.records in Hr.
    rewrite map_fmap in Hr. apply list_elem_of_fmap in Hr as (s & -> & Hs).
    exists s. done.
  - intros s Hs Hnone. eexists. split; [|split].
    + unfold Attendance.records. rewrite map_fmap.
      apply list_elem_of_fmap_2. exact Hs.
    + done.
    + simpl. by rewrite Hnone.
  - intros n s Hdone Hs. by eapply attendance_save_stored.
Qed.

Lemma attendance_save_records_witness :
  ∃ rs,
    requests (Attendance.handleSave roll_call_page (tab school (authenticated "ana"))).2
      = [req_statement (UpsertAttendance rs)]
    ∧ rs = [roll_call 100 (Some false)].
Proof.
  destruct (attendance_save_records roll_call_page (tab school (authenticated "ana")))
    as (rs & Hreq & Hlen & Hone & _).
  - discriminate.
  - vm_compute. apply NoDup_singleton.
  - exists rs. split; [exact Hreq|].
    assert (Hs : {| students.id := "s0"; students.first_name := "Luis";
                    students.last_name := "Mora"; students.id_number := "A-001";
                    students.email := "luis@school.edu"; students.course := "1A";
                    students.created_at := 0; students.updated_at := 0 |}
                 ∈ Attendance.students roll_call_page)
      by (vm_compute; apply list_elem_of_here).
    specialize (Hone _ Hs).
    destruct rs as [|r [|r' rs]]; [discriminate Hlen| |discriminate Hlen].
    simpl in Hone. rewrite filter_cons in Hone.
    destruct (decide (attendance.i_student_id r = "s0")); [|discriminate].
    rewrite filter_nil in Hone. exact Hone.
Defined.

(** * Further properties *)

(** ** Keys *)

Lemma NoDup_map_snoc {A K} `{EqDecision K} (key : A → K) (l : list A) (r : A) :
  NoDup (map key l) → has_key key (key r) l = false → NoDup (map key (l ++ [r])).
Proof.
  intros Hl Hk. rewrite map_app. simpl.
  apply NoDup_app. split; [done|]. split; [|apply NoDup_singleton].
  intros x Hx ->%list_elem_of_singleton.
  rewrite map_fmap in Hx. apply list_elem_of_fmap in Hx as (row & Hrow & Hin).
  rewrite has_key_false in Hk. by apply (Hk row Hin).
Qed.

Lemma NoDup_map_same {A K} (key : A → K) (f : A → A) (l : list A) :
  (∀ r, key (f r) = key r) → NoDup (map key l) → NoDup (map key (map f l)).
Proof.
  intros Hf Hl. rewrite map_map. erewrite map_ext; [exact Hl|]. intros r. apply Hf.
Qed.

Lemma filter_nil_none {A} (f : A → bool) (l : list A) (r : A) :
  filter (λ r, f r) l = [] → r ∈ l → f r = false.
Proof.
  intros Hnil Hr. destruct (f r) eqn:Hf; [|done].
  assert (Hin : r ∈ filter (λ r, f r) l).
  { apply list_elem_of_filter. split; [by rewrite Hf|done]. }
  rewrite Hnil in Hin. by apply elem_of_nil in Hin.
Qed.

(** An UPDATE that sets a unique column to [k]: at most one row is hit and
    no other row has [k]. *)
Lemma NoDup_map_update {A K} `{EqDecision K} (key : A → K) (hit : A → bool)
    (upd : A → A) (k : K) (l : list A) :
  (∀ r, key (upd r) = k) →
  NoDup (map key l) →
  (length (filter (λ r, hit r) l) ≤ 1)%nat →
  has_key key k (filter (λ r, ¬ hit r) l) = false →
  NoDup (map key (map (λ r, if hit r then upd r else r) l)).
Proof.
  intros Hupd. induction l as [|a l IH]; simpl; intros Hl Hlen Hk; [constructor|].
  apply NoDup_cons in Hl as [Ha Hl].
  destruct (hit a) eqn:Hhit.
  - rewrite filter_cons_True in Hlen by (by rewrite Hhit).
    rewrite filter_cons_False in Hk by (rewrite Hhit; intros Hn; by apply Hn).
    simpl in Hlen.
    assert (Hnil : filter (λ r, hit r) l = []).
    { destruct (filter (λ r, hit r) l); [done|]. simpl in Hlen. lia. }
    assert (Hid : map (λ r, if hit r then upd r else r) l = l).
    { rewrite <- (map_id l) at 2. apply map_ext_in. intros r Hr.
      rewrite (filter_nil_none hit l r Hnil); [done|]. by apply list_elem_of_In. }
    rewrite Hid. apply NoDup_cons. split; [|done].
    rewrite Hupd. rewrite map_fmap. intros (r & Hr & Hin)%list_elem_of_fmap.
    rewrite has_key_false in Hk. apply (Hk r); [|done].
    apply list_elem_of_filter. split; [|done].
    rewrite (filter_nil_none hit l r Hnil Hin). by intros ?.
  - rewrite filter_cons_False in Hlen by (rewrite Hhit; exact id).
    rewrite filter_cons_True in Hk by (rewrite Hhit; exact id).
    simpl in Hk. apply orb_false_iff in Hk as [Hak Hk].
    apply bool_decide_eq_false in Hak.
    apply NoDup_cons. split; [|by apply IH].
    rewrite map_map, map_fmap. intros (r & Hr & Hin)%list_elem_of_fmap.
    destruct (hit r).
    + rewrite Hupd in Hr. done.
    + apply Ha. rewrite Hr, map_fmap. by apply list_elem_of_fmap_2.
Qed.

Ltac case_if :=
  match goal with |- context [if ?b then _ else _] => destruct b eqn:? end.

Lemma upsert_attendance_row_keys e k c seen i db db' :
  upsert_attendance_row e k c seen i db = Ok db' →
  (NoDup (map attendance.id (tbl_attendance db)) →
   NoDup (map attendance.id (tbl_attendance db')))
  ∧ (NoDup (map attendance_key (tbl_attendance db)) →
     NoDup (map attendance_key (tbl_attendance db'))).
Proof.
  unfold upsert_attendance_row. intros H. unbind H.
  change (attendance_key (attendance_proposed e k i)) with (attendance_input_key i) in *.
  destruct (has_key attendance_key _ (tbl_attendance db)) eqn:Hkey.
  - unbind H. inversion H; subst; clear H. simpl. split; intros Hu.
    + apply NoDup_map_same; [|done]. intros r. by case_if.
    + apply NoDup_map_same; [|done]. intros r.
      case_if; [|done].
      match goal with Hb : bool_decide _ = true |- _ =>
        apply bool_decide_eq_true in Hb; rename Hb into Hb' end. by rewrite Hb'.
  - unfold attendance_foreign_keys in H. unbind H.
    inversion H; subst; clear H. simpl. split; intros Hu.
    + apply NoDup_map_snoc; [done|]. by apply negb_true_iff.
    + apply NoDup_map_snoc; [done|]. exact Hkey.
Qed.

Lemma upsert_attendance_rows_keys e c rs : ∀ k seen db db' n,
  upsert_attendance_rows e c k seen rs db = Ok (db', n) →
  (NoDup (map attendance.id (tbl_attendance db)) →
   NoDup (map attendance.id (tbl_attendance db')))
  ∧ (NoDup (map attendance_key (tbl_attendance db)) →
     NoDup (map attendance_key (tbl_attendance db'))).
Proof.
  induction rs as [|i rs IH]; simpl; intros k seen db db' n H.
  - by inversion H; subst.
  - unbind H. destruct a0 as [db2 m]. inversion H; subst; clear H.
    apply upsert_attendance_row_keys in Hstep as [H1 H2].
    apply IH in Hstep0 as [H3 H4]. split; auto.
Qed.

Lemma upsert_grades_row_keys e k c seen i db db' :
  upsert_grades_row e k c seen i db = Ok db' →
  (NoDup (map grades.id (tbl_grades db)) → NoDup (map grades.id (tbl_grades db')))
  ∧ (NoDup (map grades_key (tbl_grades db)) → NoDup (map grades_key (tbl_grades db'))).
Proof.
  unfold upsert_grades_row. intros H. unbind H.
  destruct (has_key grades_key _ (tbl_grades db)) eqn:Hkey.
  - unbind H. inversion H; subst; clear H. simpl. split; intros Hu.
    + apply NoDup_map_same; [|done]. intros r. by case_if.
    + apply NoDup_map_same; [|done]. intros r.
      case_if; [|done].
      match goal with Hb : bool_decide _ = true |- _ =>
        apply bool_decide_eq_true in Hb; rename Hb into Hb' end. rewrite Hb'.
      unfold grades_proposed in Hstep. unbind Hstep. by inversion Hstep.
  - unfold grades_foreign_keys in H. unbind H.
    inversion H; subst; clear H. simpl. split; intros Hu.
    + apply NoDup_map_snoc; [done|]. by apply negb_true_iff.
    + apply NoDup_map_snoc; [done|]. exact Hkey.
Qed.

Lemma upsert_grades_rows_keys e c rs : ∀ k seen db db' n,
  upsert_grades_rows e c k seen rs db = Ok (db', n) →
  (NoDup (map grades.id (tbl_grades db)) → NoDup (map grades.id (tbl_grades db')))
  ∧ (NoDup (map grades_key (tbl_grades db)) → NoDup (map grades_key (tbl_grades db'))).
Proof.
  induction rs as [|i rs IH]; simpl; intros k seen db db' n H.
  - by inversion H; subst.
  - unbind H. destruct a0 as [db2 m]. inversion H; subst; clear H.
    apply upsert_grades_row_keys in Hstep as [H1 H2].
    apply IH in Hstep0 as [H3 H4]. split; auto.
Qed.

(** What a key constraint needs of each kind of write: a row added after its
    key was found free, rows removed, rows rewritten with their key kept. *)
Ltac keys_kept :=
  match goal with
  | |- NoDup (map _ (filter _ _)) => by apply NoDup_map_filter
  | Hk : negb (has_key ?key _ ?l) = true |- NoDup (map ?key (?l ++ [_])) =>
      apply NoDup_map_snoc; [done | by apply negb_true_iff in Hk]
  | |- NoDup (map _ (map _ _)) =>
      apply NoDup_map_same; [|done];
      let r := fresh "r" in intros r; simpl;
      match goal with |- context [if ?b then _ else _] => by destruct b end
  | _ => assumption
  end.

Lemma run_primary_keys e c s db db' n :
  run e c s db = Ok (db', n) → primary_keys db → primary_keys db'.
Proof.
  unfold primary_keys. intros H (Hp & Hr & Hs & Hj & Ha & Hg).
  destruct s; simpl in H.
  all: try (apply insert_user_Ok in H as (p & -> & Hid & _ & Hfree & _); simpl;
            repeat split; try assumption;
            apply NoDup_map_snoc; [done | by rewrite Hid]).
  all: try (apply upsert_attendance_rows_frame in H as Hf;
            apply upsert_attendance_rows_keys in H as [Hid _];
            rewrite Hf; simpl; auto 10; fail).
  all: try (apply upsert_grades_rows_frame in H as Hf;
            apply upsert_grades_rows_keys in H as [Hid _];
            rewrite Hf; simpl; auto 10; fail).
  all: unfold delete_user, insert_profile,
         update_profile, delete_profile, insert_user_role,
         delete_user_role, insert_student, update_student, delete_student,
         insert_subject, update_subject, delete_subject, insert_attendance,
         attendance_foreign_keys, update_attendance, delete_attendance,
         insert_grade, grades_foreign_keys, update_grade, delete_grade in H.
  all: split_run H; inversion H; subst; clear H; simpl.
  all: repeat split; try keys_kept.
Qed.

Lemma insert_user_username e u db db' n :
  insert_user e u db = Ok (db', n) →
  ∃ p, db' = set_profiles (set_auth_users db (auth_users db ++ [u]))
               (tbl_profiles db ++ [p])
    ∧ has_key profiles.username (profiles.username p) (tbl_profiles db) = false.
Proof.
  unfold insert_user, handle_new_user. intros H. unbind H.
  destruct a0 as [db1 m]. inversion H; subst; clear H.
  apply insert_profile_Ok in Hstep0 as (name & Hname & _ & Hfree & _ & ->).
  simpl in *. eexists. split; [reflexivity|]. exact Hfree.
Qed.

Lemma leb_le_1 (k : nat) : (k <=? 1)%nat = true → (k ≤ 1)%nat.
Proof. apply Nat.leb_le. Qed.

(** A unique column that an UPDATE sets: one row at most was hit and the new
    value was found free among the others. *)
Ltac unique_kept :=
  match goal with
  | Hk : (length (filter ?hit ?l) <=? 1)%nat && negb (has_key ?key ?k _) = true
    |- NoDup (map ?key (map _ ?l)) =>
      apply andb_true_iff in Hk as [Hlen Hk];
      apply leb_le_1 in Hlen; apply negb_true_iff in Hk;
      apply (NoDup_map_update key _ _ k); [done | done | exact Hlen | exact Hk]
  | _ => keys_kept
  end.

Lemma run_unique_constraints e c s db db' n :
  run e c s db = Ok (db', n) → unique_constraints db → unique_constraints db'.
Proof.
  unfold unique_constraints. intros H (Hp & Hr & Hs & Ha & Hg).
  destruct s; simpl in H.
  all: try (apply insert_user_username in H as (p & -> & Hfree); simpl;
            repeat split; try assumption;
            by apply NoDup_map_snoc).
  all: try (apply upsert_attendance_rows_frame in H as Hf;
            apply upsert_attendance_rows_keys in H as [_ Hkey];
            rewrite Hf; simpl; auto 10; fail).
  all: try (apply upsert_grades_rows_frame in H as Hf;
            apply upsert_grades_rows_keys in H as [_ Hkey];
            rewrite Hf; simpl; auto 10; fail).
  all: unfold delete_user, insert_profile,
         update_profile, delete_profile, insert_user_role,
         delete_user_role, insert_student, update_student, delete_student,
         insert_subject, update_subject, delete_subject, insert_attendance,
         attendance_foreign_keys, update_attendance, delete_attendance,
         insert_grade, grades_foreign_keys, update_grade, delete_grade in H.
  all: split_run H; inversion H; subst; clear H; simpl.
  all: repeat match goal with
       | Heq : filter _ _ = ?r :: ?l, Hk : context [length (?r :: ?l)] |- _ =>
           rewrite <- Heq in Hk
       end.
  all: repeat split; try unique_kept.
  (* UpdateProfile *)
  destruct (profiles.p_username p) as [u|]; simpl in Hstep4 |- *; [unique_kept|].
  apply NoDup_map_same; [|done]. intros row. simpl. by case_if.
Qed.

(** ** Foreign keys *)

Lemma has_key_app {A K} `{EqDecision K} (key : A → K) (k : K) (l l' : list A) :
  has_key key k (l ++ l') = has_key key k l || has_key key k l'.
Proof. apply existsb_app. Qed.

Lemma refers_parent_app {A B} (fk : A → uuid) (pk : B → uuid) c p p' :
  refers_to fk pk c p → refers_to fk pk c (p ++ p').
Proof.
  unfold refers_to. intros Hc. eapply Forall_impl; [exact Hc|].
  intros r Hr. simpl in *. by rewrite has_key_app, Hr.
Qed.

Lemma refers_parent_map {A B} (fk : A → uuid) (pk : B → uuid) (f : B → B) c p :
  (∀ r, pk (f r) = pk r) → refers_to fk pk c p → refers_to fk pk c (map f p).
Proof.
  intros Hf. unfold refers_to. intros Hc. eapply Forall_impl; [exact Hc|].
  intros r. simpl. rewrite !has_key_true. intros (b & Hb & Hk). exists (f b). split; [|by rewrite Hf].
  rewrite map_fmap. by apply list_elem_of_fmap_2.
Qed.

Lemma refers_child_snoc {A B} (fk : A → uuid) (pk : B → uuid) c p r :
  refers_to fk pk c p → has_key pk (fk r) p = true → refers_to fk pk (c ++ [r]) p.
Proof.
  unfold refers_to. intros Hc Hr. apply Forall_app. split; [done|].
  by apply Forall_singleton.
Qed.

Lemma refers_child_filter {A B} (fk : A → uuid) (pk : B → uuid)
    (Q : A → Prop) `{∀ x, Decision (Q x)} c p :
  refers_to fk pk c p → refers_to fk pk (filter Q c) p.
Proof. apply Forall_filter_keep. Qed.

Lemma refers_child_map {A B} (fk : A → uuid) (pk : B → uuid) (f : A → A) c p :
  (∀ r, fk (f r) = fk r) → refers_to fk pk c p → refers_to fk pk (map f c) p.
Proof.
  intros Hf. unfold refers_to. rewrite map_fmap, Forall_fmap.
  intros Hc. eapply Forall_impl; [exact Hc|].
  intros r Hr. simpl in *. by rewrite Hf.
Qed.

(** ON DELETE CASCADE: the parent rows with key [t] go, and with them the
    child rows that name [t]. *)
Lemma refers_cascade {A B} (fk : A → uuid) (pk : B → uuid) (t : uuid) c p :
  refers_to fk pk c p →
  refers_to fk pk (filter (λ r, fk r ≠ t) c) (filter (λ r, pk r ≠ t) p).
Proof.
  unfold refers_to. rewrite !Forall_forall. intros Hc r Hr.
  apply list_elem_of_filter in Hr as [Hne Hr].
  specialize (Hc r Hr). rewrite has_key_true in *.
  destruct Hc as (b & Hb & Hk). exists b. split; [|done].
  apply list_elem_of_filter. split; [congruence|done].
Qed.

Lemma delete_student_cases c t db db' n :
  delete_student c t db = Ok (db', n) →
  db' = db
  ∨ db' = {| auth_users := auth_users db;
             tbl_profiles := tbl_profiles db;
             tbl_user_roles := tbl_user_roles db;
             tbl_students := filter (λ r, students.id r ≠ t) (tbl_students db);
             tbl_subjects := tbl_subjects db;
             tbl_attendance :=
               filter (λ a, attendance.student_id a ≠ t) (tbl_attendance db);
             tbl_grades := filter (λ g, grades.student_id g ≠ t) (tbl_grades db) |}.
Proof.
  destruct n as [|n]; [left|right; by eapply delete_student_Ok].
  unfold delete_student in H. destruct (filter _ (tbl_students db)); by inversion H.
Qed.

Lemma delete_subject_cases c t db db' n :
  delete_subject c t db = Ok (db', n) →
  db' = db
  ∨ db' = {| auth_users := auth_users db;
             tbl_profiles := tbl_profiles db;
             tbl_user_roles := tbl_user_roles db;
             tbl_students := tbl_students db;
             tbl_subjects := filter (λ r, subjects.id r ≠ t) (tbl_subjects db);
             tbl_attendance :=
               filter (λ a, attendance.subject_id a ≠ t) (tbl_attendance db);
             tbl_grades := filter (λ g, grades.subject_id g ≠ t) (tbl_grades db) |}.
Proof.
  destruct n as [|n]; [left|right; by eapply delete_subject_Ok].
  unfold delete_subject in H. destruct (filter _ (tbl_subjects db)); by inversion H.
Qed.

Lemma attendance_foreign_keys_Ok r db u :
  attendance_foreign_keys r db = Ok u →
  has_key students.id (attendance.student_id r) (tbl_students db) = true
  ∧ has_key subjects.id (attendance.subject_id r) (tbl_subjects db) = true.
Proof. unfold attendance_foreign_keys. intros H. unbind H. apply ensure_Ok in H. done. Qed.

Lemma grades_foreign_keys_Ok r db u :
  grades_foreign_keys r db = Ok u →
  has_key students.id (grades.student_id r) (tbl_students db) = true
  ∧ has_key subjects.id (grades.subject_id r) (tbl_subjects db) = true.
Proof. unfold grades_foreign_keys. intros H. unbind H. apply ensure_Ok in H. done. Qed.

(** The foreign-key checks that a successful run went through. *)
Ltac foreign_keys_checked :=
  repeat match goal with
         | H : attendance_foreign_keys _ _ = Ok _ |- _ =>
             apply attendance_foreign_keys_Ok in H as [? ?]
         | H : grades_foreign_keys _ _ = Ok _ |- _ =>
             apply grades_foreign_keys_Ok in H as [? ?]
         end.

Lemma upsert_attendance_row_refers e k c seen i db db' :
  upsert_attendance_row e k c seen i db = Ok db' →
  refers_to attendance.student_id students.id (tbl_attendance db) (tbl_students db) →
  refers_to attendance.subject_id subjects.id (tbl_attendance db) (tbl_subjects db) →
  refers_to attendance.student_id students.id (tbl_attendance db') (tbl_students db')
  ∧ refers_to attendance.subject_id subjects.id (tbl_attendance db') (tbl_subjects db').
Proof.
  unfold upsert_attendance_row. intros H Hs Hj. unbind H.
  change (attendance_key (attendance_proposed e k i)) with (attendance_input_key i) in *.
  destruct (has_key attendance_key _ (tbl_attendance db)) eqn:Hkey.
  - unbind H. inversion H; subst; clear H. simpl.
    split; (apply refers_child_map; [|done]); intros r; case_if; try done;
      match goal with Hb : bool_decide _ = true |- _ =>
        apply bool_decide_eq_true in Hb; by injection Hb end.
  - unbind H. foreign_keys_checked. inversion H; subst; clear H. simpl.
    split; by apply refers_child_snoc.
Qed.

Lemma upsert_attendance_rows_refers e c rs : ∀ k seen db db' n,
  upsert_attendance_rows e c k seen rs db = Ok (db', n) →
  refers_to attendance.student_id students.id (tbl_attendance db) (tbl_students db) →
  refers_to attendance.subject_id subjects.id (tbl_attendance db) (tbl_subjects db) →
  refers_to attendance.student_id students.id (tbl_attendance db') (tbl_students db')
  ∧ refers_to attendance.subject_id subjects.id (tbl_attendance db') (tbl_subjects db').
Proof.
  induction rs as [|i rs IH]; simpl; intros k seen db db' n H Hs Hj.
  - by inversion H; subst.
  - unbind H. destruct a0 as [db2 m]. inversion H; subst; clear H.
    eapply upsert_attendance_row_refers in Hstep as [H1 H2]; [|done..].
    eapply IH; eauto.
Qed.

Lemma upsert_grades_row_refers e k c seen i db db' :
  upsert_grades_row e k c seen i db = Ok db' →
  refers_to grades.student_id students.id (tbl_grades db) (tbl_students db) →
  refers_to grades.subject_id subjects.id (tbl_grades db) (tbl_subjects db) →
  refers_to grades.student_id students.id (tbl_grades db') (tbl_students db')
  ∧ refers_to grades.subject_id subjects.id (tbl_grades db') (tbl_subjects db').
Proof.
  unfold upsert_grades_row. intros H Hs Hj. unbind H.
  assert (Hk : grades_key a = grades_input_key i).
  { unfold grades_proposed in Hstep. unbind Hstep. by inversion Hstep. }
  rewrite Hk in H.
  destruct (has_key grades_key _ (tbl_grades db)) eqn:Hkey.
  - unbind H. inversion H; subst; clear H. simpl.
    split; (apply refers_child_map; [|done]); intros r; case_if; try done;
      match goal with Hb : bool_decide _ = true |- _ =>
        apply bool_decide_eq_true in Hb; by injection Hb end.
  - unbind H. foreign_keys_checked. inversion H; subst; clear H. simpl.
    split; by apply refers_child_snoc.
Qed.

Lemma upsert_grades_rows_refers e c rs : ∀ k seen db db' n,
  upsert_grades_rows e c k seen rs db = Ok (db', n) →
  refers_to grades.student_id students.id (tbl_grades db) (tbl_students db) →
  refers_to grades.subject_id subjects.id (tbl_grades db) (tbl_subjects db) →
  refers_to grades.student_id students.id (tbl_grades db') (tbl_students db')
  ∧ refers_to grades.subject_id subjects.id (tbl_grades db') (tbl_subjects db').
Proof.
  induction rs as [|i rs IH]; simpl; intros k seen db db' n H Hs Hj.
  - by inversion H; subst.
  - unbind H. destruct a0 as [db2 m]. inversion H; subst; clear H.
    eapply upsert_grades_row_refers in Hstep as [H1 H2]; [|done..].
    eapply IH; eauto.
Qed.

(** What a reference needs of each kind of write. *)
Ltac refers_kept :=
  match goal with
  | |- refers_to _ _ (filter _ _) (filter _ _) => by apply refers_cascade
  | |- refers_to _ _ (filter _ _) _ => by apply refers_child_filter
  | |- refers_to _ _ (_ ++ [_]) (_ ++ [_]) =>
      apply refers_child_snoc;
      [by apply refers_parent_app
      | rewrite has_key_app; simpl; rewrite bool_decide_eq_true_2 by done;
        by rewrite orb_true_r]
  | |- refers_to _ _ (_ ++ [_]) _ => by apply refers_child_snoc
  | |- refers_to _ _ _ (_ ++ [_]) => by apply refers_parent_app
  | |- refers_to _ _ (map _ _) _ =>
      apply refers_child_map; [|done];
      let r := fresh "r" in intros r; simpl; by case_if
  | |- refers_to _ _ _ (map _ _) =>
      apply refers_parent_map; [|done];
      let r := fresh "r" in intros r; simpl; by case_if
  | _ => assumption
  end.

Lemma run_foreign_keys e c s db db' n :
  run e c s db = Ok (db', n) → foreign_keys db → foreign_keys db'.
Proof.
  unfold foreign_keys. intros H (Hp & Hr & Has & Haj & Hgs & Hgj).
  destruct s; simpl in H.
  all: try (apply insert_user_Ok in H as (p & -> & Hid & _); simpl;
            repeat split; try refers_kept; fail).
  all: try (apply delete_student_cases in H as [->| ->]; simpl;
            repeat split; try refers_kept; fail).
  all: try (apply delete_subject_cases in H as [->| ->]; simpl;
            repeat split; try refers_kept; fail).
  all: try (apply upsert_attendance_rows_frame in H as Hf;
            eapply upsert_attendance_rows_refers in H as [H1 H2]; [|done..];
            rewrite Hf in *; simpl in *; auto 10; fail).
  all: try (apply upsert_grades_rows_frame in H as Hf;
            eapply upsert_grades_rows_refers in H as [H1 H2]; [|done..];
            rewrite Hf in *; simpl in *; auto 10; fail).
  all: unfold delete_user, insert_profile,
         update_profile, delete_profile, insert_user_role,
         delete_user_role, insert_student, update_student,
         insert_subject, update_subject, insert_attendance,
         update_attendance, delete_attendance,
         insert_grade, update_grade, delete_grade in H.
  all: split_run H; foreign_keys_checked; inversion H; subst; clear H; simpl.
  all: repeat split; try refers_kept.
Qed.

(** ** Column widths *)

Lemma fits_clip_null n s : fits_null n (clip_null n s).
Proof. destruct s as [s|]; simpl; [apply fits_clip|done]. Qed.

Lemma students_coerce_fits i :
  fits 100 (students.i_first_name i) → fits 100 (students.i_last_name i) →
  fits 20 (students.i_id_number i) → fits 100 (students.i_email i) →
  fits 100 (students.i_course i) →
  students_coerce i = Ok () ∧ students_stored i = i.
Proof.
  intros H1 H2 H3 H4 H5. unfold students_coerce, students_stored.
  rewrite !fits_varchar, !clip_fits by done. split; [done|]. by destruct i.
Qed.

Lemma subjects_coerce_fits i :
  fits 100 (subjects.i_name i) → fits 100 (subjects.i_instructor i) →
  subjects_coerce i = Ok () ∧ subjects_stored i = i.
Proof.
  intros H1 H2. unfold subjects_coerce, subjects_stored.
  rewrite !fits_varchar, !clip_fits by done. split; [done|]. by destruct i.
Qed.

Lemma Forall_snoc {A} (P : A → Prop) (l : list A) (r : A) :
  Forall P l → P r → Forall P (l ++ [r]).
Proof. intros Hl Hr. apply Forall_app. split; [done|]. by apply Forall_singleton. Qed.

Lemma Forall_map_if {A} (P : A → Prop) (hit : A → bool) (upd : A → A) (l : list A) :
  (∀ r, P r → P (upd r)) → Forall P l →
  Forall P (map (λ r, if hit r then upd r else r) l).
Proof.
  intros Hupd Hl. rewrite map_fmap, Forall_fmap.
  eapply Forall_impl; [exact Hl|]. intros r Hr. simpl. destruct (hit r); auto.
Qed.

Lemma insert_profile_widths e c i db db' n :
  insert_profile e c i db = Ok (db', n) → column_widths db → column_widths db'.
Proof.
  unfold column_widths. intros H (Hp & Hs & Hj).
  apply insert_profile_Ok in H as (u & _ & _ & _ & _ & ->). simpl.
  repeat split; try assumption.
  apply Forall_snoc; [assumption|].
  unfold profile_fits. simpl. auto using fits_clip, fits_clip_null.
Qed.

Lemma run_column_widths e c s db db' n :
  run e c s db = Ok (db', n) → column_widths db → column_widths db'.
Proof.
  unfold column_widths. intros H (Hp & Hs & Hj).
  destruct s; simpl in H.
  all: try (by eapply insert_profile_widths).
  all: try (unfold insert_user, handle_new_user in H; unbind H;
            destruct a0 as [db1 m]; inversion H; subst; clear H;
            by eapply (insert_profile_widths _ _ _ (set_auth_users db _))).
  all: try (apply delete_student_cases in H as [->| ->]; simpl;
            auto using Forall_filter_keep; fail).
  all: try (apply delete_subject_cases in H as [->| ->]; simpl;
            auto using Forall_filter_keep; fail).
  all: try (apply upsert_attendance_rows_frame in H as ->; done).
  all: try (apply upsert_grades_rows_frame in H as ->; done).
  all: unfold delete_user, update_profile, delete_profile, insert_user_role,
         delete_user_role, insert_student, update_student,
         insert_subject, update_subject, insert_attendance,
         update_attendance, delete_attendance,
         insert_grade, update_grade, delete_grade in H.
  all: split_run H; inversion H; subst; clear H; simpl.
  all: repeat split; try assumption; try (by apply Forall_filter_keep).
  all: try (apply Forall_snoc; [assumption|];
            unfold student_fits, subject_fits; simpl; auto 10 using fits_clip; fail).
  all: try (apply Forall_map_if; [|assumption]; intros row Hrow;
            unfold student_fits, subject_fits; simpl; auto 10 using fits_clip; fail).
  (* UpdateProfile *)
  apply Forall_map_if; [|assumption].
  intros row (Hu & Hf & Hl & He). unfold profile_fits. simpl.
  destruct (profiles.p_username p), (profiles.p_first_name p),
    (profiles.p_last_name p), (profiles.p_email p); simpl;
    auto 10 using fits_clip, fits_clip_null.
Qed.

(** ** Invariants of the reachable databases *)

Lemma reachable_ind_run (P : database → Prop) :
  P empty_db →
  (∀ e c s db db' n, run e c s db = Ok (db', n) → P db → P db') →
  ∀ db, reachable db → P db.
Proof.
  intros H0 Hstep. induction 1 as [|e c s db Hdb IH]; [done|].
  unfold exec. destruct (run e c s db) as [[db' n]|err] eqn:Hrun; simpl; eauto.
Qed.

Lemma school_in_session_reachable : reachable school_in_session.
Proof.
  unfold school_in_session. cbv zeta. do 2 constructor. exact school_reachable.
Qed.

Lemma reachable_primary_keys db : reachable db → primary_keys db.
Proof.
  apply reachable_ind_run.
  - unfold primary_keys. simpl. repeat split; constructor.
  - apply run_primary_keys.
Qed.

Lemma reachable_unique_constraints db : reachable db → unique_constraints db.
Proof.
  apply reachable_ind_run.
  - unfold unique_constraints. simpl. repeat split; constructor.
  - apply run_unique_constraints.
Qed.

Lemma reachable_foreign_keys db : reachable db → foreign_keys db.
Proof.
  apply reachable_ind_run.
  - unfold foreign_keys, refers_to. simpl. repeat split; constructor.
  - apply run_foreign_keys.
Qed.

Lemma reachable_column_widths db : reachable db → column_widths db.
Proof.
  apply reachable_ind_run.
  - unfold column_widths. simpl. repeat split; constructor.
  - apply run_column_widths.
Qed.

(** X1: in every database that statements can produce from the empty
    schema, no two rows of a table share their [id] (PRIMARY KEY), whatever
    inserts, upserts, updates and deletes were run and by whom. *)
Theorem primary_keys_hold db : reachable db → primary_keys db.
Proof. apply reachable_primary_keys. Qed.

Lemma primary_keys_hold_witness : primary_keys school_in_session.
Proof. exact (primary_keys_hold school_in_session school_in_session_reachable). Defined.

(** X2: the UNIQUE constraints hold in every reachable database: no two
    profiles share a username, no account holds a role twice, no two
    students share an id_number, and there is at most one attendance row per
    (date, student, subject) and one grade row per (student, subject). *)
Theorem unique_constraints_hold db : reachable db → unique_constraints db.
Proof. apply reachable_unique_constraints. Qed.

Lemma unique_constraints_hold_witness : unique_constraints school_in_session.
Proof.
  exact (unique_constraints_hold school_in_session school_in_session_reachable).
Defined.

(** X3: referential integrity holds in every reachable database: every
    attendance row and every grade row names a student and a subject that
    exist, every profile and every role row names an account that exists;
    the ON DELETE CASCADE rules keep it so when a parent row is deleted. *)
Theorem foreign_keys_hold db : reachable db → foreign_keys db.
Proof. apply reachable_foreign_keys. Qed.

Lemma foreign_keys_hold_witness : foreign_keys school_in_session.
Proof. exact (foreign_keys_hold school_in_session school_in_session_reachable). Defined.

(** The width of a column counts characters, not bytes: an id_number of
    eleven two-byte letters goes into its VARCHAR(20) as it is. *)
Lemma accents_stored :
  exec (draws "t") (authenticated "ana") (InsertStudent accents_form) school
  = ((exec (draws "t") (authenticated "ana") (InsertStudent accents_form) school).1,
     Done 1)
  ∧ map students.id_number
        (tbl_students
           (exec (draws "t") (authenticated "ana") (InsertStudent accents_form) school).1)
    = ["A-001"; "ééééééééééé"]
  ∧ String.length "ééééééééééé" = 22%nat
  ∧ char_length "ééééééééééé" = 11%nat.
Proof.
  split; [vm_compute; reflexivity|]. split; [vm_compute; reflexivity|].
  split; reflexivity.
Qed.



(** ** What a statement leaves alone *)

Lemma run_frame e c s t db db' n :
  statement_table s = Some t → run e c s db = Ok (db', n) →
  auth_users db' = auth_users db
  ∧ (t ≠ T_profiles → tbl_profiles db' = tbl_profiles db)
  ∧ (t ≠ T_user_roles → tbl_user_roles db' = tbl_user_roles db)
  ∧ (t ≠ T_students → tbl_students db' = tbl_students db)
  ∧ (t ≠ T_subjects → tbl_subjects db' = tbl_subjects db)
  ∧ (t ≠ T_attendance → t ≠ T_students → t ≠ T_subjects →
     tbl_attendance db' = tbl_attendance db)
  ∧ (t ≠ T_grades → t ≠ T_students → t ≠ T_subjects →
     tbl_grades db' = tbl_grades db).
Proof.
  intros Hs H. destruct s; simpl in Hs; simplify_eq; simpl in H.
  all: try (apply upsert_attendance_rows_frame in H as ->; done).
  all: try (apply upsert_grades_rows_frame in H as ->; done).
  all: unfold insert_profile, update_profile, delete_profile, insert_user_role,
         delete_user_role, insert_student, update_student, delete_student,
         insert_subject, update_subject, delete_subject, insert_attendance,
         update_attendance, delete_attendance,
         insert_grade, update_grade, delete_grade in H.
  all: split_run H; inversion H; subst; clear H; simpl; done.
Qed.

Lemma exec_frame e c s t db :
  statement_table s = Some t →
  auth_users (exec e c s db).1 = auth_users db
  ∧ (t ≠ T_profiles → tbl_profiles (exec e c s db).1 = tbl_profiles db)
  ∧ (t ≠ T_user_roles → tbl_user_roles (exec e c s db).1 = tbl_user_roles db)
  ∧ (t ≠ T_students → tbl_students (exec e c s db).1 = tbl_students db)
  ∧ (t ≠ T_subjects → tbl_subjects (exec e c s db).1 = tbl_subjects db)
  ∧ (t ≠ T_attendance → t ≠ T_students → t ≠ T_subjects →
     tbl_attendance (exec e c s db).1 = tbl_attendance db)
  ∧ (t ≠ T_grades → t ≠ T_students → t ≠ T_subjects →
     tbl_grades (exec e c s db).1 = tbl_grades db).
Proof.
  intros Hs. unfold exec.
  destruct (run e c s db) as [[db' n]|err] eqn:Hrun; simpl; [|done].
  by eapply run_frame.
Qed.

(** A statement that is not the DELETE of a student or of a subject leaves
    the attendance and grades tables alone, unless it is a statement on
    them. *)
Lemma run_keeps_rows e c s t db db' n :
  statement_table s = Some t → run e c s db = Ok (db', n) →
  (∀ target, s ≠ DeleteStudent target ∧ s ≠ DeleteSubject target) →
  (t ≠ T_attendance → tbl_attendance db' = tbl_attendance db)
  ∧ (t ≠ T_grades → tbl_grades db' = tbl_grades db).
Proof.
  intros Hs H Hnd. destruct s; simpl in Hs; simplify_eq; simpl in H.
  all: try (by destruct (Hnd target) as [? ?]).
  all: try (apply upsert_attendance_rows_frame in H as ->; done).
  all: try (apply upsert_grades_rows_frame in H as ->; done).
  all: unfold insert_profile, update_profile, delete_profile, insert_user_role,
         delete_user_role, insert_student, update_student,
         insert_subject, update_subject, insert_attendance,
         update_attendance, delete_attendance,
         insert_grade, update_grade, delete_grade in H.
  all: split_run H; inversion H; subst; clear H; simpl; done.
Qed.

(** X5: a statement on one table leaves every other table as it was; the
    one exception is the DELETE of a student or of a subject, after which the
    attendance and grades tables are either as they were or have lost
    exactly the rows that name the deleted row (the cascade) and nothing
    else: no row of them is added or rewritten.  No statement on a public
    table touches the accounts. *)
Theorem statement_frame e c s t db :
  statement_table s = Some t →
  auth_users (exec e c s db).1 = auth_users db
  ∧ (t ≠ T_profiles → tbl_profiles (exec e c s db).1 = tbl_profiles db)
  ∧ (t ≠ T_user_roles → tbl_user_roles (exec e c s db).1 = tbl_user_roles db)
  ∧ (t ≠ T_students → tbl_students (exec e c s db).1 = tbl_students db)
  ∧ (t ≠ T_subjects → tbl_subjects (exec e c s db).1 = tbl_subjects db)
  ∧ (t ≠ T_attendance →
     (∀ target, s ≠ DeleteStudent target ∧ s ≠ DeleteSubject target) →
     tbl_attendance (exec e c s db).1 = tbl_attendance db)
  ∧ (t ≠ T_grades →
     (∀ target, s ≠ DeleteStudent target ∧ s ≠ DeleteSubject target) →
     tbl_grades (exec e c s db).1 = tbl_grades db)
  ∧ (∀ target, s = DeleteStudent target →
       (exec e c s db).1 = db
       ∨ (tbl_attendance (exec e c s db).1
          = filter (λ a, attendance.student_id a ≠ target) (tbl_attendance db)
          ∧ tbl_grades (exec e c s db).1
            = filter (λ g, grades.student_id g ≠ target) (tbl_grades db)))
  ∧ (∀ target, s = DeleteSubject target →
       (exec e c s db).1 = db
       ∨ (tbl_attendance (exec e c s db).1
          = filter (λ a, attendance.subject_id a ≠ target) (tbl_attendance db)
          ∧ tbl_grades (exec e c s db).1
            = filter (λ g, grades.subject_id g ≠ target) (tbl_grades db))).
Proof.
  intros Hs.
  destruct (exec_frame e c s t db Hs) as (Hu & Hp & Hr & Hst & Hsu & _ & _).
  do 5 (split; [assumption|]).
  unfold exec.
  destruct (run e c s db) as [[db' n]|err] eqn:Hrun; simpl;
    [|repeat split; intros; auto].
  split; [|split; [|split]].
  - intros Ht Hnd. by apply (run_keeps_rows e c s t db db' n).
  - intros Ht Hnd. by apply (run_keeps_rows e c s t db db' n).
  - intros target ->. simpl in Hrun.
    apply delete_student_cases in Hrun as [->| ->]; [by left|by right].
  - intros target ->. simpl in Hrun.
    apply delete_subject_cases in Hrun as [->| ->]; [by left|by right].
Qed.

(** ** Callers the policies keep out *)

(** When no policy lets the caller write to a statement's table, the
    statement writes nothing. *)
Lemma run_unpermitted e c s db t :
  statement_table s = Some t →
  (∀ cmd row, cmd ≠ SELECT → permits db c t cmd row = false) →
  run e c s db = Ok (db, 0%nat) ∨ ∃ err, run e c s db = Err err.
Proof.
  intros Hs Hw.
  destruct (run e c s db) as [[db' n]|err] eqn:Hrun; [left|eauto].
  destruct s; simpl in Hs; simplify_eq; simpl in Hrun.
  - unfold insert_profile in Hrun. unbind Hrun. denied Hw.
  - unfold update_profile in Hrun. unbind Hrun.
    rewrite filter_none in Hrun; [done|].
    intros x. unfold profile_hit. by rewrite Hw, andb_false_r.
  - unfold delete_profile in Hrun.
    rewrite filter_none in Hrun; [done|].
    intros x. unfold profile_hit. by rewrite Hw, andb_false_r.
  - unfold insert_user_role in Hrun. unbind Hrun. denied Hw.
  - unfold delete_user_role in Hrun.
    rewrite filter_none in Hrun; [done|].
    intros x. unfold user_role_hit. by rewrite Hw, andb_false_r.
  - unfold insert_student in Hrun. unbind Hrun. denied Hw.
  - unfold update_student in Hrun. unbind Hrun.
    rewrite filter_none in Hrun; [done|].
    intros x. unfold student_hit. by rewrite Hw, andb_false_r.
  - unfold delete_student in Hrun.
    rewrite filter_none in Hrun; [done|].
    intros x. unfold student_hit. by rewrite Hw, andb_false_r.
  - unfold insert_subject in Hrun. unbind Hrun. denied Hw.
  - unfold update_subject in Hrun. unbind Hrun.
    rewrite filter_none in Hrun; [done|].
    intros x. unfold subject_hit. by rewrite Hw, andb_false_r.
  - unfold delete_subject in Hrun.
    rewrite filter_none in Hrun; [done|].
    intros x. unfold subject_hit. by rewrite Hw, andb_false_r.
  - unfold insert_attendance in Hrun. unbind Hrun. denied Hw.
  - unfold upsert_attendance in Hrun. destruct rs as [|i rs]; simpl in Hrun; [done|].
    unbind Hrun. unfold upsert_attendance_row in Hstep. unbind Hstep.
    denied Hw.
  - unfold update_attendance in Hrun.
    rewrite filter_none in Hrun; [done|].
    intros x. unfold attendance_hit. by rewrite Hw, andb_false_r.
  - unfold delete_attendance in Hrun.
    rewrite filter_none in Hrun; [done|].
    intros x. unfold attendance_hit. by rewrite Hw, andb_false_r.
  - unfold insert_grade in Hrun. unbind Hrun. denied Hw.
  - unfold upsert_grades in Hrun. destruct rs as [|i rs]; simpl in Hrun; [done|].
    unbind Hrun. unfold upsert_grades_row in Hstep. unbind Hstep.
    denied Hw.
  - unfold update_grade in Hrun. unbind Hrun.
    rewrite filter_none in Hrun; [done|].
    intros x. unfold grade_hit. by rewrite Hw, andb_false_r.
  - unfold delete_grade in Hrun.
    rewrite filter_none in Hrun; [done|].
    intros x. unfold grade_hit. by rewrite Hw, andb_false_r.
Qed.

Lemma statement_frame_witness :
  tbl_grades (exec (draws "d") (authenticated "ana") (DeleteAttendance "a0")
                school_in_session).1
  = tbl_grades school_in_session.
Proof.
  apply (statement_frame (draws "d") (authenticated "ana") (DeleteAttendance "a0")
           T_attendance school_in_session eq_refl); [discriminate|].
  intros target. split; discriminate.
Defined.



(** ** The policies of user_roles *)

Lemma permits_user_roles_select db uid (r : user_roles.row) :
  permits db (authenticated uid) T_user_roles SELECT (user_roles_view r)
  = bool_decide (user_roles.user_id r = uid) || has_role db uid admin.
Proof.
  simpl. rewrite orb_false_r. unfold user_roles_view.
  rewrite (bool_decide_eq_false_2 ("user_id" = "id")) by done.
  rewrite (bool_decide_eq_true_2 ("user_id" = "user_id")) by done.
  f_equal. apply bool_decide_ext. split; congruence.
Qed.

Lemma permits_user_roles_write db uid cmd row :
  cmd ≠ SELECT → permits db (authenticated uid) T_user_roles cmd row = has_role db uid admin.
Proof. intros Hcmd. destruct cmd; try done; simpl; by rewrite ?orb_false_r. Qed.

(** X7: role rows are managed by admins only.  A signed-in caller sees a
    role row when it is their own or when they are admin, and may insert or
    delete one only as admin.  Without the admin role, no statement the
    caller sends to a public table changes the user_roles table, so nobody's
    roles change; with it, a role change is never refused by the policies. *)
Theorem user_roles_policies db uid :
  (∀ r, permits db (authenticated uid) T_user_roles SELECT (user_roles_view r) = true
        ↔ user_roles.user_id r = uid ∨ has_role db uid admin = true)
  ∧ (∀ cmd row, cmd ≠ SELECT →
       (permits db (authenticated uid) T_user_roles cmd row = true
        ↔ has_role db uid admin = true))
  ∧ (∀ e s t, statement_table s = Some t → has_role db uid admin = false →
       tbl_user_roles (exec e (authenticated uid) s db).1 = tbl_user_roles db
       ∧ ∀ who r, has_role (exec e (authenticated uid) s db).1 who r = has_role db who r)
  ∧ (∀ e s, statement_table s = Some T_user_roles → has_role db uid admin = true →
       (exec e (authenticated uid) s db).2 ≠ Rejected insufficient_privilege).
Proof.
  split; [|split; [|split]].
  - intros r. rewrite permits_user_roles_select, orb_true_iff, bool_decide_eq_true. done.
  - intros cmd row Hcmd. by rewrite permits_user_roles_write.
  - intros e s t Hs Hno.
    assert (Hsame : tbl_user_roles (exec e (authenticated uid) s db).1
                    = tbl_user_roles db).
    { destruct (decide (t = T_user_roles)) as [->|Hne].
      - assert (Hw : wrote_nothing db (exec e (authenticated uid) s db)).
        { apply wrote_nothing_run. eapply run_unpermitted; [exact Hs|].
          intros cmd row Hcmd. by rewrite permits_user_roles_write. }
        destruct Hw as [-> _]. done.
      - by apply (exec_frame e (authenticated uid) s t db Hs). }
    split; [exact Hsame|]. intros who r. unfold has_role. by rewrite Hsame.
  - intros e s Hs Hyes.
    assert (Hw : ∀ cmd row, permits db (authenticated uid) T_user_roles cmd row = true).
    { intros cmd row. destruct cmd; [|by rewrite permits_user_roles_write..].
      simpl. by rewrite Hyes, !orb_true_r. }
    unfold exec.
    destruct (run e (authenticated uid) s db) as [[db' n]|err] eqn:Hrun; simpl; [done|].
    intros [= ->].
    destruct s; simpl in Hs; simplify_eq; simpl in Hrun.
    + unfold insert_user_role in Hrun. err_walk Hrun. permitted Hw.
    + unfold delete_user_role in Hrun. err_walk Hrun.
Qed.

Lemma user_roles_policies_witness :
  tbl_user_roles
    (exec (draws "r") (authenticated "bob")
       (InsertUserRole {| user_roles.i_user_id := "bob"; user_roles.i_role := admin |})
       school).1
  = tbl_user_roles school.
Proof.
  destruct (user_roles_policies school "bob") as (_ & _ & Hfix & _).
  apply (Hfix (draws "r")
           (InsertUserRole {| user_roles.i_user_id := "bob"; user_roles.i_role := admin |})
           T_user_roles eq_refl).
  vm_compute. reflexivity.
Defined.

(** ** The updated_at triggers *)

Lemma grade_hit_all db c cmd t r0 :
  grade_hit db c cmd t r0 = true →
  ∀ r, grade_hit db c cmd t r = bool_decide (grades.id r = t).
Proof.
  unfold grade_hit. intros H r.
  apply andb_prop in H as [H Hsel]. apply andb_prop in H as [_ Hcmd].
  assert (Ht : T_grades ∈ school_tables)
    by (do 3 apply list_elem_of_further; apply list_elem_of_here).
  rewrite (permits_school_row _ _ _ _ _ (grades_view r0) Ht), Hcmd.
  rewrite (permits_school_row _ _ _ _ _ (grades_view r0) Ht), Hsel.
  by rewrite !andb_true_r.
Qed.

Lemma update_student_Ok e c t i db db' n :
  update_student e c t i db = Ok (db', S n) →
  db' = set_students db
          (map (λ r, if bool_decide (students.id r = t)
                     then {| students.id := students.id r;
                             students.first_name := clip 100 (students.i_first_name i);
                             students.last_name := clip 100 (students.i_last_name i);
                             students.id_number := clip 20 (students.i_id_number i);
                             students.email := clip 100 (students.i_email i);
                             students.course := clip 100 (students.i_course i);
                             students.created_at := students.created_at r;
                             students.updated_at := now e |}
                     else r)
               (tbl_students db)).
Proof.
  unfold update_student. intros H. unbind H.
  destruct (filter _ (tbl_students db)) as [|h hit] eqn:Hhit; [discriminate|].
  apply filter_head_hit in Hhit. unbind H. inversion H; subst; clear H.
  f_equal. apply map_ext. intros r.
  by rewrite (student_hit_all _ _ _ _ _ Hhit r).
Qed.

Lemma update_subject_Ok e c t i db db' n :
  update_subject e c t i db = Ok (db', S n) →
  db' = set_subjects db
          (map (λ r, if bool_decide (subjects.id r = t)
                     then {| subjects.id := subjects.id r;
                             subjects.name := clip 100 (subjects.i_name i);
                             subjects.instructor := clip 100 (subjects.i_instructor i);
                             subjects.created_at := subjects.created_at r;
                             subjects.updated_at := now e |}
                     else r)
               (tbl_subjects db)).
Proof.
  unfold update_subject. intros H. unbind H.
  destruct (filter _ (tbl_subjects db)) as [|h hit] eqn:Hhit; [discriminate|].
  apply filter_head_hit in Hhit. unbind H. inversion H; subst; clear H.
  f_equal. apply map_ext. intros r.
  by rewrite (subject_hit_all _ _ _ _ _ Hhit r).
Qed.

Lemma update_grade_Ok e c t p db db' n :
  update_grade e c t p db = Ok (db', S n) →
  ∃ sp sx,
    coerce_set (grades.p_partial_score p) = Ok sp
    ∧ coerce_set (grades.p_exam_score p) = Ok sx
    ∧ db' = set_grades db
              (map (λ r, if bool_decide (grades.id r = t)
                         then {| grades.id := grades.id r;
                                 grades.partial_score := default (grades.partial_score r) sp;
                                 grades.exam_score := default (grades.exam_score r) sx;
                                 grades.average :=
                                   grades.generated_average
                                     (default (grades.partial_score r) sp)
                                     (default (grades.exam_score r) sx);
                                 grades.student_id := grades.student_id r;
                                 grades.subject_id := grades.subject_id r;
                                 grades.created_at := grades.created_at r;
                                 grades.updated_at := now e |}
                         else r)
                   (tbl_grades db)).
Proof.
  unfold update_grade. intros H. unbind H.
  destruct (filter _ (tbl_grades db)) as [|h hit] eqn:Hhit; [discriminate|].
  apply filter_head_hit in Hhit. unbind H. inversion H; subst; clear H.
  eexists _, _. split; [eassumption|]. split; [eassumption|].
  f_equal. apply map_ext. intros r.
  by rewrite (grade_hit_all _ _ _ _ _ Hhit r).
Qed.

(** X8: the BEFORE UPDATE triggers.  An UPDATE of a student, subject or
    grade that reaches a row rewrites exactly the rows with the targeted id:
    each gets the new column values (a text as its column stores it: cut to
    the column's width, which leaves a text that fits as it is; a score as
    its column rounds it, with the average generated anew from the row's two
    scores) and [updated_at = NOW()], and keeps its [id] and [created_at];
    every other row, and every other table, stays as it was, and no row is
    added or lost. *)
Theorem update_stamps_rows :
  (∀ e c t i db db' n,
     exec e c (UpdateStudent t i) db = (db', Done (S n)) →
     db' = set_students db
             (map (λ r, if bool_decide (students.id r = t)
                        then {| students.id := students.id r;
                                students.first_name := clip 100 (students.i_first_name i);
                                students.last_name := clip 100 (students.i_last_name i);
                                students.id_number := clip 20 (students.i_id_number i);
                                students.email := clip 100 (students.i_email i);
                                students.course := clip 100 (students.i_course i);
                                students.created_at := students.created_at r;
                                students.updated_at := now e |}
                        else r)
                  (tbl_students db)))
  ∧ (∀ e c t i db db' n,
     exec e c (UpdateSubject t i) db = (db', Done (S n)) →
     db' = set_subjects db
             (map (λ r, if bool_decide (subjects.id r = t)
                        then {| subjects.id := subjects.id r;
                                subjects.name := clip 100 (subjects.i_name i);
                                subjects.instructor := clip 100 (subjects.i_instructor i);
                                subjects.created_at := subjects.created_at r;
                                subjects.updated_at := now e |}
                        else r)
                  (tbl_subjects db)))
  ∧ (∀ e c t p db db' n,
     exec e c (UpdateGrade t p) db = (db', Done (S n)) →
     ∃ sp sx,
       coerce_set (grades.p_partial_score p) = Ok sp
       ∧ coerce_set (grades.p_exam_score p) = Ok sx
       ∧ db' = set_grades db
                 (map (λ r, if bool_decide (grades.id r = t)
                            then {| grades.id := grades.id r;
                                    grades.partial_score :=
                                      default (grades.partial_score r) sp;
                                    grades.exam_score :=
                                      default (grades.exam_score r) sx;
                                    grades.average :=
                                      grades.generated_average
                                        (default (grades.partial_score r) sp)
                                        (default (grades.exam_score r) sx);
                                    grades.student_id := grades.student_id r;
                                    grades.subject_id := grades.subject_id r;
                                    grades.created_at := grades.created_at r;
                                    grades.updated_at := now e |}
                            else r)
                      (tbl_grades db)))
  ∧ (∀ n s, (char_length s ≤ n)%nat → clip n s = s)
  ∧ (∀ v, coerce_set None = Ok v ↔ v = None)
  ∧ (∀ v, coerce_set (Some None) = Ok v ↔ v = Some None)
  ∧ (∀ x v, coerce_set (Some (Some x)) = Ok v
            ↔ (Z.abs (to_scale_2 x) < 100000 ∧ v = Some (Some (to_scale_2 x)))).
Proof.
  split; [|split; [|split; [|split; [|split; [|split]]]]].
  - intros e c t i db db' n H. apply exec_Done in H. by eapply update_student_Ok.
  - intros e c t i db db' n H. apply exec_Done in H. by eapply update_subject_Ok.
  - intros e c t p db db' n H. apply exec_Done in H. by eapply update_grade_Ok.
  - intros n s Hs. by apply clip_fits.
  - intros v. simpl. split; [by intros [= <-] | by intros ->].
  - intros v. simpl. split; [by intros [= <-] | by intros ->].
  - intros x v. unfold coerce_set, coerce_score, to_decimal_5_2. simpl.
    destruct (Z.abs (to_scale_2 x) <? 100000) eqn:Hr; simpl.
    + apply Z.ltb_lt in Hr. split; [by intros [= <-] | by intros [_ ->]].
    + apply Z.ltb_ge in Hr. split; [discriminate | intros [? _]; lia].
Qed.

Lemma update_stamps_rows_witness :
  map students.updated_at
      (tbl_students (exec at_seven (authenticated "ana") (UpdateStudent "s0" luis_form)
                       school).1)
  = [7].
Proof.
  assert (H : exec at_seven (authenticated "ana") (UpdateStudent "s0" luis_form) school
              = ((exec at_seven (authenticated "ana") (UpdateStudent "s0" luis_form)
                    school).1, Done 1))
    by (vm_compute; reflexivity).
  apply (proj1 update_stamps_rows) in H. rewrite H. vm_compute. reflexivity.
Defined.

(** ** Editing a student *)

Lemma NoDup_map_inj {A K} (key : A → K) (l : list A) (r r' : A) :
  NoDup (map key l) → r ∈ l → r' ∈ l → key r = key r' → r = r'.
Proof.
  induction l as [|a l IH]; simpl; intros Hl Hr Hr' Hk.
  - by apply elem_of_nil in Hr.
  - apply NoDup_cons in Hl as [Ha Hl].
    apply elem_of_cons in Hr as [->|Hr]; apply elem_of_cons in Hr' as [->|Hr'].
    + done.
    + exfalso. apply Ha. rewrite Hk, map_fmap. by apply list_elem_of_fmap_2.
    + exfalso. apply Ha. rewrite <- Hk, map_fmap. by apply list_elem_of_fmap_2.
    + by apply IH.
Qed.

Lemma NoDup_map_filter_one {A K} `{EqDecision K} (key : A → K) (l : list A) (r : A) :
  NoDup (map key l) → r ∈ l → filter (λ x, key x = key r) l = [r].
Proof.
  intros Hl Hr.
  rewrite <- (map_id l) at 1.
  by apply (filter_map_unique id key key).
Qed.

(** Saving a student's own columns back: the store accepts the UPDATE and
    only [updated_at] moves. *)
Lemma resave_student e c s st db :
  primary_keys db → unique_constraints db → column_widths db →
  s ∈ tbl_students db →
  (∀ cmd row, permits db c T_students cmd row = true) →
  exec e c (UpdateStudent (students.id s) (Students.formData (Students.handleEdit s st))) db
  = (set_students db
       (map (λ r, if bool_decide (students.id r = students.id s)
                  then touch (now e) r else r)
            (tbl_students db)),
     Done 1).
Proof.
  intros (_ & _ & Hid & _) (_ & _ & Hnum & _) (_ & Hfit & _) Hs Hperm.
  assert (Hhit : ∀ r, student_hit db c UPDATE (students.id s) r
                      = bool_decide (students.id r = students.id s)).
  { intros r. unfold student_hit. by rewrite !Hperm, !andb_true_r. }
  assert (Hone : filter (λ r, student_hit db c UPDATE (students.id s) r) (tbl_students db)
                 = [s]).
  { rewrite <- (NoDup_map_filter_one students.id (tbl_students db) s Hid Hs).
    apply list_filter_iff. intros r. by rewrite Hhit, bool_decide_spec. }
  rewrite Forall_forall in Hfit. destruct (Hfit s Hs) as (F1 & F2 & F3 & F4 & F5).
  destruct (students_coerce_fits (Students.formData (Students.handleEdit s st))
              F1 F2 F3 F4 F5) as [Hc Hv].
  apply exec_Done. unfold run, update_student.
  rewrite Hc. cbv zeta. rewrite Hv.
  simpl. rewrite Hone. simpl.
  rewrite Hperm. simpl.
  assert (Hfree : has_key students.id_number (students.id_number s)
                    (filter (λ r, ¬ student_hit db c UPDATE (students.id s) r)
                            (tbl_students db)) = false).
  { apply has_key_false. intros r Hr Hk.
    apply list_elem_of_filter in Hr as [Hno Hr].
    apply Hno. rewrite Hhit. apply bool_decide_pack.
    by rewrite (NoDup_map_inj students.id_number _ r s Hnum Hr Hs Hk). }
  rewrite Hfree. simpl. f_equal. f_equal. f_equal.
  apply map_ext_in. intros r Hr%list_elem_of_In. rewrite Hhit.
  destruct (bool_decide (students.id r = students.id s)) eqn:Hb; [|done].
  apply bool_decide_eq_true in Hb.
  by rewrite (NoDup_map_inj students.id _ r s Hid Hr Hs Hb).
Qed.

(** X9: opening the edit dialog on a listed student and saving it unchanged.
    In any state the store can be in, for a signed-in admin or teacher, the
    page sends an UPDATE of that student's id with the student's own columns;
    the store accepts it; afterwards the store is as before except that the
    student's [updated_at] is the time of the request; the page reports
    success, closes the dialog, clears the form and reads the students
    again. *)
Theorem students_edit_round_trip st w s uid :
  reachable (store w) →
  session w = authenticated uid →
  staff (store w) uid = true →
  s ∈ tbl_students (store w) →
  let r := Students.handleSubmit (Students.handleEdit s st) w in
  store r.2
    = set_students (store w)
        (map (λ x, if bool_decide (students.id x = students.id s)
                   then touch (now (draw w (length (requests w)))) x else x)
             (tbl_students (store w)))
  ∧ refetched T_students
      (UpdateStudent (students.id s)
         {| students.i_first_name := students.first_name s;
            students.i_last_name := students.last_name s;
            students.i_id_number := students.id_number s;
            students.i_email := students.email s;
            students.i_course := students.course s |})
      w r.2
  ∧ toasts r.2 = toasts w ++ [toast_success "Student updated successfully"]
  ∧ Students.isDialogOpen r.1 = false
  ∧ Students.editingStudent r.1 = None
  ∧ Students.formData r.1 = Students.emptyForm.
Proof.
  intros Hreach Hsess Hstaff Hs r.
  assert (Hperm : ∀ cmd row, permits (store w) (session w) T_students cmd row = true).
  { intros cmd row. rewrite Hsess. apply permits_staff; [apply list_elem_of_here|done]. }
  assert (Hexec := resave_student (draw w (length (requests w))) (session w) s st
                     (store w) (reachable_primary_keys _ Hreach)
                     (reachable_unique_constraints _ Hreach)
                     (reachable_column_widths _ Hreach) Hs Hperm).
  subst r. unfold Students.handleSubmit.
  change (Students.editingStudent (Students.handleEdit s st)) with (Some s).
  cbv zeta. unfold send. cbv zeta. rewrite Hexec. simpl.
  repeat split; try done.
  unfold refetched. simpl. by rewrite <- app_assoc.
Qed.

Lemma students_edit_round_trip_witness :
  let r := Students.handleSubmit (Students.handleEdit luis students_page)
             (tab school (authenticated "ana")) in
  toasts r.2 = [toast_success "Student updated successfully"]
  ∧ Students.isDialogOpen r.1 = false.
Proof.
  destruct (students_edit_round_trip students_page (tab school (authenticated "ana"))
              luis "ana") as (_ & _ & Ht & Hd & _).
  - exact school_reachable.
  - reflexivity.
  - vm_compute. reflexivity.
  - vm_compute. apply list_elem_of_here.
  - exact (conj Ht Hd).
Defined.

(** ** Saving attendance and loading it again *)

(** The [forEach] of [fetchAttendance]. *)
Lemma attendance_map_other (data : list attendance.row) : ∀ (m : gmap string bool) k,
  k ∉ map attendance.student_id data →
  foldl (λ m record, <[attendance.student_id record := attendance.present record]> m)
        m data !! k = m !! k.
Proof.
  induction data as [|x data IH]; simpl; intros m k Hk; [done|].
  apply not_elem_of_cons in Hk as [Hne Hk].
  rewrite IH by done. by rewrite lookup_insert_ne.
Qed.

Lemma attendance_map_lookup (data : list attendance.row) : ∀ (m : gmap string bool) a,
  NoDup (map attendance.student_id data) → a ∈ data →
  foldl (λ m record, <[attendance.student_id record := attendance.present record]> m)
        m data !! attendance.student_id a = Some (attendance.present a).
Proof.
  induction data as [|x data IH]; simpl; intros m a Hnd Ha.
  - by apply elem_of_nil in Ha.
  - apply NoDup_cons in Hnd as [Hx Hnd].
    apply elem_of_cons in Ha as [->|Ha]; [|by apply IH].
    rewrite attendance_map_other by done. by rewrite lookup_insert_eq.
Qed.

(** One subject on one day: at most one attendance row per student. *)
Lemma attendance_day_unique (l : list attendance.row) (subject : uuid) (day : sql_date) :
  NoDup (map attendance_key l) →
  NoDup (map attendance.student_id
           (filter (λ a, attendance.subject_id a = subject ∧ attendance.date a = day) l)).
Proof.
  intros Hl. rewrite map_fmap. apply NoDup_fmap_2_strong.
  - intros x y Hx Hy Hxy.
    apply list_elem_of_filter in Hx as [[Hxs Hxd] Hx].
    apply list_elem_of_filter in Hy as [[Hys Hyd] Hy].
    apply (NoDup_map_inj attendance_key l x y Hl Hx Hy).
    unfold attendance_key. congruence.
  - apply NoDup_filter. rewrite map_fmap in Hl. by apply NoDup_fmap_1 in Hl.
Qed.

(** A caller whose upsert of at least one record went through is signed in
    (or owns the tables), so it can read the attendance table. *)
Lemma upsert_attendance_reader e c i rs db db' n :
  upsert_attendance e c (i :: rs) db = Ok (db', n) →
  ∀ db2 row, permits db2 c T_attendance SELECT row = true.
Proof.
  unfold upsert_attendance. simpl. intros H. unbind H.
  unfold upsert_attendance_row in Hstep. unbind Hstep.
  destruct c as [|uid|]; [done| |done].
  intros db2 row. apply permits_school_select.
  do 2 apply list_elem_of_further. apply list_elem_of_here.
Qed.

Lemma filter_all {A} (f : A → bool) (l : list A) :
  (∀ x, f x = true) → filter (λ x, f x) l = l.
Proof.
  intros Hf. induction l as [|a l IH]; [done|].
  rewrite filter_cons_True by (by rewrite Hf). by rewrite IH.
Qed.

(** X10: saving attendance and loading it again.  On any store the
    application can be in, after a save that the store accepted, loading the
    attendance of the selected subject and date (as the page does when
    either is selected) gives every listed student the mark the page showed
    when saving: the student's mark, absent for a student never marked. *)
Theorem attendance_save_fetch st w n s :
  reachable (store w) →
  Attendance.selectedSubject st ≠ "" →
  (send (UpsertAttendance (Attendance.records st)) w).2 = Done n →
  s ∈ Attendance.students st →
  Attendance.attendance
    (Attendance.fetchAttendance (Attendance.handleSave st w).1
                                (Attendance.handleSave st w).2).1
    !! students.id s
  = Some (default false (Attendance.attendance st !! students.id s)).
Proof.
  intros Hreach Hsel Hdone Hs.
  destruct (attendance_save_stored st w n s Hsel Hdone Hs)
    as (a & Ha & Hd & Hst & Hsu & Hp).
  assert (Hread : ∀ db2 row, permits db2 (session w) T_attendance SELECT row = true).
  { unfold send in Hdone. simpl in Hdone. unfold exec in Hdone.
    destruct (run _ _ _ (store w)) as [[db' m]|err] eqn:Hrun; [|discriminate].
    simpl in Hrun. unfold Attendance.records in Hrun.
    apply list_elem_of_split in Hs as (l1 & l2 & Hl). rewrite Hl in Hrun.
    destruct l1 as [|x l1]; simpl in Hrun; by eapply upsert_attendance_reader. }
  assert (Hkeys : NoDup (map attendance_key
                           (tbl_attendance (store (Attendance.handleSave st w).2)))).
  { assert (Hr : reachable (store (Attendance.handleSave st w).2)).
    { unfold Attendance.handleSave. rewrite bool_decide_eq_false_2 by done.
      cbv zeta. rewrite Hdone. simpl. by constructor. }
    apply reachable_unique_constraints in Hr. apply Hr. }
  unfold Attendance.handleSave in *. rewrite bool_decide_eq_false_2 in * by done.
  cbv zeta in *. rewrite Hdone in *. simpl in *.
  rewrite filter_all by (intros x; apply Hread).
  rewrite <- Hp, <- Hst.
  apply attendance_map_lookup.
  - by apply attendance_day_unique.
  - apply list_elem_of_filter. done.
Qed.

Lemma attendance_save_fetch_witness :
  Attendance.attendance
    (Attendance.fetchAttendance
       (Attendance.handleSave roll_call_page (tab school (authenticated "ana"))).1
       (Attendance.handleSave roll_call_page (tab school (authenticated "ana"))).2).1
    !! "s0"
  = Some false.
Proof.
  apply (attendance_save_fetch roll_call_page (tab school (authenticated "ana")) 1 luis).
  - exact school_reachable.
  - discriminate.
  - vm_compute. reflexivity.
  - vm_compute. apply list_elem_of_here.
Defined.

(** ** Loading grades *)

Lemma js_set_new {V} (k : string) (v : V) (o : js_object V) :
  k ∉ map fst o → js_set k v o = o ++ [(k, v)].
Proof.
  intros Hk. unfold js_set.
  assert (Hno : existsb (λ kv : string * V, bool_decide (kv.1 = k)) o = false).
  { apply (has_key_false fst k o). intros r Hr Heq. apply Hk.
    rewrite <- Heq, map_fmap. by apply list_elem_of_fmap_2. }
  by rewrite Hno.
Qed.

Lemma gradesMap_null toString (data : list grades.row) : ∀ acc g,
  g ∈ data → grades.partial_score g = None ∨ grades.exam_score g = None →
  Grades.gradesMap toString data acc = None.
Proof.
  induction data as [|x data IH]; simpl; intros acc g Hg Hnull.
  - by apply elem_of_nil in Hg.
  - apply elem_of_cons in Hg as [->|Hg].
    + destruct Hnull as [-> | ->]; [done|]. by destruct (grades.partial_score x).
    + destruct (grades.partial_score x); [|done].
      destruct (grades.exam_score x); [|done]. simpl. eauto.
Qed.

Lemma gradesMap_all toString (data : list grades.row) : ∀ acc,
  Forall (λ g, is_Some (grades.partial_score g) ∧ is_Some (grades.exam_score g)) data →
  NoDup (map grades.student_id data ++ map fst acc) →
  Grades.gradesMap toString data acc = Some (acc ++ map (grade_entry toString) data).
Proof.
  induction data as [|x data IH]; simpl; intros acc Hall Hnd.
  - by rewrite app_nil_r.
  - apply Forall_cons in Hall as [[[p Hp] [e He]] Hall].
    apply NoDup_cons in Hnd as [Hx Hnd].
    rewrite Hp, He. simpl.
    apply not_elem_of_app in Hx as [Hx1 Hx2].
    rewrite js_set_new by done.
    rewrite IH; [|done|].
    + rewrite <- app_assoc. simpl. unfold grade_entry at 2. by rewrite Hp, He.
    + rewrite map_app. simpl.
      apply NoDup_app in Hnd as (Hd & Hdis & Hacc).
      apply NoDup_app. split; [done|]. split.
      * intros k Hk [Hin|Hin%list_elem_of_singleton]%elem_of_app.
        -- by apply (Hdis k).
        -- by subst.
      * apply NoDup_app. split; [done|]. split; [|apply NoDup_singleton].
        intros k Hk ->%list_elem_of_singleton. done.
Qed.

(** One subject: at most one grade row per student. *)
Lemma grades_subject_unique (l : list grades.row) (subject : uuid) :
  NoDup (map grades_key l) →
  NoDup (map grades.student_id (filter (λ g, grades.subject_id g = subject) l)).
Proof.
  intros Hl. rewrite map_fmap. apply NoDup_fmap_2_strong.
  - intros x y Hx Hy Hxy.
    apply list_elem_of_filter in Hx as [Hxs Hx].
    apply list_elem_of_filter in Hy as [Hys Hy].
    apply (NoDup_map_inj grades_key l x y Hl Hx Hy).
    unfold grades_key. congruence.
  - apply NoDup_filter. rewrite map_fmap in Hl. by apply NoDup_fmap_1 in Hl.
Qed.

Lemma fetchGrades_entries toString st w :
  reachable (store w) →
  Forall (λ g, is_Some (grades.partial_score g) ∧ is_Some (grades.exam_score g))
         (filter (λ g, grades.subject_id g = Grades.selectedSubject st)
            (filter (λ g, permits (store w) (session w) T_grades SELECT (grades_view g))
                    (tbl_grades (store w)))) →
  Grades.grades (Grades.fetchGrades toString st w).1
  = map (grade_entry toString)
        (filter (λ g, grades.subject_id g = Grades.selectedSubject st)
           (filter (λ g, permits (store w) (session w) T_grades SELECT (grades_view g))
                   (tbl_grades (store w)))).
Proof.
  intros Hreach Hall. unfold Grades.fetchGrades, select. simpl.
  rewrite gradesMap_all; [done|done|].
  simpl. rewrite app_nil_r. apply grades_subject_unique.
  apply NoDup_map_filter. by apply reachable_unique_constraints.
Qed.

(** X11: what the Grades page holds after loading the grades of the selected
    subject.  [existingGrades] is always the rows read.  When one of them
    has a NULL score, building the map stops at that row (toString of null
    throws) and the page keeps the map it had.  Otherwise, on any store the
    application can be in, the map gets one entry per row read, in the order
    read, with the student's two scores as text. *)
Theorem grades_fetch_map toString st w :
  let data := filter (λ g, grades.subject_id g = Grades.selectedSubject st)
                (filter (λ g, permits (store w) (session w) T_grades SELECT (grades_view g))
                        (tbl_grades (store w))) in
  Grades.existingGrades (Grades.fetchGrades toString st w).1 = data
  ∧ ((∃ g, g ∈ data
         ∧ (grades.partial_score g = None ∨ grades.exam_score g = None)) →
     Grades.grades (Grades.fetchGrades toString st w).1 = Grades.grades st)
  ∧ (reachable (store w) →
     Forall (λ g, is_Some (grades.partial_score g) ∧ is_Some (grades.exam_score g)) data →
     Grades.grades (Grades.fetchGrades toString st w).1
     = map (grade_entry toString) data).
Proof.
  intros data. split; [done|]. split.
  - intros (g & Hg & Hnull). unfold Grades.fetchGrades, select. simpl.
    fold data. by rewrite (gradesMap_null toString data [] g Hg Hnull).
  - intros Hreach Hall. by apply fetchGrades_entries.
Qed.

Lemma grades_fetch_map_witness :
  Grades.grades (Grades.fetchGrades (λ _, "") grades_page
                   (tab exam_pending (authenticated "ana"))).1
  = Grades.grades grades_page.
Proof.
  apply (grades_fetch_map (λ _, "") grades_page (tab exam_pending (authenticated "ana"))).
  exists {| grades.id := "g0"; grades.partial_score := Some 7500;
            grades.exam_score := None; grades.average := None;
            grades.student_id := "s0"; grades.subject_id := "j0";
            grades.created_at := 0; grades.updated_at := 0 |}.
  split; [vm_compute; apply list_elem_of_here|]. by right.
Defined.

(** ** Typing a score *)

Lemma js_get_None {V} (o : js_object V) (k : string) :
  js_get o k = None ↔ k ∉ map fst o.
Proof.
  induction o as [|kv o IH]; simpl.
  - split; [intros _; apply not_elem_of_nil|done].
  - rewrite not_elem_of_cons. destruct (decide (kv.1 = k)) as [Hk|Hk].
    + rewrite bool_decide_eq_true_2 by done. split; [done|]. intros [Hne _]. done.
    + rewrite bool_decide_eq_false_2 by done. rewrite IH. split; [|tauto].
      intros Hno. split; [congruence|done].
Qed.

Lemma js_set_old {V} (k : string) (v : V) (o : js_object V) :
  k ∈ map fst o →
  js_set k v o = map (λ kv, if bool_decide (kv.1 = k) then (k, v) else kv) o.
Proof.
  intros Hk. unfold js_set.
  assert (Hyes : existsb (λ kv : string * V, bool_decide (kv.1 = k)) o = true).
  { apply (has_key_true fst k o).
    rewrite map_fmap in Hk. apply list_elem_of_fmap in Hk as (kv & -> & Hkv). eauto. }
  by rewrite Hyes.
Qed.

(** X12: typing a score on the Grades page and what a save would then send.
    A score is sent as [parseFloat] of its text: 0 when the text is not a
    number or the field was never typed, the number when it is finite, and
    NULL when it is an infinity (as for "1e999").  For a student without an
    entry yet, the records gain one at the end for that student, with the
    typed score and 0 for the score not typed.  For a student with an entry,
    that student's record changes in place: the typed score, partial or
    exam, replaces the old one and the other score stays; nobody else's
    record changes.  (The keys of the map are student ids, uuids, which a JS
    object keeps in the order they were first set.) *)
Theorem grade_change_records parseFloat studentId value st :
  (js_get (Grades.grades st) studentId = None →
   Grades.records parseFloat (Grades.handleGradeChange studentId true value st)
   = Grades.records parseFloat st
     ++ [{| grades.i_student_id := studentId;
            grades.i_subject_id := Grades.selectedSubject st;
            grades.i_partial_score := Grades.parse_or_0 parseFloat (Some value);
            grades.i_exam_score := Some {| digits := 0; scale := 0 |};
            grades.i_average := None |}]
   ∧ Grades.records parseFloat (Grades.handleGradeChange studentId false value st)
     = Grades.records parseFloat st
       ++ [{| grades.i_student_id := studentId;
              grades.i_subject_id := Grades.selectedSubject st;
              grades.i_partial_score := Some {| digits := 0; scale := 0 |};
              grades.i_exam_score := Grades.parse_or_0 parseFloat (Some value);
              grades.i_average := None |}])
  ∧ (∀ old, js_get (Grades.grades st) studentId = Some old →
     Grades.records parseFloat (Grades.handleGradeChange studentId true value st)
     = map (λ r, if bool_decide (grades.i_student_id r = studentId)
                 then {| grades.i_student_id := studentId;
                         grades.i_subject_id := Grades.selectedSubject st;
                         grades.i_partial_score :=
                           Grades.parse_or_0 parseFloat (Some value);
                         grades.i_exam_score :=
                           Grades.parse_or_0 parseFloat (Grades.exam old);
                         grades.i_average := None |}
                 else r)
           (Grades.records parseFloat st)
     ∧ Grades.records parseFloat (Grades.handleGradeChange studentId false value st)
       = map (λ r, if bool_decide (grades.i_student_id r = studentId)
                   then {| grades.i_student_id := studentId;
                           grades.i_subject_id := Grades.selectedSubject st;
                           grades.i_partial_score :=
                             Grades.parse_or_0 parseFloat (Grades.partial old);
                           grades.i_exam_score :=
                             Grades.parse_or_0 parseFloat (Some value);
                           grades.i_average := None |}
                   else r)
             (Grades.records parseFloat st))
  ∧ (∀ s, Grades.parse_or_0 parseFloat s
          = match s with
            | None => Some {| digits := 0; scale := 0 |}
            | Some text =>
                match parseFloat text with
                | Grades.NaN => Some {| digits := 0; scale := 0 |}
                | Grades.Infinity _ => None
                | Grades.Finite x =>
                    Some (if bool_decide (digits x = 0)
                          then {| digits := 0; scale := 0 |} else x)
                end
            end).
Proof.
  split; [|split].
  - intros Hnone. unfold Grades.records, Grades.handleGradeChange. simpl.
    rewrite Hnone. simpl. apply js_get_None in Hnone.
    rewrite !js_set_new by done. by rewrite !map_app.
  - intros old Hold. unfold Grades.records, Grades.handleGradeChange. simpl.
    rewrite Hold. simpl.
    assert (Hin : studentId ∈ map fst (Grades.grades st)).
    { destruct (decide (studentId ∈ map fst (Grades.grades st))) as [|Hno]; [done|].
      apply js_get_None in Hno. congruence. }
    rewrite !js_set_old by done.
    split; rewrite !map_map; apply map_ext; intros [k v]; simpl;
      (destruct (decide (k = studentId)) as [Hk|Hk];
       [by rewrite !bool_decide_eq_true_2 by done
       |by rewrite !bool_decide_eq_false_2 by done]).
  - intros [text|]; [|reflexivity]. unfold Grades.parse_or_0. simpl.
    destruct (parseFloat text) as [|neg|x]; simpl; try reflexivity.
    by destruct (bool_decide (digits x = 0)).
Qed.

(** ** Saving grades *)

Lemma grades_proposed_Ok e k i r :
  grades_proposed e k i = Ok r →
  grades_key r = grades_input_key i
  ∧ coerce_score (grades.i_partial_score i) = Ok (grades.partial_score r)
  ∧ coerce_score (grades.i_exam_score i) = Ok (grades.exam_score r)
  ∧ grades.average r
    = grades.generated_average (grades.partial_score r) (grades.exam_score r).
Proof.
  unfold grades_proposed. intros H. unbind H. inversion H; subst; clear H. done.
Qed.

Lemma upsert_grades_row_writes e k c seen i db db' :
  upsert_grades_row e k c seen i db = Ok db' →
  grades_input_key i ∉ seen
  ∨ has_key grades_key (grades_input_key i) (tbl_grades db) = false.
Proof.
  unfold upsert_grades_row. intros H. unbind H.
  apply grades_proposed_Ok in Hstep as (Hk & _). rewrite Hk in H.
  destruct (has_key grades_key _ (tbl_grades db)); [|by right].
  unbind H. left.
  match goal with
  | Hs : negb (bool_decide _) = true |- _ =>
      apply negb_true_iff, bool_decide_eq_false in Hs; exact Hs
  end.
Qed.

Lemma coerce_score_stored s v :
  coerce_score s = Ok v → check_holds (grades.score_check v) = true →
  stored_score s v.
Proof.
  unfold coerce_score, to_decimal_5_2, stored_score. destruct s as [x|].
  - destruct (Z.abs (to_scale_2 x) <? 100000); [|discriminate].
    intros [= <-] Hc. split; [done|]. by apply score_check_range.
  - by intros [= <-].
Qed.

Lemma upsert_grades_row_stores e k c seen i db db' :
  upsert_grades_row e k c seen i db = Ok db' →
  ∃ p x, stored_score (grades.i_partial_score i) p
       ∧ stored_score (grades.i_exam_score i) x
       ∧ grade_row_for db' (grades_input_key i) p x.
Proof.
  unfold upsert_grades_row. intros H. unbind H.
  apply grades_checks_Ok in Hstep1 as [Hcp Hcx].
  apply grades_proposed_Ok in Hstep as (Hk & Hp & Hx & Havg). rewrite Hk in H.
  exists (grades.partial_score a), (grades.exam_score a).
  split; [by apply coerce_score_stored|]. split; [by apply coerce_score_stored|].
  destruct (has_key grades_key _ (tbl_grades db)) eqn:Hkey.
  - unbind H. inversion H; subst; clear H. simpl.
    apply has_key_true in Hkey as (old & Hold & Hko).
    eexists. split; [|split].
    + rewrite map_fmap. apply list_elem_of_fmap_2. exact Hold.
    + rewrite bool_decide_eq_true_2 by congruence. reflexivity.
    + rewrite bool_decide_eq_true_2 by congruence. done.
  - unbind H. inversion H; subst; clear H. simpl.
    exists a. split; [|done]. apply elem_of_app. right. apply list_elem_of_here.
Qed.

Lemma upsert_grades_row_keeps e k c seen i db db' g :
  upsert_grades_row e k c seen i db = Ok db' →
  grades_key g ≠ grades_input_key i →
  g ∈ tbl_grades db → g ∈ tbl_grades db'.
Proof.
  unfold upsert_grades_row. intros H Hne Hg. unbind H.
  apply grades_proposed_Ok in Hstep as (Hk & _). rewrite Hk in H.
  destruct (has_key grades_key _ (tbl_grades db)).
  - unbind H. inversion H; subst; clear H. simpl.
    rewrite map_fmap. apply list_elem_of_fmap. exists g. split; [|done].
    by rewrite bool_decide_eq_false_2 by congruence.
  - unbind H. inversion H; subst; clear H. simpl.
    apply elem_of_app. by left.
Qed.

Lemma upsert_grades_rows_keeps e c rs : ∀ k seen db db' n g,
  upsert_grades_rows e c k seen rs db = Ok (db', n) →
  grades_key g ∉ map grades_input_key rs →
  g ∈ tbl_grades db → g ∈ tbl_grades db'.
Proof.
  induction rs as [|i rs IH]; simpl; intros k seen db db' n g H Hno Hg.
  - by inversion H; subst.
  - unbind H. destruct a0 as [db2 m]. inversion H; subst; clear H.
    apply not_elem_of_cons in Hno as [Hne Hno].
    eapply IH; [exact Hstep0 | done |]. eauto using upsert_grades_row_keeps.
Qed.

Lemma upsert_grades_rows_seen e c rs : ∀ k seen db db' n key p x,
  upsert_grades_rows e c k seen rs db = Ok (db', n) →
  key ∈ seen →
  grade_row_for db key p x → grade_row_for db' key p x.
Proof.
  induction rs as [|i rs IH]; simpl; intros k seen db db' n key p x H Hseen Hrow.
  - by inversion H; subst.
  - unbind H. destruct a0 as [db2 m]. inversion H; subst; clear H.
    assert (Hne : key ≠ grades_input_key i).
    { intros ->. apply upsert_grades_row_writes in Hstep as [Hno|Hno].
      - by apply Hno.
      - destruct Hrow as (row & Hrow & Hk & _).
        rewrite has_key_false in Hno. by apply (Hno row Hrow). }
    eapply IH; [exact Hstep0 | by apply list_elem_of_further |].
    destruct Hrow as (g & Hg & Hk & Hrest).
    exists g. split; [|done].
    eapply upsert_grades_row_keeps; [exact Hstep | congruence | done].
Qed.

Lemma upsert_grades_rows_stores e c rs : ∀ k seen db db' n i,
  upsert_grades_rows e c k seen rs db = Ok (db', n) →
  i ∈ rs →
  ∃ p x, stored_score (grades.i_partial_score i) p
       ∧ stored_score (grades.i_exam_score i) x
       ∧ grade_row_for db' (grades_input_key i) p x.
Proof.
  induction rs as [|j rs IH]; simpl; intros k seen db db' n i H Hi.
  - by apply elem_of_nil in Hi.
  - unbind H. destruct a0 as [db2 m]. inversion H; subst; clear H.
    apply elem_of_cons in Hi as [->|Hi]; [|eauto].
    apply upsert_grades_row_stores in Hstep as (p & x & Hp & Hx & Hrow).
    exists p, x. split; [done|]. split; [done|].
    eapply upsert_grades_rows_seen; [exact Hstep0 | apply list_elem_of_here | done].
Qed.

(** ON CONFLICT DO UPDATE rewrites a row in place. *)
Lemma upsert_grades_row_in_place e k c seen i db db' g :
  upsert_grades_row e k c seen i db = Ok db' → g ∈ tbl_grades db →
  ∃ g', g' ∈ tbl_grades db' ∧ grades.id g' = grades.id g
      ∧ grades.created_at g' = grades.created_at g
      ∧ grades_key g' = grades_key g.
Proof.
  unfold upsert_grades_row. intros H Hg. unbind H.
  apply grades_proposed_Ok in Hstep as (Hk & _). rewrite Hk in H.
  destruct (has_key grades_key _ (tbl_grades db)).
  - unbind H. inversion H; subst; clear H. simpl.
    eexists. split; [rewrite map_fmap; apply list_elem_of_fmap_2; exact Hg|].
    destruct (decide (grades_key g = grades_input_key i)) as [Heq|Hne].
    + rewrite bool_decide_eq_true_2 by done. by rewrite Heq.
    + by rewrite bool_decide_eq_false_2 by done.
  - unbind H. inversion H; subst; clear H. simpl.
    exists g. split; [|done]. apply elem_of_app. by left.
Qed.

Lemma upsert_grades_rows_in_place e c rs : ∀ k seen db db' n g,
  upsert_grades_rows e c k seen rs db = Ok (db', n) → g ∈ tbl_grades db →
  ∃ g', g' ∈ tbl_grades db' ∧ grades.id g' = grades.id g
      ∧ grades.created_at g' = grades.created_at g
      ∧ grades_key g' = grades_key g.
Proof.
  induction rs as [|i rs IH]; simpl; intros k seen db db' n g H Hg.
  - inversion H; subst. eauto.
  - unbind H. destruct a0 as [db2 m]. inversion H; subst; clear H.
    eapply upsert_grades_row_in_place in Hstep as (g1 & Hg1 & Hid & Hc & Hk); [|exact Hg].
    eapply IH in Hstep0 as (g2 & Hg2 & Hid2 & Hc2 & Hk2); [|exact Hg1].
    exists g2. split; [done|]. split; [congruence|]. split; congruence.
Qed.

Lemma upsert_grades_rows_count e c rs : ∀ k seen db db' n,
  upsert_grades_rows e c k seen rs db = Ok (db', n) → n = length rs.
Proof.
  induction rs as [|j rs IH]; simpl; intros k seen db db' n H.
  - by inversion H.
  - unbind H. destruct a0 as [db2 m]. inversion H; subst; clear H.
    f_equal. eauto.
Qed.

(** X13: after a save of the Grades page that the store accepted, one
    record was written per entry of the page's map; for every entry the
    grades table holds a row for that student in the selected subject whose
    scores are what the page sent, as the columns keep it: a typed number
    rounded to two decimals, within 0 and 100; 0 where the text is not a
    number; NULL where the text reads as an infinity (as "1e999" does).  The
    row's average is generated from the two: half their sum when both are
    numbers, NULL when one is NULL.  Every grade row of another subject, or
    of a student without an entry, is still there unchanged.  A row that was
    there for an entry's student is rewritten in place: no grade row is
    lost, and each keeps its id, its key and its [created_at]. *)
Theorem grades_save_stored parseFloat toString st w n :
  Grades.selectedSubject st ≠ "" →
  (send (UpsertGrades (Grades.records parseFloat st)) w).2 = Done n →
  n = length (Grades.grades st)
  ∧ (∀ sid sc, (sid, sc) ∈ Grades.grades st →
       ∃ g,
         g ∈ tbl_grades (store (Grades.handleSave parseFloat toString st w).2)
         ∧ grades.student_id g = sid
         ∧ grades.subject_id g = Grades.selectedSubject st
         ∧ stored_score (Grades.parse_or_0 parseFloat (Grades.partial sc))
                        (grades.partial_score g)
         ∧ stored_score (Grades.parse_or_0 parseFloat (Grades.exam sc))
                        (grades.exam_score g)
         ∧ grades.average g
           = grades.generated_average (grades.partial_score g) (grades.exam_score g)
         ∧ (∀ p x, grades.partial_score g = Some p → grades.exam_score g = Some x →
                   grades.average g = Some (round_div (p + x) 2))
         ∧ (grades.partial_score g = None ∨ grades.exam_score g = None →
            grades.average g = None))
  ∧ (∀ g, g ∈ tbl_grades (store w) →
       grades.subject_id g ≠ Grades.selectedSubject st
       ∨ grades.student_id g ∉ map fst (Grades.grades st) →
       g ∈ tbl_grades (store (Grades.handleSave parseFloat toString st w).2))
  ∧ (∀ g, g ∈ tbl_grades (store w) →
       ∃ g', g' ∈ tbl_grades (store (Grades.handleSave parseFloat toString st w).2)
           ∧ grades.id g' = grades.id g
           ∧ grades.created_at g' = grades.created_at g
           ∧ grades_key g' = grades_key g).
Proof.
  intros Hsel Hdone. unfold Grades.handleSave.
  rewrite bool_decide_eq_false_2 by done. cbv zeta. rewrite Hdone. simpl.
  unfold send in Hdone. simpl in Hdone. unfold exec in *.
  destruct (run _ _ _ (store w)) as [[db' m]|err] eqn:Hrun; [|discriminate].
  simpl in *. injection Hdone as ->. unfold upsert_grades in Hrun.
  split; [|split; [|split]].
  - apply upsert_grades_rows_count in Hrun. unfold Grades.records in Hrun.
    by rewrite length_map in Hrun.
  - intros sid sc Hin.
    eapply upsert_grades_rows_stores in Hrun as (p & x & Hp & Hx & g & Hg & Hk & Hgp & Hgx & Ha).
    2: { unfold Grades.records. rewrite map_fmap.
         apply list_elem_of_fmap_2. exact Hin. }
    simpl in *. unfold grades_key, grades_input_key in Hk. simpl in Hk.
    injection Hk as Hst Hsu.
    exists g. rewrite Hgp, Hgx, Ha. repeat split; try done.
    + by intros p' x' -> ->.
    + intros [->| ->]; [done|by destruct p].
  - intros g Hg Hother.
    eapply upsert_grades_rows_keeps; [exact Hrun | | exact Hg].
    unfold Grades.records. rewrite map_map, map_fmap.
    intros (kv & Hk & Hkv)%list_elem_of_fmap. simpl in Hk.
    unfold grades_key, grades_input_key in Hk. simpl in Hk.
    injection Hk as Hst Hsu. destruct Hother as [Hne|Hno]; [done|].
    apply Hno. rewrite Hst, map_fmap. by apply list_elem_of_fmap_2.
  - intros g Hg. by eapply upsert_grades_rows_in_place.
Qed.

Lemma grades_save_stored_witness :
  (∃ g,
     g ∈ tbl_grades (store (Grades.handleSave sample_parseFloat (λ _, "") grades_page
                              (tab school (authenticated "ana"))).2)
     ∧ grades.student_id g = "s0"
     ∧ grades.partial_score g = Some 8000 ∧ grades.exam_score g = Some 9050
     ∧ grades.average g = Some 8525)
  ∧ (∃ g,
       g ∈ tbl_grades (store (Grades.handleSave sample_parseFloat (λ _, "") overflow_page
                                (tab school (authenticated "ana"))).2)
       ∧ grades.student_id g = "s0"
       ∧ grades.partial_score g = None ∧ grades.exam_score g = Some 9050
       ∧ grades.average g = None).
Proof.
  split.
  - destruct (grades_save_stored sample_parseFloat (λ _, "") grades_page
                (tab school (authenticated "ana")) 1) as (_ & Hstored & _ & _).
    + discriminate.
    + vm_compute. reflexivity.
    + destruct (Hstored "s0" {| Grades.partial := Some "80"; Grades.exam := Some "90.5" |})
        as (g & Hg & Hs & _ & Hp & Hx & _ & Ha & _).
      * apply list_elem_of_here.
      * exists g. vm_compute in Hp, Hx. destruct Hp as [Hp _], Hx as [Hx _].
        split; [exact Hg|]. split; [exact Hs|]. split; [exact Hp|].
        split; [exact Hx|]. exact (Ha 8000 9050 Hp Hx).
  - destruct (grades_save_stored sample_parseFloat (λ _, "") overflow_page
                (tab school (authenticated "ana")) 1) as (_ & Hstored & _ & _).
    + discriminate.
    + vm_compute. reflexivity.
    + destruct (Hstored "s0" {| Grades.partial := Some "1e999"; Grades.exam := Some "90.5" |})
        as (g & Hg & Hs & _ & Hp & Hx & _ & _ & Hn).
      * apply list_elem_of_here.
      * exists g. vm_compute in Hp, Hx. destruct Hx as [Hx _].
        split; [exact Hg|]. split; [exact Hs|]. split; [exact Hp|].
        split; [exact Hx|]. apply Hn. by left.
Defined.

(** ** The Reports page *)

Lemma Qle_bool_false (x y : Q) : Qle_bool x y = false ↔ (y < x)%Q.
Proof.
  rewrite <- not_true_iff_false, Qle_bool_iff. split.
  - apply Qnot_le_lt.
  - apply Qlt_not_le.
Qed.

(** Decide the comparisons a badge depends on. *)
Ltac badge_cases :=
  unfold Reports.getPerformanceBadge;
  repeat match goal with
         | |- context [Qle_bool ?x ?y] =>
             let H := fresh "Hcmp" in
             destruct (Qle_bool x y) eqn:H;
             [apply Qle_bool_iff in H | apply Qle_bool_false in H]
         end;
  simpl.

(** X14: the Performance label of a report line.  Each label has its
    region: Excellent from grade 85 and attendance 90; Good from grade 70
    and attendance 80 when not Excellent; Average exactly for grade at least
    70 with attendance from 70 to below 80; Needs Attention exactly when the
    grade or the attendance is below 70.  A better grade together with a
    better attendance never gives a worse label. *)
Theorem performance_badge_regions :
  (∀ g a, Reports.getPerformanceBadge g a = Reports.Excellent
          ↔ (85 <= g)%Q ∧ (90 <= a)%Q)
  ∧ (∀ g a, Reports.getPerformanceBadge g a = Reports.Good
            ↔ (70 <= g)%Q ∧ (80 <= a)%Q ∧ ¬ ((85 <= g)%Q ∧ (90 <= a)%Q))
  ∧ (∀ g a, Reports.getPerformanceBadge g a = Reports.Average
            ↔ (70 <= g)%Q ∧ (70 <= a)%Q ∧ (a < 80)%Q)
  ∧ (∀ g a, Reports.getPerformanceBadge g a = Reports.NeedsAttention
            ↔ (g < 70)%Q ∨ (a < 70)%Q)
  ∧ (∀ g a g' a', (g <= g')%Q → (a <= a')%Q →
       (badge_rank (Reports.getPerformanceBadge g a)
        ≤ badge_rank (Reports.getPerformanceBadge g' a'))%nat).
Proof.
  split; [|split; [|split; [|split]]].
  - intros g a. badge_cases; split; try done; try (intros [? ?]; lra); intros; lra.
  - intros g a. badge_cases; split; try done;
      try (intros (? & ? & Hn); first [lra | exfalso; apply Hn; split; lra]);
      intros _; repeat split; try lra; intros [? ?]; lra.
  - intros g a. badge_cases; split; try done;
      try (intros (? & ? & ?); lra); intros _; repeat split; lra.
  - intros g a. badge_cases; split; try done;
      try (intros [?|?]; lra); intros _; first [left; lra | right; lra].
  - intros g a g' a' Hg Ha. badge_cases; try lia; lra.
Qed.

Lemma find_none_all {A} (f : A → bool) (l : list A) :
  (∀ x, x ∈ l → f x = false) → find f l = None.
Proof.
  induction l as [|a l IH]; simpl; intros Hf; [done|].
  rewrite (Hf a) by apply list_elem_of_here.
  apply IH. intros x Hx. apply Hf. by apply list_elem_of_further.
Qed.

Lemma filter_none_in {A} (P : A → Prop) `{∀ x, Decision (P x)} (l : list A) :
  (∀ x, x ∈ l → ¬ P x) → filter P l = [].
Proof.
  induction l as [|a l IH]; intros Hl; [done|].
  rewrite filter_cons_False by (apply Hl, list_elem_of_here).
  apply IH. intros x Hx. apply Hl. by apply list_elem_of_further.
Qed.

Lemma badge_no_grade (a : Q) :
  Reports.getPerformanceBadge 0 a = Reports.NeedsAttention.
Proof. reflexivity. Qed.

Lemma badge_no_attendance (g : Q) :
  Reports.getPerformanceBadge g 0 = Reports.NeedsAttention.
Proof.
  unfold Reports.getPerformanceBadge.
  change (Qle_bool 90 0) with false. change (Qle_bool 80 0) with false.
  change (Qle_bool 70 0) with false. by rewrite !andb_false_r, orb_true_r.
Qed.

(** X15: the report of a subject has one line per student the session can
    read, in the order read.  A student with no grade row in the subject
    that the session can read is reported with average 0, and so is one
    whose only grade row there has a NULL average; a student with no
    attendance row in the subject is reported with rate 0; in each of these
    cases the Performance label is Needs Attention, whatever the other
    figure. *)
Theorem report_lines percent Number st w :
  let listed := filter (λ s, permits (store w) (session w) T_students SELECT
                               (students_view s))
                       (tbl_students (store w)) in
  let report := Reports.reportData (Reports.fetchReportData percent Number st w).1 in
  map Reports.id_number report = map students.id_number listed
  ∧ ∀ k s, listed !! k = Some s →
      ∃ line, report !! k = Some line
        ∧ Reports.id_number line = students.id_number s
        ∧ ((∀ g, g ∈ tbl_grades (store w) →
                 permits (store w) (session w) T_grades SELECT (grades_view g) = true →
                 grades.subject_id g = Reports.selectedSubject st →
                 grades.student_id g = students.id s →
                 grades.average g = None) →
           Reports.average_grade line = 0%Q
           ∧ Reports.getPerformanceBadge (Reports.average_grade line)
                                         (Reports.attendance_rate line)
             = Reports.NeedsAttention)
        ∧ ((∀ a, a ∈ tbl_attendance (store w) →
                 permits (store w) (session w) T_attendance SELECT (attendance_view a)
                 = true →
                 attendance.subject_id a = Reports.selectedSubject st →
                 attendance.student_id a ≠ students.id s) →
           Reports.attendance_rate line = 0%Q
           ∧ Reports.getPerformanceBadge (Reports.average_grade line)
                                         (Reports.attendance_rate line)
             = Reports.NeedsAttention).
Proof.
  intros listed report. subst report.
  unfold Reports.fetchReportData, select. simpl. fold listed. split.
  - rewrite map_map. done.
  - intros k s Hk. rewrite map_fmap, list_lookup_fmap, Hk. simpl.
    eexists. split; [reflexivity|]. simpl. split; [done|]. split.
    + intros Hnone.
      match goal with
      | |- context [find ?f ?l] => destruct (find f l) as [g|] eqn:Hfind
      end.
      * apply find_some in Hfind as [Hin Hg%bool_decide_eq_true].
        apply list_elem_of_In, list_elem_of_filter in Hin as [Hsub Hin].
        apply list_elem_of_filter in Hin as [Hsee Hin].
        rewrite (Hnone g Hin (Is_true_true_1 _ Hsee) Hsub Hg).
        split; [done|]. apply badge_no_grade.
      * split; [done|]. apply badge_no_grade.
    + intros Hnone.
      match goal with
      | |- context [filter ?P (filter ?Q (filter ?R ?l))] =>
          assert (Hnil : filter P (filter Q (filter R l)) = [])
      end.
      { apply filter_none_in. intros a Ha%list_elem_of_filter.
        destruct Ha as [Hsub Ha%list_elem_of_filter]. destruct Ha as [Hsee Ha].
        by apply (Hnone a Ha (Is_true_true_1 _ Hsee) Hsub). }
      rewrite Hnil. simpl. split; [done|]. apply badge_no_attendance.
Qed.

(** ** Signing up *)

Lemma insert_user_derived e u db db' n :
  insert_user e u db = Ok (db', n) →
  ∃ name, derived_username u = Some name
        ∧ has_key profiles.username name (tbl_profiles db) = false
        ∧ has_key profiles.username name (tbl_profiles db') = true.
Proof.
  unfold insert_user, handle_new_user. intros H. unbind H.
  destruct a0 as [db1 m]. inversion H; subst; clear H.
  apply insert_profile_Ok in Hstep0 as (name & Hname & _ & Hfree & _ & ->).
  simpl in *. exists (clip 50 name).
  split; [unfold derived_username; by rewrite Hname|]. split; [exact Hfree|].
  rewrite has_key_app. simpl. rewrite bool_decide_eq_true_2 by done.
  by rewrite orb_true_r.
Qed.

(** X16: the sign-up trigger derives the profile's username from the
    metadata, else from the email's part before the at sign, and usernames
    are unique.  So an account with neither a username in its metadata nor
    an email cannot be created; an account whose derived username is already
    some profile's cannot be created; and of two accounts that derive the
    same username, the second is refused once the first exists.  A refused
    sign-up leaves no account behind. *)
Theorem signup_username_unique :
  (∀ e c u db, derived_username u = None →
     ∃ err, exec e c (InsertUser u) db = (db, Rejected err))
  ∧ (∀ e c u db name, derived_username u = Some name →
       has_key profiles.username name (tbl_profiles db) = true →
       ∃ err, exec e c (InsertUser u) db = (db, Rejected err))
  ∧ (∀ e c u1 db db1 n e2 c2 u2,
       exec e c (InsertUser u1) db = (db1, Done n) →
       derived_username u2 = derived_username u1 →
       ∃ err, exec e2 c2 (InsertUser u2) db1 = (db1, Rejected err)).
Proof.
  assert (Htaken : ∀ e c u db name, derived_username u = Some name →
            has_key profiles.username name (tbl_profiles db) = true →
            ∃ err, exec e c (InsertUser u) db = (db, Rejected err)).
  { intros e c u db name Hname Hused. unfold exec. simpl.
    destruct (insert_user e u db) as [[db' n]|err] eqn:Hrun; [|eauto].
    apply insert_user_derived in Hrun as (name' & Hn & Hfree & _).
    congruence. }
  split; [|split; [exact Htaken|]].
  - intros e c u db Hnone. unfold exec. simpl.
    destruct (insert_user e u db) as [[db' n]|err] eqn:Hrun; [|eauto].
    apply insert_user_derived in Hrun as (name & Hn & _). congruence.
  - intros e c u1 db db1 n e2 c2 u2 H1 Hsame.
    apply exec_Done in H1. simpl in H1.
    apply insert_user_derived in H1 as (name & Hn & _ & Hnow).
    apply (Htaken e2 c2 u2 db1 name); [congruence|done].
Qed.

Lemma signup_username_unique_witness :
  ∃ err, exec (draws "v") anon
           (InsertUser {| auth.users.id := "eva2";
                          auth.users.email := Some "eva.ruiz@college.edu";
                          auth.users.raw_user_meta_data := ∅ |})
           (exec (draws "u") anon (InsertUser eva) school).1
         = ((exec (draws "u") anon (InsertUser eva) school).1, Rejected err).
Proof.
  assert (H : exec (draws "u") anon (InsertUser eva) school
              = ((exec (draws "u") anon (InsertUser eva) school).1, Done 1))
    by (vm_compute; reflexivity).
  destruct signup_username_unique as (_ & _ & Hsecond).
  eapply Hsecond; [exact H|]. vm_compute. reflexivity.
Defined.

(** ** Searching students *)

Lemma prefix_spec (t s : string) :
  String.prefix t s = true ↔ ∃ post, s = t +:+ post.
Proof.
  revert t. induction s as [|d s IH]; intros [|c t]; simpl.
  - split; [by exists ""|done].
  - split; [done|]. intros [post Hp]. discriminate.
  - split; [eauto|done].
  - destruct (Ascii.ascii_dec c d) as [->|Hne].
    + rewrite IH. split.
      * intros [post ->]. by exists post.
      * intros [post Hp]. injection Hp as ->. by exists post.
    + split; [done|]. intros [post Hp]. injection Hp as Hc _. congruence.
Qed.

Lemma includes_spec (s t : string) :
  includes s t = true ↔ substring_of t s.
Proof.
  unfold substring_of. induction s as [|c s IH].
  - change (includes "" t) with (String.prefix t "" || false).
    rewrite orb_false_r, prefix_spec. split.
    + intros [post Hp]. by exists "", post.
    + intros (pre & post & Hp). destruct pre; [by exists post|discriminate].
  - change (includes (String c s) t)
      with (String.prefix t (String c s) || includes s t).
    rewrite orb_true_iff, prefix_spec, IH. split.
    + intros [[post Hp]|(pre & post & ->)].
      * by exists "", post.
      * by exists (String c pre), post.
    + intros (pre & post & Hp). destruct pre as [|d pre].
      * left. by exists post.
      * right. injection Hp as -> ->. by exists pre, post.
Qed.

(** X17: the search box of the Students page lists exactly the loaded
    students of whom the first name, the last name or the id number, in
    lower case, contains the search text in lower case; it lists them in
    the order loaded, and an empty search text lists them all. *)
Theorem search_lists_matches toLowerCase st :
  (∀ s, s ∈ Students.filteredStudents toLowerCase st
        ↔ s ∈ Students.students st
          ∧ (substring_of (toLowerCase (Students.search st))
                          (toLowerCase (students.first_name s))
             ∨ substring_of (toLowerCase (Students.search st))
                            (toLowerCase (students.last_name s))
             ∨ substring_of (toLowerCase (Students.search st))
                            (toLowerCase (students.id_number s))))
  ∧ sublist (Students.filteredStudents toLowerCase st) (Students.students st)
  ∧ (toLowerCase (Students.search st) = "" →
     Students.filteredStudents toLowerCase st = Students.students st).
Proof.
  split; [|split].
  - intros s. unfold Students.filteredStudents.
    rewrite list_elem_of_filter, Is_true_true, !orb_true_iff, !includes_spec. tauto.
  - apply sublist_filter.
  - intros Hempty. unfold Students.filteredStudents. rewrite Hempty.
    apply filter_all. intros s. by destruct (toLowerCase (students.first_name s)).
Qed.

(** ** Editing a subject *)

Lemma resave_subject e c s st db :
  primary_keys db → column_widths db →
  s ∈ tbl_subjects db →
  (∀ cmd row, permits db c T_subjects cmd row = true) →
  exec e c (UpdateSubject (subjects.id s) (Subjects.formData (Subjects.handleEdit s st))) db
  = (set_subjects db
       (map (λ r, if bool_decide (subjects.id r = subjects.id s)
                  then {| subjects.id := subjects.id r;
                          subjects.name := subjects.name r;
                          subjects.instructor := subjects.instructor r;
                          subjects.created_at := subjects.created_at r;
                          subjects.updated_at := now e |}
                  else r)
            (tbl_subjects db)),
     Done 1).
Proof.
  intros (_ & _ & _ & Hid & _) (_ & _ & Hfit) Hs Hperm.
  assert (Hhit : ∀ r, subject_hit db c UPDATE (subjects.id s) r
                      = bool_decide (subjects.id r = subjects.id s)).
  { intros r. unfold subject_hit. by rewrite !Hperm, !andb_true_r. }
  assert (Hone : filter (λ r, subject_hit db c UPDATE (subjects.id s) r) (tbl_subjects db)
                 = [s]).
  { rewrite <- (NoDup_map_filter_one subjects.id (tbl_subjects db) s Hid Hs).
    apply list_filter_iff. intros r. by rewrite Hhit, bool_decide_spec. }
  rewrite Forall_forall in Hfit. destruct (Hfit s Hs) as (F1 & F2).
  destruct (subjects_coerce_fits (Subjects.formData (Subjects.handleEdit s st)) F1 F2)
    as [Hc Hv].
  apply exec_Done. unfold run, update_subject.
  rewrite Hc. cbv zeta. rewrite Hv.
  simpl. rewrite Hone. simpl.
  rewrite Hperm. simpl. f_equal. f_equal. f_equal.
  apply map_ext_in. intros r Hr%list_elem_of_In. rewrite Hhit.
  destruct (bool_decide (subjects.id r = subjects.id s)) eqn:Hb; [|done].
  apply bool_decide_eq_true in Hb.
  by rewrite (NoDup_map_inj subjects.id _ r s Hid Hr Hs Hb).
Qed.

(** X18: opening the edit dialog on a listed subject and saving it
    unchanged, as a signed-in admin or teacher on any store the application
    can be in: the UPDATE is accepted, only the subject's [updated_at]
    moves, the page reports success, closes the dialog, clears the form and
    reads the subjects again. *)
Theorem subjects_edit_round_trip st w s uid :
  reachable (store w) →
  session w = authenticated uid →
  staff (store w) uid = true →
  s ∈ tbl_subjects (store w) →
  let r := Subjects.handleSubmit (Subjects.handleEdit s st) w in
  store r.2
    = set_subjects (store w)
        (map (λ x, if bool_decide (subjects.id x = subjects.id s)
                   then {| subjects.id := subjects.id x;
                           subjects.name := subjects.name x;
                           subjects.instructor := subjects.instructor x;
                           subjects.created_at := subjects.created_at x;
                           subjects.updated_at := now (draw w (length (requests w))) |}
                   else x)
             (tbl_subjects (store w)))
  ∧ refetched T_subjects
      (UpdateSubject (subjects.id s)
         {| subjects.i_name := subjects.name s;
            subjects.i_instructor := subjects.instructor s |})
      w r.2
  ∧ toasts r.2 = toasts w ++ [toast_success "Subject updated successfully"]
  ∧ Subjects.isDialogOpen r.1 = false
  ∧ Subjects.editingSubject r.1 = None
  ∧ Subjects.formData r.1 = Subjects.emptyForm.
Proof.
  intros Hreach Hsess Hstaff Hs r.
  assert (Hperm : ∀ cmd row, permits (store w) (session w) T_subjects cmd row = true).
  { intros cmd row. rewrite Hsess.
    apply permits_staff; [apply list_elem_of_further, list_elem_of_here|done]. }
  assert (Hexec := resave_subject (draw w (length (requests w))) (session w) s st
                     (store w) (reachable_primary_keys _ Hreach)
                     (reachable_column_widths _ Hreach) Hs Hperm).
  subst r. unfold Subjects.handleSubmit.
  change (Subjects.editingSubject (Subjects.handleEdit s st)) with (Some s).
  cbv zeta. unfold send. cbv zeta. rewrite Hexec. simpl.
  repeat split; try done.
  unfold refetched. simpl. by rewrite <- app_assoc.
Qed.

Lemma subjects_edit_round_trip_witness :
  let r := Subjects.handleSubmit (Subjects.handleEdit algebra subjects_page)
             (tab school (authenticated "ana")) in
  toasts r.2 = [toast_success "Subject updated successfully"]
  ∧ Subjects.isDialogOpen r.1 = false.
Proof.
  destruct (subjects_edit_round_trip subjects_page (tab school (authenticated "ana"))
              algebra "ana") as (_ & _ & Ht & Hd & _).
  - exact school_reachable.
  - reflexivity.
  - vm_compute. reflexivity.
  - vm_compute. apply list_elem_of_here.
  - exact (conj Ht Hd).
Defined.

(** ** Profiles come and go with their accounts *)

Lemma permits_profiles_insert_delete db uid cmd row :
  cmd = INSERT ∨ cmd = DELETE →
  permits db (authenticated uid) T_profiles cmd row = false.
Proof. intros [->| ->]; reflexivity. Qed.

(** X19: no policy lets a signed-in caller insert or delete a profile: an
    INSERT INTO profiles is refused, a DELETE reaches no row, and whatever
    statement a signed-in caller sends to a public table, the profiles
    afterwards are those of the same accounts as before.  Profiles are
    created by the sign-up trigger and removed with their account only. *)
Theorem profiles_follow_accounts e uid db :
  (∀ i, ∃ err, exec e (authenticated uid) (InsertProfile i) db = (db, Rejected err))
  ∧ (∀ t, exec e (authenticated uid) (DeleteProfile t) db = (db, Done 0))
  ∧ (∀ s t, statement_table s = Some t →
       map profiles.id (tbl_profiles (exec e (authenticated uid) s db).1)
       = map profiles.id (tbl_profiles db)).
Proof.
  assert (Hins : ∀ i, ∃ err, exec e (authenticated uid) (InsertProfile i) db
                             = (db, Rejected err)).
  { intros i. unfold exec. simpl.
    destruct (insert_profile e (authenticated uid) i db) as [[db' n]|err] eqn:Hrun;
      [|eauto].
    unfold insert_profile in Hrun. unbind Hrun.
    match goal with
    | H : permits _ _ _ _ _ = true |- _ =>
        by rewrite permits_profiles_insert_delete in H by auto
    end. }
  assert (Hdel : ∀ t, exec e (authenticated uid) (DeleteProfile t) db = (db, Done 0)).
  { intros t. unfold exec. simpl. unfold delete_profile.
    rewrite filter_none; [done|].
    intros x. unfold profile_hit.
    rewrite (permits_profiles_insert_delete db uid DELETE) by auto.
    by rewrite andb_false_r. }
  split; [exact Hins|]. split; [exact Hdel|].
  intros s t Hs. destruct (decide (t = T_profiles)) as [->|Hne].
  - destruct s; simpl in Hs; simplify_eq.
    + destruct (Hins i) as [err ->]. done.
    + unfold exec. simpl.
      destruct (update_profile (authenticated uid) target p db) as [[db' n]|err] eqn:Hrun;
        [|done].
      unfold update_profile in Hrun. split_run Hrun; inversion Hrun; subst; [done|].
      simpl. rewrite map_map. apply map_ext. intros row. by case_if.
    + by rewrite Hdel.
  - by rewrite (proj1 (proj2 (exec_frame e (authenticated uid) s t db Hs)) Hne).
Qed.

(** ** Deleting an account *)

(** X20: when the auth service deletes an account, the cascade removes the
    account's profile and all its role rows: afterwards the account holds no
    role at all, every other account holds exactly the roles it held, and
    the school's tables are untouched. *)
Theorem account_delete_cascades e c t db db' n :
  exec e c (DeleteUser t) db = (db', Done (S n)) →
  auth_users db' = filter (λ u, auth.users.id u ≠ t) (auth_users db)
  ∧ tbl_profiles db' = filter (λ p, profiles.id p ≠ t) (tbl_profiles db)
  ∧ tbl_user_roles db' = filter (λ r, user_roles.user_id r ≠ t) (tbl_user_roles db)
  ∧ (∀ r, has_role db' t r = false)
  ∧ (∀ who r, who ≠ t → has_role db' who r = has_role db who r)
  ∧ tbl_students db' = tbl_students db
  ∧ tbl_subjects db' = tbl_subjects db
  ∧ tbl_attendance db' = tbl_attendance db
  ∧ tbl_grades db' = tbl_grades db.
Proof.
  intros H. apply exec_Done in H. simpl in H. unfold delete_user in H.
  destruct (filter _ (auth_users db)) as [|h hit]; [discriminate|].
  inversion H; subst; clear H. simpl.
  do 3 (split; [done|]). split; [|split; [|done]].
  - intros r. apply not_true_iff_false. rewrite has_role_spec. simpl.
    intros (ur & Hur%list_elem_of_filter & Hid & _). by destruct Hur.
  - intros who r Hne. apply eq_true_iff_eq. rewrite !has_role_spec. simpl.
    split.
    + intros (ur & Hur%list_elem_of_filter & Hid & Hr). destruct Hur. eauto.
    + intros (ur & Hur & Hid & Hr). exists ur. split; [|done].
      apply list_elem_of_filter. split; [congruence|done].
Qed.

Lemma account_delete_cascades_witness :
  (∀ r, has_role (exec (draws "d") anon (DeleteUser "ana") school).1 "ana" r = false)
  ∧ tbl_students (exec (draws "d") anon (DeleteUser "ana") school).1
    = tbl_students school.
Proof.
  assert (H : exec (draws "d") anon (DeleteUser "ana") school
              = ((exec (draws "d") anon (DeleteUser "ana") school).1, Done 1))
    by (vm_compute; reflexivity).
  apply account_delete_cascades in H as (_ & _ & _ & Hnone & _ & Hs & _).
  exact (conj Hnone Hs).
Defined.

(** ** References to rows that are not there *)

Lemma insert_grade_refers e c i db db' n :
  insert_grade e c i db = Ok (db', n) →
  has_key students.id (grades.i_student_id i) (tbl_students db) = true
  ∧ has_key subjects.id (grades.i_subject_id i) (tbl_subjects db) = true.
Proof.
  unfold insert_grade. intros H. unbind H. foreign_keys_checked.
  apply grades_proposed_Ok in Hstep as (Hk & _).
  unfold grades_key, grades_input_key in Hk. injection Hk as <- <-. done.
Qed.

Lemma insert_attendance_refers e c i db db' n :
  insert_attendance e c i db = Ok (db', n) →
  has_key students.id (attendance.i_student_id i) (tbl_students db) = true
  ∧ has_key subjects.id (attendance.i_subject_id i) (tbl_subjects db) = true.
Proof.
  unfold insert_attendance. intros H. unbind H. foreign_keys_checked. done.
Qed.

Lemma upsert_grades_refers e c rs i db db' n :
  foreign_keys db →
  upsert_grades e c rs db = Ok (db', n) → i ∈ rs →
  has_key students.id (grades.i_student_id i) (tbl_students db) = true
  ∧ has_key subjects.id (grades.i_subject_id i) (tbl_subjects db) = true.
Proof.
  intros (_ & _ & _ & _ & Hgs & Hgj) H Hi. unfold upsert_grades in H.
  assert (Hf := upsert_grades_rows_frame _ _ _ _ _ _ _ _ H).
  destruct (upsert_grades_rows_refers _ _ _ _ _ _ _ _ H Hgs Hgj) as [Hs Hj].
  eapply upsert_grades_rows_stores in H as (p & x & _ & _ & g & Hg & Hk & _); [|exact Hi].
  unfold refers_to in Hs, Hj. rewrite Forall_forall in Hs, Hj.
  specialize (Hs g Hg). specialize (Hj g Hg). simpl in Hs, Hj.
  rewrite Hf in Hs, Hj. simpl in Hs, Hj.
  unfold grades_key, grades_input_key in Hk. injection Hk as <- <-. done.
Qed.

Lemma upsert_attendance_refers e c rs i db db' n :
  foreign_keys db →
  upsert_attendance e c rs db = Ok (db', n) → i ∈ rs →
  has_key students.id (attendance.i_student_id i) (tbl_students db) = true
  ∧ has_key subjects.id (attendance.i_subject_id i) (tbl_subjects db) = true.
Proof.
  intros (_ & _ & Has & Haj & _) H Hi. unfold upsert_attendance in H.
  assert (Hf := upsert_attendance_rows_frame _ _ _ _ _ _ _ _ H).
  destruct (upsert_attendance_rows_refers _ _ _ _ _ _ _ _ H Has Haj) as [Hs Hj].
  eapply upsert_attendance_rows_stores in H as (a & Ha & Hk & _); [|exact Hi].
  unfold refers_to in Hs, Hj. rewrite Forall_forall in Hs, Hj.
  specialize (Hs a Ha). specialize (Hj a Ha). simpl in Hs, Hj.
  rewrite Hf in Hs, Hj. simpl in Hs, Hj.
  unfold attendance_key, attendance_input_key in Hk. injection Hk as _ <- <-. done.
Qed.

(** X21: no grade or attendance record is stored for a student or a subject
    that is not in its table.  An INSERT of such a record is refused; and on
    any store the application can be in, an upsert that carries one such
    record (a page that still lists a student deleted meanwhile) is refused
    as a whole.  Nothing is written. *)
Theorem dangling_reference_rejected :
  (∀ e c i db,
     has_key students.id (grades.i_student_id i) (tbl_students db) = false
     ∨ has_key subjects.id (grades.i_subject_id i) (tbl_subjects db) = false →
     ∃ err, exec e c (InsertGrade i) db = (db, Rejected err))
  ∧ (∀ e c i db,
     has_key students.id (attendance.i_student_id i) (tbl_students db) = false
     ∨ has_key subjects.id (attendance.i_subject_id i) (tbl_subjects db) = false →
     ∃ err, exec e c (InsertAttendance i) db = (db, Rejected err))
  ∧ (∀ e c rs i db, reachable db → i ∈ rs →
     has_key students.id (grades.i_student_id i) (tbl_students db) = false
     ∨ has_key subjects.id (grades.i_subject_id i) (tbl_subjects db) = false →
     ∃ err, exec e c (UpsertGrades rs) db = (db, Rejected err))
  ∧ (∀ e c rs i db, reachable db → i ∈ rs →
     has_key students.id (attendance.i_student_id i) (tbl_students db) = false
     ∨ has_key subjects.id (attendance.i_subject_id i) (tbl_subjects db) = false →
     ∃ err, exec e c (UpsertAttendance rs) db = (db, Rejected err)).
Proof.
  split; [|split; [|split]].
  - intros e c i db Hmiss. unfold exec. simpl.
    destruct (insert_grade e c i db) as [[db' n]|err] eqn:Hrun; [|eauto].
    apply insert_grade_refers in Hrun as [Hs Hj]. destruct Hmiss; congruence.
  - intros e c i db Hmiss. unfold exec. simpl.
    destruct (insert_attendance e c i db) as [[db' n]|err] eqn:Hrun; [|eauto].
    apply insert_attendance_refers in Hrun as [Hs Hj]. destruct Hmiss; congruence.
  - intros e c rs i db Hreach Hi Hmiss. unfold exec. simpl.
    destruct (upsert_grades e c rs db) as [[db' n]|err] eqn:Hrun; [|eauto].
    eapply upsert_grades_refers in Hrun as [Hs Hj];
      [|by apply reachable_foreign_keys|exact Hi].
    destruct Hmiss; congruence.
  - intros e c rs i db Hreach Hi Hmiss. unfold exec. simpl.
    destruct (upsert_attendance e c rs db) as [[db' n]|err] eqn:Hrun; [|eauto].
    eapply upsert_attendance_refers in Hrun as [Hs Hj];
      [|by apply reachable_foreign_keys|exact Hi].
    destruct Hmiss; congruence.
Qed.

Lemma dangling_reference_rejected_witness :
  ∃ err, exec (draws "g") (authenticated "ana")
           (UpsertGrades [grade_for_luis (Some (num 80 0)) (Some (num 90 0));
                          {| grades.i_student_id := "gone"; grades.i_subject_id := "j0";
                             grades.i_partial_score := None; grades.i_exam_score := None;
                             grades.i_average := None |}])
           school
         = (school, Rejected err).
Proof.
  destruct dangling_reference_rejected as (_ & _ & Hup & _).
  eapply Hup; [exact school_reachable | apply list_elem_of_further, list_elem_of_here |].
  left. vm_compute. reflexivity.
Defined.

(** ** The range of the average *)

(** X22: in every reachable database, a grade row with both scores has an
    average that lies between the two scores, and all three lie between 0
    and 100. *)
Theorem average_between_scores db g p x :
  reachable db → g ∈ tbl_grades db →
  grades.partial_score g = Some p → grades.exam_score g = Some x →
  0 ≤ p ≤ 10000 ∧ 0 ≤ x ≤ 10000
  ∧ ∃ a, grades.average g = Some a ∧ Z.min p x ≤ a ≤ Z.max p x ∧ 0 ≤ a ≤ 10000.
Proof.
  intros Hreach Hg Hp Hx.
  apply reachable_grade_ok in Hreach. rewrite Forall_forall in Hreach.
  destruct (Hreach g Hg) as (Havg & Hcp & Hcx).
  rewrite Hp in Hcp. rewrite Hx in Hcx.
  apply score_check_range in Hcp, Hcx.
  split; [done|]. split; [done|].
  rewrite Havg, Hp, Hx. simpl. eexists. split; [reflexivity|].
  pose proof (round_div_2_nonneg (p + x) ltac:(lia)) as Hr.
  pose proof (Z.mod_pos_bound (p + x) 2 ltac:(lia)). lia.
Qed.

Lemma average_between_scores_witness :
  0 ≤ 8000 ≤ 10000 ∧ 0 ≤ 9000 ≤ 10000
  ∧ ∃ a, grades.average luis_grade = Some a
       ∧ Z.min 8000 9000 ≤ a ≤ Z.max 8000 9000 ∧ 0 ≤ a ≤ 10000.
Proof.
  apply (average_between_scores school_in_session luis_grade 8000 9000).
  - exact school_in_session_reachable.
  - vm_compute. apply list_elem_of_here.
  - reflexivity.
  - reflexivity.
Defined.

(** ** A refused write *)

Lemma send_rejected s w err :
  (send s w).2 = Rejected err →
  notify (toast_error (message err)) (send s w).1 = after_rejection s err w.
Proof.
  unfold send, after_rejection, notify. simpl. intros H.
  destruct (exec _ _ s (store w)) as [db' out] eqn:Hexec. simpl in *. subst out.
  apply exec_Rejected in Hexec as [-> _]. done.
Qed.

(** X23: when the store refuses the write of a page, nothing changes but
    the log and the notifications: the store is the one before, the page
    keeps its state (the dialog stays open with the form as typed, the
    marks and scores stay), the error's message is shown, and the page does
    not read its table again. *)
Theorem rejection_keeps_page parseFloat toString err w :
  (∀ st, let s := match Students.editingStudent st with
                  | Some r => UpdateStudent (students.id r) (Students.formData st)
                  | None => InsertStudent (Students.formData st)
                  end in
     (send s w).2 = Rejected err →
     Students.handleSubmit st w = (st, after_rejection s err w))
  ∧ (∀ st id, (send (DeleteStudent id) w).2 = Rejected err →
       Students.handleDelete true id st w = (st, after_rejection (DeleteStudent id) err w))
  ∧ (∀ st, let s := match Subjects.editingSubject st with
                    | Some r => UpdateSubject (subjects.id r) (Subjects.formData st)
                    | None => InsertSubject (Subjects.formData st)
                    end in
       (send s w).2 = Rejected err →
       Subjects.handleSubmit st w = (st, after_rejection s err w))
  ∧ (∀ st id, (send (DeleteSubject id) w).2 = Rejected err →
       Subjects.handleDelete true id st w = (st, after_rejection (DeleteSubject id) err w))
  ∧ (∀ st, Attendance.selectedSubject st ≠ "" →
       (send (UpsertAttendance (Attendance.records st)) w).2 = Rejected err →
       Attendance.handleSave st w
       = (st, after_rejection (UpsertAttendance (Attendance.records st)) err w))
  ∧ (∀ st, Grades.selectedSubject st ≠ "" →
       (send (UpsertGrades (Grades.records parseFloat st)) w).2 = Rejected err →
       Grades.handleSave parseFloat toString st w
       = (st, after_rejection (UpsertGrades (Grades.records parseFloat st)) err w)).
Proof.
  split; [|split; [|split; [|split; [|split]]]].
  - intros st s Hrej. subst s. unfold Students.handleSubmit.
    destruct (Students.editingStudent st) as [r|]; cbv zeta; rewrite Hrej;
      by rewrite send_rejected.
  - intros st id Hrej. unfold Students.handleDelete. cbv zeta. rewrite Hrej.
    by rewrite send_rejected.
  - intros st s Hrej. subst s. unfold Subjects.handleSubmit.
    destruct (Subjects.editingSubject st) as [r|]; cbv zeta; rewrite Hrej;
      by rewrite send_rejected.
  - intros st id Hrej. unfold Subjects.handleDelete. cbv zeta. rewrite Hrej.
    by rewrite send_rejected.
  - intros st Hsel Hrej. unfold Attendance.handleSave.
    rewrite bool_decide_eq_false_2 by done. cbv zeta. rewrite Hrej.
    by rewrite send_rejected.
  - intros st Hsel Hrej. unfold Grades.handleSave.
    rewrite bool_decide_eq_false_2 by done. cbv zeta. rewrite Hrej.
    by rewrite send_rejected.
Qed.

(** ** Saving grades and seeing them again *)

Lemma upsert_grades_row_back e k c seen i db db' g :
  upsert_grades_row e k c seen i db = Ok db' →
  g ∈ tbl_grades db' → grades_key g ≠ grades_input_key i → g ∈ tbl_grades db.
Proof.
  unfold upsert_grades_row. intros H Hg Hne. unbind H.
  apply grades_proposed_Ok in Hstep as (Hk & _). rewrite Hk in H.
  destruct (has_key grades_key _ (tbl_grades db)).
  - unbind H. inversion H; subst; clear H. simpl in Hg.
    rewrite map_fmap in Hg. apply list_elem_of_fmap in Hg as (old & -> & Hold).
    destruct (decide (grades_key old = grades_input_key i)) as [Heq|Hno].
    + rewrite bool_decide_eq_true_2 in Hne by done. by destruct Hne.
    + by rewrite bool_decide_eq_false_2 by done.
  - unbind H. inversion H; subst; clear H. simpl in Hg.
    apply elem_of_app in Hg as [Hg|Hg%list_elem_of_singleton]; [done|].
    subst. by destruct Hne.
Qed.

Lemma upsert_grades_rows_back e c rs : ∀ k seen db db' n g,
  upsert_grades_rows e c k seen rs db = Ok (db', n) →
  g ∈ tbl_grades db' → grades_key g ∉ map grades_input_key rs → g ∈ tbl_grades db.
Proof.
  induction rs as [|i rs IH]; simpl; intros k seen db db' n g H Hg Hno.
  - by inversion H; subst.
  - unbind H. destruct a0 as [db2 m]. inversion H; subst; clear H.
    apply not_elem_of_cons in Hno as [Hne Hno].
    eapply upsert_grades_row_back; [exact Hstep | | exact Hne].
    eapply IH; [exact Hstep0 | exact Hg | exact Hno].
Qed.

Lemma upsert_grades_reader e c i rs db db' n :
  upsert_grades e c (i :: rs) db = Ok (db', n) →
  ∀ db2 row, permits db2 c T_grades SELECT row = true.
Proof.
  unfold upsert_grades. simpl. intros H. unbind H.
  unfold upsert_grades_row in Hstep. unbind Hstep.
  destruct c as [|uid|]; [done| |done].
  intros db2 row. apply permits_school_select.
  do 3 apply list_elem_of_further. apply list_elem_of_here.
Qed.

Lemma js_get_entries toString (data : list grades.row) (g : grades.row) :
  NoDup (map grades.student_id data) → g ∈ data →
  js_get (map (grade_entry toString) data) (grades.student_id g)
  = Some (grade_entry toString g).2.
Proof.
  induction data as [|x data IH]; simpl; intros Hnd Hg.
  - by apply elem_of_nil in Hg.
  - apply NoDup_cons in Hnd as [Hx Hnd].
    apply elem_of_cons in Hg as [->|Hg].
    + by rewrite bool_decide_eq_true_2.
    + rewrite bool_decide_eq_false_2; [by apply IH|].
      intros Heq. apply Hx. rewrite Heq, map_fmap. by apply list_elem_of_fmap_2.
Qed.

(** X24: saving grades and what the page shows next.  After a save that
    the store accepted the page loads the grades of the subject again.  When
    every text of the page reads as a number or as no number at all (so that
    a number is sent for it), on any store the application can be in and
    provided the other grade rows of the selected subject have both scores,
    the page then shows for every student it saved the values now stored:
    the typed scores rounded to two decimals, as text.  When a text reads as
    an infinity (as "1e999" does) a NULL was stored for it, the load stops at
    that row, and the page keeps the texts it had instead of what is
    stored. *)
Theorem grades_save_shows_stored parseFloat toString st w n :
  Grades.selectedSubject st ≠ "" →
  (send (UpsertGrades (Grades.records parseFloat st)) w).2 = Done n →
  (reachable (store w) →
   (∀ g, g ∈ tbl_grades (store w) →
         grades.subject_id g = Grades.selectedSubject st →
         grades.student_id g ∉ map fst (Grades.grades st) →
         is_Some (grades.partial_score g) ∧ is_Some (grades.exam_score g)) →
   (∀ sid sc, (sid, sc) ∈ Grades.grades st →
      is_Some (Grades.parse_or_0 parseFloat (Grades.partial sc))
      ∧ is_Some (Grades.parse_or_0 parseFloat (Grades.exam sc))) →
   ∀ sid sc, (sid, sc) ∈ Grades.grades st →
     ∃ vp vx,
       Grades.parse_or_0 parseFloat (Grades.partial sc) = Some vp
       ∧ Grades.parse_or_0 parseFloat (Grades.exam sc) = Some vx
       ∧ js_get (Grades.grades (Grades.handleSave parseFloat toString st w).1) sid
         = Some {| Grades.partial := Some (toString (to_scale_2 vp));
                   Grades.exam := Some (toString (to_scale_2 vx)) |})
  ∧ ((∃ sid sc, (sid, sc) ∈ Grades.grades st
        ∧ (Grades.parse_or_0 parseFloat (Grades.partial sc) = None
           ∨ Grades.parse_or_0 parseFloat (Grades.exam sc) = None)) →
     Grades.grades (Grades.handleSave parseFloat toString st w).1 = Grades.grades st
     ∧ ∃ g, g ∈ Grades.existingGrades (Grades.handleSave parseFloat toString st w).1
          ∧ (grades.partial_score g = None ∨ grades.exam_score g = None)).
Proof.
  intros Hsel Hdone.
  unfold Grades.handleSave. rewrite bool_decide_eq_false_2 by done.
  cbv zeta. rewrite Hdone.
  set (w' := notify _ _).
  unfold send in Hdone. simpl in Hdone. unfold exec in Hdone.
  destruct (run _ _ _ (store w)) as [[db' m]|err] eqn:Hrun; [|discriminate].
  simpl in Hrun.
  assert (Hstore : store w' = db').
  { subst w'. unfold send, exec. simpl. by rewrite Hrun. }
  assert (Hsess : session w' = session w) by done.
  assert (Hread : ∀ sid sc, (sid, sc) ∈ Grades.grades st →
            ∀ db2 row, permits db2 (session w) T_grades SELECT row = true).
  { intros sid sc Hin. apply list_elem_of_split in Hin as (l1 & l2 & Hl).
    unfold Grades.records in Hrun. rewrite Hl in Hrun.
    destruct l1 as [|y l1]; simpl in Hrun; by eapply upsert_grades_reader. }
  assert (Hrow : ∀ sid sc, (sid, sc) ∈ Grades.grades st →
            ∃ g, g ∈ tbl_grades db'
               ∧ grades_key g = (sid, Grades.selectedSubject st)
               ∧ stored_score (Grades.parse_or_0 parseFloat (Grades.partial sc))
                              (grades.partial_score g)
               ∧ stored_score (Grades.parse_or_0 parseFloat (Grades.exam sc))
                              (grades.exam_score g)).
  { intros sid sc Hin. unfold upsert_grades in Hrun.
    eapply upsert_grades_rows_stores in Hrun
      as (p & x & Hp & Hx & g & Hg & Hk & Hgp & Hgx & _).
    2: { unfold Grades.records. rewrite map_fmap.
         apply list_elem_of_fmap_2. exact Hin. }
    simpl in Hp, Hx, Hk. exists g. by rewrite Hgp, Hgx. }
  split.
  - intros Hreach Hothers Hnum sid sc Hin.
    assert (Hreach' : reachable (store w')).
    { rewrite Hstore.
      assert (Hex : (exec (draw w (length (requests w))) (session w)
                       (UpsertGrades (Grades.records parseFloat st)) (store w)).1 = db')
        by (unfold exec; simpl; by rewrite Hrun).
      rewrite <- Hex. by constructor. }
    assert (Hkeys : NoDup (map grades_key (tbl_grades db'))).
    { rewrite <- Hstore. by apply reachable_unique_constraints. }
    destruct (Hnum sid sc Hin) as [[vp Hvp] [vx Hvx]].
    destruct (Hrow sid sc Hin) as (g & Hg & Hk & Hp & Hx).
    rewrite Hvp in Hp. rewrite Hvx in Hx. destruct Hp as [Hgp _], Hx as [Hgx _].
    exists vp, vx. split; [done|]. split; [done|].
    unfold grades_key in Hk. injection Hk as Hst Hsu.
    rewrite fetchGrades_entries; [|exact Hreach'|].
    + rewrite Hstore, Hsess.
      rewrite (filter_all (λ g0, permits db' (session w) T_grades SELECT (grades_view g0)))
        by (intros g0; by eapply Hread).
      rewrite <- Hst, js_get_entries.
      * unfold grade_entry. simpl. by rewrite Hgp, Hgx.
      * by apply grades_subject_unique.
      * apply list_elem_of_filter. done.
    + rewrite Hstore, Hsess.
      rewrite (filter_all (λ g0, permits db' (session w) T_grades SELECT (grades_view g0)))
        by (intros g0; by eapply Hread).
      apply Forall_forall. intros g' [Hsub Hg']%list_elem_of_filter.
      destruct (decide (grades.student_id g' ∈ map fst (Grades.grades st))) as [Hyes|Hno].
      * rewrite map_fmap in Hyes.
        apply list_elem_of_fmap in Hyes as ([sid' sc'] & Hsid & Hin').
        simpl in Hsid.
        destruct (Hnum sid' sc' Hin') as [[vp' Hvp'] [vx' Hvx']].
        destruct (Hrow sid' sc' Hin') as (g2 & Hg2 & Hk2 & Hp2 & Hx2).
        assert (g' = g2) as ->.
        { apply (NoDup_map_inj grades_key (tbl_grades db') g' g2 Hkeys Hg' Hg2).
          rewrite Hk2. unfold grades_key. by rewrite Hsid, Hsub. }
        rewrite Hvp' in Hp2. rewrite Hvx' in Hx2.
        destruct Hp2 as [-> _], Hx2 as [-> _]. split; eauto.
      * apply Hothers; [|done|done].
        eapply upsert_grades_rows_back; [exact Hrun | exact Hg' |].
        unfold Grades.records. rewrite map_map, map_fmap.
        intros (kv & Hk' & Hkv)%list_elem_of_fmap. simpl in Hk'.
        unfold grades_key, grades_input_key in Hk'. simpl in Hk'.
        injection Hk' as Hst' Hsu'. apply Hno.
        rewrite Hst', map_fmap. by apply list_elem_of_fmap_2.
  - intros (sid & sc & Hin & Hnull).
    destruct (Hrow sid sc Hin) as (g & Hg & Hk & Hp & Hx).
    unfold grades_key in Hk. injection Hk as Hst Hsu.
    assert (Hgnull : grades.partial_score g = None ∨ grades.exam_score g = None).
    { destruct Hnull as [Hn|Hn]; [rewrite Hn in Hp; by left | rewrite Hn in Hx; by right]. }
    assert (Hdata : g ∈ filter (λ g0, grades.subject_id g0 = Grades.selectedSubject st)
                      (filter (λ g0, permits (store w') (session w') T_grades SELECT
                                       (grades_view g0))
                              (tbl_grades (store w')))).
    { apply list_elem_of_filter. split; [done|].
      apply list_elem_of_filter. rewrite Hstore, Hsess. split; [|done].
      rewrite (Hread sid sc Hin). done. }
    split.
    + unfold Grades.fetchGrades, select. cbv zeta. cbn [fst snd Grades.grades].
      by rewrite (gradesMap_null toString _ [] g Hdata Hgnull).
    + exists g. split; [exact Hdata|exact Hgnull].
Qed.

Lemma grades_save_shows_stored_witness :
  (∃ vp vx,
     Grades.parse_or_0 sample_parseFloat (Some "80") = Some vp
     ∧ Grades.parse_or_0 sample_parseFloat (Some "90.5") = Some vx
     ∧ js_get (Grades.grades
                 (Grades.handleSave sample_parseFloat (λ v, if bool_decide (v = 8000)
                                                           then "80" else "90.5")
                    grades_page (tab school (authenticated "ana"))).1) "s0"
       = Some {| Grades.partial :=
                   Some (if bool_decide (to_scale_2 vp = 8000) then "80" else "90.5");
                 Grades.exam :=
                   Some (if bool_decide (to_scale_2 vx = 8000) then "80" else "90.5") |})
  ∧ Grades.grades (Grades.handleSave sample_parseFloat (λ _, "") overflow_page
                     (tab school (authenticated "ana"))).1
    = [("s0", {| Grades.partial := Some "1e999"; Grades.exam := Some "90.5" |})].
Proof.
  split.
  - refine (proj1 (grades_save_shows_stored sample_parseFloat
                     (λ v, if bool_decide (v = 8000) then "80" else "90.5")
                     grades_page (tab school (authenticated "ana")) 1
                     ltac:(discriminate) ltac:(vm_compute; reflexivity))
                  school_reachable _ _
                  "s0" {| Grades.partial := Some "80"; Grades.exam := Some "90.5" |} _).
    + intros g Hg. vm_compute in Hg. by apply elem_of_nil in Hg.
    + intros sid sc Hin. apply list_elem_of_singleton in Hin. injection Hin as -> ->.
      split; vm_compute; eauto.
    + apply list_elem_of_here.
  - apply (proj2 (grades_save_shows_stored sample_parseFloat (λ _, "")
                    overflow_page (tab school (authenticated "ana")) 1
                    ltac:(discriminate) ltac:(vm_compute; reflexivity))).
    exists "s0", {| Grades.partial := Some "1e999"; Grades.exam := Some "90.5" |}.
    split; [apply list_elem_of_here|]. left. vm_compute. reflexivity.
Defined.

(** ** Deleting a student from the page *)

(** X25: deleting a student from the Students page.  Unless the user
    confirms, nothing is sent and nothing changes.  After the confirmation,
    for a signed-in admin or teacher and a student that is stored, the store
    removes the student together with the student's attendance and grade
    rows, the page reports success and reads the students again, and the
    list it then shows no longer holds the student. *)
Theorem students_delete_round_trip st w id uid :
  session w = authenticated uid →
  staff (store w) uid = true →
  has_key students.id id (tbl_students (store w)) = true →
  let r := Students.handleDelete true id st w in
  tbl_students (store r.2)
    = filter (λ x, students.id x ≠ id) (tbl_students (store w))
  ∧ tbl_attendance (store r.2)
    = filter (λ a, attendance.student_id a ≠ id) (tbl_attendance (store w))
  ∧ tbl_grades (store r.2)
    = filter (λ g, grades.student_id g ≠ id) (tbl_grades (store w))
  ∧ refetched T_students (DeleteStudent id) w r.2
  ∧ toasts r.2 = toasts w ++ [toast_success "Student deleted successfully"]
  ∧ (∀ s, s ∈ Students.students r.1 → students.id s ≠ id)
  ∧ Students.handleDelete false id st w = (st, w).
Proof.
  intros Hsess Hstaff Hkey r.
  assert (Ht : T_students ∈ school_tables) by apply list_elem_of_here.
  destruct (delete_student_succeeds (draw w (length (requests w))) (session w) id
              (store w)) as (db' & n & Hexec).
  { rewrite Hsess. by apply permits_staff. }
  { rewrite Hsess. by apply permits_staff. }
  { exact Hkey. }
  pose proof Hexec as Hrun. apply exec_Done in Hrun. simpl in Hrun.
  apply delete_student_Ok in Hrun.
  subst r. unfold Students.handleDelete. cbv zeta. unfold send. cbv zeta.
  rewrite Hexec. simpl. rewrite Hrun. simpl.
  repeat split; try done.
  - unfold refetched. simpl. by rewrite <- app_assoc.
  - intros s Hs. rewrite merge_sort_Permutation in Hs.
    apply list_elem_of_filter in Hs as [_ Hs].
    apply list_elem_of_filter in Hs as [Hne _]. exact Hne.
Qed.

Lemma students_delete_round_trip_witness :
  let w := tab school_in_session (authenticated "ana") in
  let r := Students.handleDelete true "s0" students_page w in
  tbl_students (store r.2) = filter (λ x, students.id x ≠ "s0") (tbl_students (store w))
  ∧ tbl_attendance (store r.2)
    = filter (λ a, attendance.student_id a ≠ "s0") (tbl_attendance (store w))
  ∧ tbl_grades (store r.2)
    = filter (λ g, grades.student_id g ≠ "s0") (tbl_grades (store w)).
Proof.
  destruct (students_delete_round_trip students_page
              (tab school_in_session (authenticated "ana")) "s0" "ana")
    as (Hs & Ha & Hg & _).
  - reflexivity.
  - vm_compute. reflexivity.
  - vm_compute. reflexivity.
  - exact (conj Hs (conj Ha Hg)).
Defined.

(** ** Marking attendance *)

(** X26: ticking a student's box on the Attendance page.  The records of a
    save change for that student only, whose record now carries the mark;
    a mark for a student who is not listed changes no record; and when the
    store accepts the save that follows, the attendance table holds the
    student's row for the selected date and subject with that mark. *)
Theorem attendance_mark_records studentId present st :
  Attendance.records (Attendance.handleAttendanceChange studentId present st)
  = map (λ r, if bool_decide (attendance.i_student_id r = studentId)
              then {| attendance.i_date := attendance.i_date r;
                      attendance.i_student_id := attendance.i_student_id r;
                      attendance.i_subject_id := attendance.i_subject_id r;
                      attendance.i_present := Some present |}
              else r)
        (Attendance.records st)
  ∧ (studentId ∉ map students.id (Attendance.students st) →
     Attendance.records (Attendance.handleAttendanceChange studentId present st)
     = Attendance.records st)
  ∧ (∀ w n s,
       Attendance.selectedSubject st ≠ "" →
       s ∈ Attendance.students st → students.id s = studentId →
       (send (UpsertAttendance
                (Attendance.records
                   (Attendance.handleAttendanceChange studentId present st))) w).2
       = Done n →
       ∃ a, a ∈ tbl_attendance
                  (store (Attendance.handleSave
                            (Attendance.handleAttendanceChange studentId present st) w).2)
          ∧ attendance.date a = Attendance.selectedDate st
          ∧ attendance.student_id a = studentId
          ∧ attendance.subject_id a = Attendance.selectedSubject st
          ∧ attendance.present a = present).
Proof.
  split; [|split].
  - unfold Attendance.records, Attendance.handleAttendanceChange. simpl.
    rewrite map_map. apply map_ext. intros s. simpl.
    destruct (decide (students.id s = studentId)) as [<-|Hne].
    + rewrite bool_decide_eq_true_2 by done. by rewrite lookup_insert_eq.
    + rewrite bool_decide_eq_false_2 by done. by rewrite lookup_insert_ne.
  - intros Hno. unfold Attendance.records, Attendance.handleAttendanceChange. simpl.
    apply map_ext_in. intros s Hs%list_elem_of_In.
    rewrite lookup_insert_ne; [done|]. intros Heq. apply Hno.
    rewrite Heq, map_fmap. by apply list_elem_of_fmap_2.
  - intros w n s Hsel Hs Hid Hdone.
    destruct (attendance_save_stored
                (Attendance.handleAttendanceChange studentId present st) w n s
                Hsel Hdone Hs) as (a & Ha & Hd & Hst & Hsu & Hp).
    exists a. split; [exact Ha|]. simpl in Hd, Hst, Hsu, Hp.
    rewrite Hid in Hst. rewrite Hid, lookup_insert_eq in Hp. done.
Qed.

(** ** A write the policies do not allow, seen from the page *)



